(** * Punktezettel generator: column layout, folder partition and editor

    A shallow embedding of [app.py].  Python integers are [Z], Python lists
    are [list], the dictionaries with fixed keys ([punkte], [descriptions],
    [teilaufgaben], the per-task layout) are records, and an openpyxl
    worksheet is a finite map from (row, column) to the value written there.
    Code that can raise returns a [result].

    Of a worksheet only the cell values are kept: fonts, fills, alignments,
    number formats, column widths and row heights write no value and are
    left out; the merged regions and the borders of a folder sheet are
    modelled on their own, beside the cell values.  [get_column_letter]
    belongs to openpyxl and is a parameter of the sheet builder; openpyxl
    names the columns 1 to 18278 and raises beyond, so what is proved of a
    sheet is proved of the program for sheets that end by that column.
    The formulas the program writes are text; how a spreadsheet reads the
    formula of an average cell is given in a section of its own. *)

From Stdlib Require Import Ascii.
From stdpp Require Import gmap strings list fin_maps pretty.

Open Scope Z_scope.

(** ** Python run-time behaviour used by the program *)

Inductive py_exn : Type :=
  | IndexError
  | ZeroDivisionError.

Inductive result (A : Type) : Type :=
  | Ok (a : A)
  | Raise (e : py_exn).

Arguments Ok {A} a.
Arguments Raise {A} e.

#[global] Instance result_ret : MRet result := λ A a, Ok a.
#[global] Instance result_bind : MBind result := λ A B f m,
  match m with
  | Ok a => f a
  | Raise e => Raise e
  end.

(** [for x in l: ...] where the body may raise: the first exception ends
    the loop. *)
Fixpoint mapR {A B : Type} (f : A → result B) (l : list A) : result (list B) :=
  match l with
  | [] => Ok []
  | x :: l' =>
      match f x with
      | Ok y =>
          match mapR f l' with
          | Ok ys => Ok (y :: ys)
          | Raise e => Raise e
          end
      | Raise e => Raise e
      end
  end.

(** [len(l)] *)
Definition len {A : Type} (l : list A) : Z := Z.of_nat (length l).

(** [range(n)]: empty when [n <= 0]. *)
Definition range (n : Z) : list Z := seqZ 0 n.

(** [enumerate(l, start)] *)
Definition enumerate {A : Type} (start : Z) (l : list A) : list (Z * A) :=
  imap (λ i x, (start + Z.of_nat i, x)) l.

(** A list index as Python resolves it: a negative index counts from the
    end, and an index outside the list has no position. *)
Definition py_pos {A : Type} (l : list A) (i : Z) : option nat :=
  let j := if bool_decide (i < 0) then i + len l else i in
  if bool_decide (0 ≤ j < len l) then Some (Z.to_nat j) else None.

(** [l[i]] *)
Definition py_getitem {A : Type} (l : list A) (i : Z) : result A :=
  match py_pos l i with
  | Some k =>
      match l !! k with
      | Some x => Ok x
      | None => Raise IndexError
      end
  | None => Raise IndexError
  end.

(** [l.pop(i)], keeping the list that remains. *)
Definition py_pop {A : Type} (l : list A) (i : Z) : result (list A) :=
  match py_pos l i with
  | Some k => Ok (delete k l)
  | None => Raise IndexError
  end.

(** [l[i]] followed by an in-place change of the object found there. *)
Definition py_update {A : Type} (l : list A) (i : Z) (f : A → result A)
  : result (list A) :=
  match py_pos l i with
  | Some k =>
      match l !! k with
      | Some x =>
          match f x with
          | Ok y => Ok (<[k := y]> l)
          | Raise e => Raise e
          end
      | None => Raise IndexError
      end
  | None => Raise IndexError
  end.

(** A slice bound as Python clips it to the list. *)
Definition py_bound {A : Type} (l : list A) (i : Z) : nat :=
  Z.to_nat (if bool_decide (i < 0) then Z.max (i + len l) 0 else Z.min i (len l)).

(** [l[a:b]] *)
Definition py_slice {A : Type} (l : list A) (a b : Z) : list A :=
  take (py_bound l b - py_bound l a) (drop (py_bound l a) l).

(** [l[:n]] *)
Definition py_slice_to {A : Type} (l : list A) (n : Z) : list A :=
  py_slice l 0 n.

(** [[x] * n]: empty when [n <= 0]. *)
Definition py_repeat {A : Type} (x : A) (n : Z) : list A :=
  replicate (Z.to_nat n) x.

(** ** The quotient of two integers as Python takes it

    [a / b] on Python integers is the binary64 number nearest to the exact
    quotient: ties go to the even mantissa, the subnormal numbers are
    included and a quotient below them is zero.  [math.ceil] then takes
    the least integer that is not below that number.  A quotient beyond
    the binary64 range, where Python raises OverflowError, needs a dividend
    of more than 1000 bits; the dividend here is the length of a list,
    which is below [2 ^ 63], so that case is not modelled. *)

(** The integer nearest to [num / den] for [0 < den]; of two equally near
    integers the even one. *)
Definition round_half_even (num den : Z) : Z :=
  let f := num `div` den in
  let r := num `mod` den in
  if bool_decide (2 * r < den) then f
  else if bool_decide (den < 2 * r) then f + 1
  else if Z.even f then f else f + 1.

(** The exponent of the last mantissa bit of the binary64 number nearest
    to [p / q], for [0 < p] and [0 < q]: [floor (log2 (p / q)) - 52], and
    [-1074] in the subnormal range. *)
Definition float_exponent (p q : Z) : Z :=
  let lg := if bool_decide (q ≤ p) then Z.log2 (p `div` q)
            else - Z.log2_up ((q + p - 1) `div` p) in
  Z.max (-1074) (lg - 52).

(** The binary64 number nearest to [p / q], for [0 ≤ p] and [0 < q], as a
    mantissa [m] and an exponent [e]: its value is [m * 2 ^ e]. *)
Definition float_quotient (p q : Z) : Z * Z :=
  if bool_decide (p = 0) then (0, 0)
  else
    let e := float_exponent p q in
    if bool_decide (0 ≤ e) then (round_half_even p (q * 2 ^ e), e)
    else (round_half_even (p * 2 ^ (- e)) q, e).

(** [math.ceil] and [math.floor] of the number [x.1 * 2 ^ x.2]. *)
Definition float_ceil (x : Z * Z) : Z :=
  if bool_decide (0 ≤ x.2) then x.1 * 2 ^ x.2
  else - ((- x.1) `div` 2 ^ (- x.2)).

Definition float_floor (x : Z * Z) : Z :=
  if bool_decide (0 ≤ x.2) then x.1 * 2 ^ x.2
  else x.1 `div` 2 ^ (- x.2).

(** [math.ceil(a / b)] on integers: division by zero raises; otherwise the
    quotient has the sign of [a * b] and the magnitude of the binary64
    number nearest to [|a| / |b|]. *)
Definition ceil_div (a b : Z) : result Z :=
  if bool_decide (b = 0) then Raise ZeroDivisionError
  else if bool_decide (0 ≤ a * b)
       then Ok (float_ceil (float_quotient (Z.abs a) (Z.abs b)))
       else Ok (- float_floor (float_quotient (Z.abs a) (Z.abs b))).


(** [a // b] and [a % b]; Python rounds the quotient down, as [Z.div]. *)
Definition py_floordiv (a b : Z) : result Z :=
  if bool_decide (b = 0) then Raise ZeroDivisionError else Ok (a `div` b).

Definition py_mod (a b : Z) : result Z :=
  if bool_decide (b = 0) then Raise ZeroDivisionError else Ok (a `mod` b).

(** [sep.join(l)] *)
Fixpoint py_join (sep : string) (l : list string) : string :=
  match l with
  | [] => EmptyString
  | [x] => x
  | x :: rest => x +:+ sep +:+ py_join sep rest
  end.

(** [sum(l)] *)
Definition sumZ (l : list Z) : Z := foldr Z.add 0 l.

(** ** Configuration held in the session state *)

Record Teilaufgabe : Type := mkTeilaufgabe {
  punkte : Z;
  descriptions : list string
}.

Record Aufgabe : Type := mkAufgabe {
  teilaufgaben : list Teilaufgabe
}.

Definition new_teilaufgabe : Teilaufgabe :=
  mkTeilaufgabe 4 (py_repeat EmptyString 4).

Definition new_aufgabe : Aufgabe :=
  mkAufgabe [new_teilaufgabe; new_teilaufgabe].

(** The session state either has no ["aufgaben"] entry yet or holds the
    task list. *)
Definition _init_state (st : option (list Aufgabe)) : list Aufgabe :=
  match st with
  | None => [new_aufgabe]
  | Some aufgaben => aufgaben
  end.

Definition _add_aufgabe (aufgaben : list Aufgabe) : list Aufgabe :=
  aufgaben ++ [new_aufgabe].

Definition _remove_aufgabe (idx : Z) (aufgaben : list Aufgabe)
  : result (list Aufgabe) :=
  if bool_decide (len aufgaben > 1) then py_pop aufgaben idx else Ok aufgaben.

Definition _add_teilaufgabe (a_idx : Z) (aufgaben : list Aufgabe)
  : result (list Aufgabe) :=
  py_update aufgaben a_idx
    (λ a, Ok (mkAufgabe (teilaufgaben a ++ [new_teilaufgabe]))).

Definition _remove_teilaufgabe (a_idx t_idx : Z) (aufgaben : list Aufgabe)
  : result (list Aufgabe) :=
  py_update aufgaben a_idx
    (λ a,
       let ta_list := teilaufgaben a in
       if bool_decide (len ta_list > 1)
       then ta_list' ← py_pop ta_list t_idx; Ok (mkAufgabe ta_list')
       else Ok a).

(** The body of [_sync_descriptions] on the subtask it has looked up. *)
Definition sync_teilaufgabe (new_punkte : Z) (ta : Teilaufgabe) : Teilaufgabe :=
  let old := descriptions ta in
  let descs :=
    if bool_decide (new_punkte > len old)
    then old ++ py_repeat EmptyString (new_punkte - len old)
    else if bool_decide (new_punkte < len old)
         then py_slice_to old new_punkte
         else old in
  mkTeilaufgabe new_punkte descs.

Definition _sync_descriptions (a_idx t_idx new_punkte : Z)
    (aufgaben : list Aufgabe) : result (list Aufgabe) :=
  py_update aufgaben a_idx
    (λ a,
       tas ← py_update (teilaufgaben a) t_idx
               (λ ta, Ok (sync_teilaufgabe new_punkte ta));
       Ok (mkAufgabe tas)).

(** The description field of the form: [ta["descriptions"][p_idx] = new_desc]
    under the guard [p_idx < len(ta["descriptions"])], for [p_idx] taken
    from [range(ta["punkte"])]. *)
Definition set_description (a_idx t_idx p_idx : Z) (new_desc : string)
    (aufgaben : list Aufgabe) : result (list Aufgabe) :=
  py_update aufgaben a_idx
    (λ a,
       tas ← py_update (teilaufgaben a) t_idx
               (λ ta,
                  if bool_decide (0 ≤ p_idx < len (descriptions ta))
                  then Ok (mkTeilaufgabe (punkte ta)
                             (<[Z.to_nat p_idx := new_desc]> (descriptions ta)))
                  else Ok ta);
       Ok (mkAufgabe tas)).

(** One interaction with the editor. *)
Inductive editor_op : Type :=
  | AddAufgabe
  | RemoveAufgabe (idx : Z)
  | AddTeilaufgabe (a_idx : Z)
  | RemoveTeilaufgabe (a_idx t_idx : Z)
  | SyncDescriptions (a_idx t_idx new_punkte : Z)
  | SetDescription (a_idx t_idx p_idx : Z) (new_desc : string).

Definition run_op (op : editor_op) (aufgaben : list Aufgabe)
  : result (list Aufgabe) :=
  match op with
  | AddAufgabe => Ok (_add_aufgabe aufgaben)
  | RemoveAufgabe idx => _remove_aufgabe idx aufgaben
  | AddTeilaufgabe a_idx => _add_teilaufgabe a_idx aufgaben
  | RemoveTeilaufgabe a_idx t_idx => _remove_teilaufgabe a_idx t_idx aufgaben
  | SyncDescriptions a_idx t_idx n => _sync_descriptions a_idx t_idx n aufgaben
  | SetDescription a_idx t_idx p_idx d => set_description a_idx t_idx p_idx d aufgaben
  end.

(** The configurations the editor can reach from a fresh session; a
    callback that raises leaves the stored configuration as it was. *)
Inductive reachable : list Aufgabe → Prop :=
  | reachable_init : reachable (_init_state None)
  | reachable_step op aufgaben aufgaben' :
      reachable aufgaben →
      run_op op aufgaben = Ok aufgaben' →
      reachable aufgaben'.

(** ** Column layout of a folder sheet *)

Record Layout : Type := mkLayout {
  teil_punkte : list Z;
  teil_descriptions : list (list string);
  n_teil : Z;
  ss_col : Z;
  s_cols : list Z;
  sum_block_end : Z;
  teil_point_starts : list Z
}.

(** The cursor's first value: column F. *)
Definition first_col : Z := 6.

(** Phase 1, the loop over [aufgaben] with the cursor [col]: returns the
    layouts appended and the cursor after the last block. *)
Fixpoint phase1 (aufgaben : list Aufgabe) (col : Z) : list Layout * Z :=
  match aufgaben with
  | [] => ([], col)
  | aufgabe :: rest =>
      let teil_punkte := punkte <$> teilaufgaben aufgabe in
      let n_teil := len teil_punkte in
      let ss_col := col in
      let s_cols := (λ t, col + 1 + t) <$> range n_teil in
      let sum_block_end := col + n_teil in
      let lay := mkLayout teil_punkte (descriptions <$> teilaufgaben aufgabe)
                   n_teil ss_col s_cols sum_block_end [] in
      let '(lays, col') := phase1 rest (sum_block_end + 1) in
      (lay :: lays, col')
  end.

(** Phase 2, inner loop over one task's point counts: the start columns
    appended and the cursor after the last run. *)
Fixpoint point_starts (pts : list Z) (col : Z) : list Z * Z :=
  match pts with
  | [] => ([], col)
  | p :: rest =>
      let '(starts, col') := point_starts rest (col + p) in
      (col :: starts, col')
  end.

(** Phase 2, outer loop over the layouts of phase 1. *)
Fixpoint phase2 (lays : list Layout) (col : Z) : list Layout * Z :=
  match lays with
  | [] => ([], col)
  | lay :: rest =>
      let '(starts, col1) := point_starts (teil_punkte lay) col in
      let lay' := mkLayout (teil_punkte lay) (teil_descriptions lay) (n_teil lay)
                    (ss_col lay) (s_cols lay) (sum_block_end lay)
                    (teil_point_starts lay ++ starts) in
      let '(rest', col2) := phase2 rest col1 in
      (lay' :: rest', col2)
  end.

(** The layouts [build_mappe_sheet] works with after both phases. *)
Definition aufgabe_layouts (aufgaben : list Aufgabe) : list Layout :=
  let '(lays, col) := phase1 aufgaben first_col in
  (phase2 lays col).1.

(** The columns in the order the cursor visits them. *)
Definition summary_block (lay : Layout) : list Z := ss_col lay :: s_cols lay.

Definition summary_columns (lays : list Layout) : list Z :=
  lays ≫= summary_block.

Definition point_run (start pts : Z) : list Z := (λ p, start + p) <$> range pts.

Definition point_block (lay : Layout) : list Z :=
  mjoin (zip_with point_run (teil_point_starts lay) (teil_punkte lay)).

Definition point_columns (lays : list Layout) : list Z :=
  lays ≫= point_block.

Definition all_columns (lays : list Layout) : list Z :=
  summary_columns lays ++ point_columns lays.

(** Shape of a configuration the editor hands over. *)
Definition wf_teilaufgabe (ta : Teilaufgabe) : Prop := 1 ≤ punkte ta.

Definition wf_aufgabe (a : Aufgabe) : Prop :=
  teilaufgaben a ≠ [] ∧ Forall wf_teilaufgabe (teilaufgaben a).

Definition wf_config (aufgaben : list Aufgabe) : Prop :=
  aufgaben ≠ [] ∧ Forall wf_aufgabe aufgaben.

#[global] Instance wf_teilaufgabe_dec (ta : Teilaufgabe) :
  Decision (wf_teilaufgabe ta).
Proof. unfold wf_teilaufgabe. apply _. Defined.

#[global] Instance wf_aufgabe_dec (a : Aufgabe) : Decision (wf_aufgabe a).
Proof. unfold wf_aufgabe. apply _. Defined.

#[global] Instance wf_config_dec (aufgaben : list Aufgabe) :
  Decision (wf_config aufgaben).
Proof. unfold wf_config. apply _. Defined.

(** ** Worksheets *)

(** A value written into a cell: a number or a text, a formula being a
    text that starts with the equals sign.  The exam date, a date object
    in the program, is passed around as a cell value. *)
Inductive cell_value : Type :=
  | VInt (z : Z)
  | VStr (s : string).

(** A cell write [ws.cell(row, column, value)]: the position, then the value. *)
Abbreviation write := ((Z * Z) * cell_value)%type.

Abbreviation worksheet := (gmap (Z * Z) cell_value).

Record Sheet : Type := mkSheet {
  title : string;
  cells : worksheet
}.

Definition ws_write (ws : worksheet) (w : write) : worksheet := <[w.1 := w.2]> ws.

(** Writes take effect in program order: a later write to a cell replaces
    an earlier one. *)
Definition ws_write_all (ws : worksheet) (ws_list : list write) : worksheet :=
  foldl ws_write ws ws_list.

(** A loop whose body writes cells and may raise. *)
Definition for_each {A : Type} (l : list A) (body : A → result (list write))
  : result (list write) :=
  match mapR body l with
  | Ok ws => Ok (concat ws)
  | Raise e => Raise e
  end.

(** A roster row: the first three columns of the uploaded table, as
    [str] renders them. *)
Record Student : Type := mkStudent {
  matr_nr : string;
  nachname : string;
  vorname : string
}.

Definition studenten_headers : list string :=
  ["Mappe"; "Stelle in Mappe"; "KlausurCode"; "Matrikelnummer"; "Nachname"; "Vorname"]%string.

(** One row of the overview sheet. *)
Definition studenten_row (studis_pro_mappe : Z) (idx : Z) (row : Student)
  : result (list write) :=
  let r := idx + 2 in
  q ← py_floordiv idx studis_pro_mappe;
  let mappe := q + 1 in
  stelle ← py_mod idx studis_pro_mappe;
  Ok [ ((r, 1), VInt mappe);
       ((r, 2), VInt stelle);
       ((r, 3), VStr (pretty mappe +:+ "_" +:+ pretty stelle));
       ((r, 4), VStr (matr_nr row));
       ((r, 5), VStr (nachname row));
       ((r, 6), VStr (vorname row)) ].

Definition build_studenten_sheet (students : list Student) (studis_pro_mappe : Z)
  : result Sheet :=
  let header := (λ '(c, h), ((1, c), VStr h)) <$> enumerate 1 studenten_headers in
  rows ← for_each (enumerate 0 students)
            (λ '(idx, row), studenten_row studis_pro_mappe idx row);
  Ok (mkSheet "Studenten" (ws_write_all ∅ (header ++ rows))).

(** [string.ascii_lowercase] as a list of one-letter strings. *)
Definition ascii_lowercase : list string :=
  [ "a"; "b"; "c"; "d"; "e"; "f"; "g"; "h"; "i"; "j"; "k"; "l"; "m";
    "n"; "o"; "p"; "q"; "r"; "s"; "t"; "u"; "v"; "w"; "x"; "y"; "z" ]%string.

Definition dquote : string := String (Ascii.ascii_of_nat 34) EmptyString.

(** The student rows of a folder sheet start below the six header rows. *)
Definition first_data_row : Z := 7.

Definition last_data_row (n_students : Z) : Z := 7 + n_students - 1.

Section FolderSheet.

(** [openpyxl.utils.get_column_letter]: the spreadsheet name of a column
    number.  The library is not part of the program; the sheet is built
    for any such naming. *)
Variable get_column_letter : Z → string.

(** [f"=SUM({get_column_letter(c1)}{r}:{get_column_letter(c2)}{r})"] *)
Definition sum_formula (c1 c2 r : Z) : string :=
  "=SUM(" +:+ get_column_letter c1 +:+ pretty r +:+ ":"
          +:+ get_column_letter c2 +:+ pretty r +:+ ")".

(** The formula of a per-column average cell, with the blank text as
    the second argument of IFERROR. *)
Definition average_formula (pc first_row last_row : Z) : string :=
  let pc_l := get_column_letter pc in
  "=IFERROR(AVERAGE(" +:+ pc_l +:+ pretty first_row +:+ ":"
     +:+ pc_l +:+ pretty last_row +:+ ")," +:+ dquote +:+ dquote +:+ ")".

(** The SS formula of a task in row [r]: from [s_cols[0]] to [s_cols[-1]]. *)
Definition ss_formula (lay : Layout) (r : Z) : result cell_value :=
  first ← py_getitem (s_cols lay) 0;
  last ← py_getitem (s_cols lay) (-1);
  Ok (VStr (sum_formula first last r)).

(** The S formula of a subtask in row [r]: over its run of point columns. *)
Definition s_formula (r : Z) (start pts : Z) : cell_value :=
  VStr (sum_formula start (start + pts - 1) r).

(** The loops that rows 4, 5 and 6 and the student rows run over one
    layout in row [r]: the SS cell, then for each subtask its S cell and
    the cells of its point columns ([p_cells pc p] for the [p]-th point
    column [pc]; the student rows write none). *)
Definition lay_cells (r : Z) (lay : Layout) (ss_value : result cell_value)
    (s_value : Z → Z → cell_value) (p_cells : Z → Z → result (list write))
  : result (list write) :=
  v ← ss_value;
  inner ← for_each (range (n_teil lay))
    (λ t_idx,
       sc ← py_getitem (s_cols lay) t_idx;
       st ← py_getitem (teil_point_starts lay) t_idx;
       pt ← py_getitem (teil_punkte lay) t_idx;
       pcs ← for_each (range pt) (λ p, p_cells (st + p) p);
       Ok (((r, sc), s_value st pt) :: pcs));
  Ok (((r, ss_col lay), v) :: inner).

(** Row 1: title and the SUM headers. *)
Definition row1 (semester : string) (lays : list Layout) : list write :=
  ((1, 1), VStr semester)
    :: ((λ lay, ((1, ss_col lay), VStr "SUM")) <$> lays).

(** The label [f"A{aufgabe_nr}.{t_idx + 1}"]. *)
Definition teil_label (aufgabe_nr t_idx : Z) : string :=
  "A" +:+ pretty aufgabe_nr +:+ "." +:+ pretty (t_idx + 1).

(** Row 2: date, folder number and the subtask labels over the point runs. *)
Definition row2 (exam_date : cell_value) (mappe_nr : Z) (lays : list Layout)
  : result (list write) :=
  labels ← for_each (enumerate 0 lays)
    (λ '(a_idx, lay),
       let aufgabe_nr := a_idx + 1 in
       for_each (enumerate 0 (teil_punkte lay))
         (λ '(t_idx, pts),
            start_c ← py_getitem (teil_point_starts lay) t_idx;
            Ok [((2, start_c), VStr (teil_label aufgabe_nr t_idx))]));
  Ok ([ ((2, 1), VStr "Datum:"); ((2, 3), exam_date);
        ((2, 4), VStr "Mappe"); ((2, 5), VInt mappe_nr) ] ++ labels).

(** Row 3: the rotated descriptions. *)
Definition row3_lay (a_idx : Z) (lay : Layout) : result (list write) :=
  let aufgabe_nr := a_idx + 1 in
  let label_text :=
    py_join " + " ((λ t, teil_label aufgabe_nr t) <$> range (n_teil lay)) in
  s_descs ← for_each (range (n_teil lay))
    (λ t_idx,
       sc ← py_getitem (s_cols lay) t_idx;
       Ok [((3, sc), VStr (teil_label aufgabe_nr t_idx))]);
  let descs_list := teil_descriptions lay in
  p_descs ← for_each (range (n_teil lay))
    (λ t_idx,
       descs ← (if bool_decide (t_idx < len descs_list)
                then py_getitem descs_list t_idx else Ok []);
       pt ← py_getitem (teil_punkte lay) t_idx;
       for_each (range pt)
         (λ p,
            st ← py_getitem (teil_point_starts lay) t_idx;
            let pc := st + p in
            desc ← (if bool_decide (p < len descs)
                    then py_getitem descs p else Ok EmptyString);
            Ok (if bool_decide (desc = EmptyString) then []
                else [((3, pc), VStr desc)])));
  Ok (((3, ss_col lay), VStr label_text) :: s_descs ++ p_descs).

Definition row3 (lays : list Layout) : result (list write) :=
  per_lay ← for_each (enumerate 0 lays) (λ '(a_idx, lay), row3_lay a_idx lay);
  Ok (((3, 5), VStr "Richtige Klausur?") :: per_lay).

(** Row 4: the column headers. *)
Definition row4_headers : list write :=
  [ ((4, 1), VStr "Nr"); ((4, 2), VStr "Matr-Nr");
    ((4, 3), VStr "Nachname"); ((4, 4), VStr "Vorname") ].

Definition row4 (lays : list Layout) : result (list write) :=
  per_lay ← for_each lays
    (λ lay,
       lay_cells 4 lay (Ok (VStr "SS")) (λ _ _, VStr "S")
         (λ pc p,
            letter ← py_getitem ascii_lowercase (p `mod` 26);
            Ok [((4, pc), VStr letter)]));
  Ok (row4_headers ++ per_lay).

(** Row 5: the maximum points. *)
Definition row5 (lays : list Layout) : result (list write) :=
  per_lay ← for_each lays
    (λ lay,
       lay_cells 5 lay (ss_formula lay 5) (s_formula 5)
         (λ pc _, Ok [((5, pc), VInt 1)]));
  Ok (((5, 1), VStr "Maximale Punkte") :: per_lay).

(** Row 6: the averages. *)
Definition row6 (n_students : Z) (lays : list Layout) : result (list write) :=
  per_lay ← for_each lays
    (λ lay,
       lay_cells 6 lay (ss_formula lay 6) (s_formula 6)
         (λ pc _,
            Ok [((6, pc),
                 VStr (average_formula pc first_data_row
                         (last_data_row n_students)))]));
  Ok (((6, 1), VStr "Durchschnittliche Punkte") :: per_lay).

(** One student row. *)
Definition student_row (lays : list Layout) (s_idx : Z) (student : Student)
  : result (list write) :=
  let r := 7 + s_idx in
  per_lay ← for_each lays
    (λ lay, lay_cells r lay (ss_formula lay r) (s_formula r) (λ _ _, Ok []));
  Ok ([ ((r, 1), VInt s_idx); ((r, 2), VStr (matr_nr student));
        ((r, 3), VStr (nachname student)); ((r, 4), VStr (vorname student)) ]
        ++ per_lay).

Definition student_rows (lays : list Layout) (students_in_mappe : list Student)
  : result (list write) :=
  for_each (enumerate 0 students_in_mappe)
    (λ '(s_idx, student), student_row lays s_idx student).

(** The cell values of one folder sheet, in the order they are written. *)
Definition mappe_writes (aufgaben : list Aufgabe)
    (students_in_mappe : list Student) (mappe_nr : Z) (semester : string)
    (exam_date : cell_value) : result (list write) :=
  let n_students := len students_in_mappe in
  let lays := aufgabe_layouts aufgaben in
  w2 ← row2 exam_date mappe_nr lays;
  w3 ← row3 lays;
  w4 ← row4 lays;
  w5 ← row5 lays;
  w6 ← row6 n_students lays;
  ws ← student_rows lays students_in_mappe;
  Ok (row1 semester lays ++ w2 ++ w3 ++ w4 ++ w5 ++ w6 ++ ws).

Definition build_mappe_sheet (sheet_name : string) (aufgaben : list Aufgabe)
    (students_in_mappe : list Student) (mappe_nr : Z) (semester : string)
    (exam_date : cell_value) : result Sheet :=
  w ← mappe_writes aufgaben students_in_mappe mappe_nr semester exam_date;
  Ok (mkSheet sheet_name (ws_write_all ∅ w)).

(** The students of folder [m] (0-based): [students.iloc[start_idx:end_idx]]. *)
Definition students_in_mappe (students : list Student) (studis_pro_mappe m : Z)
  : list Student :=
  let start_idx := m * studis_pro_mappe in
  let end_idx := Z.min (start_idx + studis_pro_mappe) (len students) in
  py_slice students start_idx end_idx.

(** The workbook: the overview sheet, then one sheet per folder. *)
Definition generate_excel (students : list Student) (aufgaben : list Aufgabe)
    (studis_pro_mappe : Z) (semester : string) (exam_date : cell_value)
  : result (list Sheet) :=
  n_mappen ← ceil_div (len students) studis_pro_mappe;
  studenten ← build_studenten_sheet students studis_pro_mappe;
  mappen ← mapR
    (λ m,
       let mappe_nr := m + 1 in
       build_mappe_sheet ("Mappe " +:+ pretty mappe_nr) aufgaben
         (students_in_mappe students studis_pro_mappe m)
         mappe_nr semester exam_date)
    (range n_mappen);
  Ok (studenten :: mappen).

End FolderSheet.

(** ** Data for examples *)

(** The usual spreadsheet column names A..Z, AA.., the way
    [get_column_letter] forms them; used where an example has to show a
    formula text. *)
Fixpoint column_name_go (fuel : nat) (col_idx : Z) (acc : string) : string :=
  match fuel with
  | O => acc
  | S fuel' =>
      if bool_decide (col_idx ≤ 0) then acc
      else
        let q := col_idx `div` 26 in
        let r := col_idx `mod` 26 in
        let '(q, r) := if bool_decide (r = 0) then (q - 1, 26) else (q, r) in
        column_name_go fuel' q
          (String (Ascii.ascii_of_nat (Z.to_nat (r + 64))) acc)
  end.

Definition column_name (col_idx : Z) : string :=
  column_name_go 8 col_idx EmptyString.

Definition config_1x44 : list Aufgabe := [new_aufgabe].

Definition config_2_3 : list Aufgabe :=
  [ mkAufgabe [mkTeilaufgabe 2 []; mkTeilaufgabe 3 []];
    mkAufgabe [mkTeilaufgabe 1 []; mkTeilaufgabe 2 []; mkTeilaufgabe 4 []] ].

Definition roster (n : nat) : list Student :=
  (λ i, mkStudent (pretty (100000 + Z.of_nat i)) ("N" +:+ pretty i) ("V" +:+ pretty i))
    <$> seq 0 n.

(** ** Closed forms of the cursor *)

(** Width of a task's summary block: the SS column and one S column per
    subtask. *)
Definition block_width (a : Aufgabe) : Z := 1 + len (teilaufgaben a).

(** Number of point columns of a task. *)
Definition points_width (a : Aufgabe) : Z := sumZ (punkte <$> teilaufgaben a).

(** Cursor before the summary block of task [a] (0-based). *)
Definition block_start (aufgaben : list Aufgabe) (a : nat) : Z :=
  first_col + sumZ (block_width <$> take a aufgaben).

(** Cursor when phase 2 begins: after the summary blocks of all tasks. *)
Definition phase2_start (aufgaben : list Aufgabe) : Z :=
  first_col + sumZ (block_width <$> aufgaben).

(** Cursor before the point run of subtask [t] of task [a] (both 0-based). *)
Definition run_start (aufgaben : list Aufgabe) (a t : nat) : Z :=
  phase2_start aufgaben
  + sumZ (points_width <$> take a aufgaben)
  + match aufgaben !! a with
    | Some aufgabe => sumZ (punkte <$> take t (teilaufgaben aufgabe))
    | None => 0
    end.

(** ** The cells of a layout, with the index look-ups resolved *)

(** The subtasks of a layout: S column, run start and point count. *)
Definition teil_triples (lay : Layout) : list (Z * (Z * Z)) :=
  zip (s_cols lay) (zip (teil_point_starts lay) (teil_punkte lay)).

(** The cells one subtask contributes to row [r]. *)
Definition teil_cells (r : Z) (s_value : Z → Z → cell_value)
    (pw : Z → Z → list write) (x : Z * (Z * Z)) : list write :=
  ((r, x.1), s_value x.2.1 x.2.2) :: (range x.2.2 ≫= λ p, pw (x.2.1 + p) p).

(** The cells one layout contributes to row [r]. *)
Definition lay_cells_list (r : Z) (lay : Layout) (v : cell_value)
    (s_value : Z → Z → cell_value) (pw : Z → Z → list write) : list write :=
  ((r, ss_col lay), v) :: (teil_triples lay ≫= teil_cells r s_value pw).

(** What the allocator establishes for each layout of a configuration
    whose tasks all have a subtask. *)
Definition lay_ok (lay : Layout) : Prop :=
  s_cols lay = seqZ (ss_col lay + 1) (n_teil lay)
  ∧ n_teil lay = len (teil_punkte lay)
  ∧ length (teil_point_starts lay) = length (teil_punkte lay)
  ∧ 1 ≤ n_teil lay.

(** The cells all layouts contribute to row [r]. *)
Definition row_cells (r : Z) (lays : list Layout) (v : Layout → cell_value)
    (s_value : Z → Z → cell_value) (pw : Z → Z → list write) : list write :=
  lays ≫= λ lay, lay_cells_list r lay (v lay) s_value pw.

(** The SS formula once [s_cols[0]] and [s_cols[-1]] are known. *)
Definition ss_value (get_column_letter : Z → string) (r : Z) (lay : Layout)
  : cell_value :=
  VStr (sum_formula get_column_letter (ss_col lay + 1) (ss_col lay + n_teil lay) r).

Definition row4_letter (pc p : Z) : list write :=
  [((4, pc), VStr (default EmptyString (ascii_lowercase !! Z.to_nat (p `mod` 26))))].

Definition row5_one (pc p : Z) : list write := [((5, pc), VInt 1)].

Definition row6_average (get_column_letter : Z → string) (n_students : Z)
    (pc p : Z) : list write :=
  [((6, pc),
    VStr (average_formula get_column_letter pc first_data_row
            (last_data_row n_students)))].

Definition no_point_cells (pc p : Z) : list write := [].

(** The cells of the row of the student at position [x.1] of the folder. *)
Definition student_cells (get_column_letter : Z → string) (lays : list Layout)
    (x : Z * Student) : list write :=
  let r := 7 + x.1 in
  [ ((r, 1), VInt x.1); ((r, 2), VStr (matr_nr x.2));
    ((r, 3), VStr (nachname x.2)); ((r, 4), VStr (vorname x.2)) ]
  ++ row_cells r lays (ss_value get_column_letter r)
       (s_formula get_column_letter r) no_point_cells.

(** The columns a layout contributes to a row, in the order rows 4 to 6
    visit them: the SS column, then per subtask the S column and its run. *)
Definition teil_columns (x : Z * (Z * Z)) : list Z :=
  x.1 :: point_run x.2.1 x.2.2.

Definition lay_columns (lay : Layout) : list Z :=
  ss_col lay :: (teil_triples lay ≫= teil_columns).

(** Rows 4, 5 and 6 and the student rows of a folder sheet as lists of
    cells. *)
Definition row4_list (lays : list Layout) : list write :=
  row4_headers ++ row_cells 4 lays (λ _, VStr "SS") (λ _ _, VStr "S") row4_letter.

Definition row5_list (get_column_letter : Z → string) (lays : list Layout)
  : list write :=
  ((5, 1), VStr "Maximale Punkte")
    :: row_cells 5 lays (ss_value get_column_letter 5)
         (s_formula get_column_letter 5) row5_one.

Definition row6_list (get_column_letter : Z → string) (n_students : Z)
    (lays : list Layout) : list write :=
  ((6, 1), VStr "Durchschnittliche Punkte")
    :: row_cells 6 lays (ss_value get_column_letter 6)
         (s_formula get_column_letter 6)
         (row6_average get_column_letter n_students).

Definition student_list (get_column_letter : Z → string) (lays : list Layout)
    (students : list Student) : list write :=
  enumerate 0 students ≫= student_cells get_column_letter lays.

(** What the editor keeps true of the stored configuration. *)
Definition nonempty_config (aufgaben : list Aufgabe) : Prop :=
  aufgaben ≠ [] ∧ Forall (λ a, teilaufgaben a ≠ []) aufgaben.

#[global] Instance nonempty_config_dec (aufgaben : list Aufgabe) :
  Decision (nonempty_config aufgaben).
Proof. unfold nonempty_config. apply _. Defined.

(** The configuration after one subtask of the initial task is removed. *)
Definition after_remove_teilaufgabe : list Aufgabe :=
  [mkAufgabe [new_teilaufgabe]].

(** ** The editor as the page drives it *)

(** The point field of the page is a number input bounded to 1..50, and
    its callback passes the entered value on to [_sync_descriptions]. *)
Definition ui_op_ok (op : editor_op) : Prop :=
  match op with
  | SyncDescriptions _ _ new_punkte => 1 ≤ new_punkte ≤ 50
  | _ => True
  end.

(** The configurations reachable through the page. *)
Inductive ui_reachable : list Aufgabe → Prop :=
  | ui_reachable_init : ui_reachable (_init_state None)
  | ui_reachable_step op aufgaben aufgaben' :
      ui_reachable aufgaben →
      ui_op_ok op →
      run_op op aufgaben = Ok aufgaben' →
      ui_reachable aufgaben'.

(** A subtask whose description list is in step with its point count. *)
Definition ta_in_sync (ta : Teilaufgabe) : Prop :=
  1 ≤ punkte ta ≤ 50 ∧ len (descriptions ta) = punkte ta.

Definition aufgabe_in_sync (a : Aufgabe) : Prop :=
  teilaufgaben a ≠ [] ∧ Forall ta_in_sync (teilaufgaben a).

Definition editor_inv (aufgaben : list Aufgabe) : Prop :=
  aufgaben ≠ [] ∧ Forall aufgabe_in_sync aufgaben.

(** A configuration reached through the page: the second subtask of the
    initial task resized to 2 points, then a task added. *)
Definition config_edited : list Aufgabe :=
  [ mkAufgabe [new_teilaufgabe; mkTeilaufgabe 2 [EmptyString; EmptyString]];
    new_aufgabe ].

(** ** Totals the page shows *)

(** "Gesamtpunkte": the sum over all tasks of the sum of their subtasks'
    point counts. *)
Definition total_points (aufgaben : list Aufgabe) : Z :=
  sumZ ((λ a, sumZ (punkte <$> teilaufgaben a)) <$> aufgaben).

(** The number of subtasks of all tasks. *)
Definition total_subtasks (aufgaben : list Aufgabe) : Z :=
  sumZ ((λ a, len (teilaufgaben a)) <$> aufgaben).

(** The point counts of a configuration, task by task. *)
Definition point_counts (aufgaben : list Aufgabe) : list (list Z) :=
  (λ a, punkte <$> teilaufgaben a) <$> aufgaben.

(** The positions a layout assigns: everything but the descriptions it
    carries along. *)
Definition layout_positions (lay : Layout)
  : list Z * Z * Z * list Z * Z * list Z :=
  (teil_punkte lay, n_teil lay, ss_col lay, s_cols lay, sum_block_end lay,
   teil_point_starts lay).

(** ** Rows 2 and 3 of a folder sheet, with the index look-ups resolved *)

Definition row2_fixed (exam_date : cell_value) (mappe_nr : Z) : list write :=
  [ ((2, 1), VStr "Datum:"); ((2, 3), exam_date);
    ((2, 4), VStr "Mappe"); ((2, 5), VInt mappe_nr) ].

(** The label cell of subtask [x.1] of task [a_idx]. *)
Definition row2_label (a_idx : Z) (lay : Layout) (x : Z * Z) : list write :=
  match teil_point_starts lay !! Z.to_nat x.1 with
  | Some start_c => [((2, start_c), VStr (teil_label (a_idx + 1) x.1))]
  | None => []
  end.

Definition row2_labels (lays : list Layout) : list write :=
  enumerate 0 lays ≫= λ y, enumerate 0 (teil_punkte y.2) ≫= row2_label y.1 y.2.

Definition row2_list (exam_date : cell_value) (mappe_nr : Z)
    (lays : list Layout) : list write :=
  row2_fixed exam_date mappe_nr ++ row2_labels lays.

(** The text of the SS cell in row 3. *)
Definition ss_description (a_idx : Z) (lay : Layout) : string :=
  py_join " + " ((λ t, teil_label (a_idx + 1) t) <$> range (n_teil lay)).

Definition row3_s_desc (a_idx : Z) (lay : Layout) (t_idx : Z) : list write :=
  match s_cols lay !! Z.to_nat t_idx with
  | Some sc => [((3, sc), VStr (teil_label (a_idx + 1) t_idx))]
  | None => []
  end.

(** The description of point [p] of subtask [t_idx] as row 3 reads it:
    the empty string where the lists are too short. *)
Definition desc_at (lay : Layout) (t_idx p : Z) : string :=
  default EmptyString
    (default [] (teil_descriptions lay !! Z.to_nat t_idx) !! Z.to_nat p).

Definition row3_desc_cell (lay : Layout) (t_idx st p : Z) : list write :=
  if bool_decide (desc_at lay t_idx p = EmptyString) then []
  else [((3, st + p), VStr (desc_at lay t_idx p))].

Definition row3_p_desc (lay : Layout) (t_idx : Z) : list write :=
  match teil_point_starts lay !! Z.to_nat t_idx,
        teil_punkte lay !! Z.to_nat t_idx with
  | Some st, Some pt => range pt ≫= row3_desc_cell lay t_idx st
  | _, _ => []
  end.

Definition row3_lay_list (a_idx : Z) (lay : Layout) : list write :=
  ((3, ss_col lay), VStr (ss_description a_idx lay))
    :: (range (n_teil lay) ≫= row3_s_desc a_idx lay)
    ++ (range (n_teil lay) ≫= row3_p_desc lay).

Definition row3_list (lays : list Layout) : list write :=
  ((3, 5), VStr "Richtige Klausur?")
    :: (enumerate 0 lays ≫= λ y, row3_lay_list y.1 y.2).

(** A configuration with descriptions: one task, a subtask of three
    points of which the second has no description. *)
Definition config_described : list Aufgabe :=
  [ mkAufgabe [ mkTeilaufgabe 3 ["Ansatz"%string; EmptyString; "Ergebnis"%string] ] ].

(** The text row 3 shows in the summary column at offset [i] of a task's
    block: the joined labels in the SS column, the subtask's label in the
    S columns. *)
Definition row3_summary_text (a_idx : Z) (lay : Layout) (i : Z) : string :=
  if bool_decide (i = 0) then ss_description a_idx lay
  else teil_label (a_idx + 1) (i - 1).

(** ** The overview sheet as a list of cells *)

Definition studenten_header : list write :=
  (λ '(c, h), ((1, c), VStr h)) <$> enumerate 1 studenten_headers.

(** The cells of the row of the student at roster position [x.1]. *)
Definition studenten_cells (studis_pro_mappe : Z) (x : Z * Student) : list write :=
  let r := x.1 + 2 in
  let mappe := x.1 `div` studis_pro_mappe + 1 in
  let stelle := x.1 `mod` studis_pro_mappe in
  [ ((r, 1), VInt mappe);
    ((r, 2), VInt stelle);
    ((r, 3), VStr (pretty mappe +:+ "_" +:+ pretty stelle));
    ((r, 4), VStr (matr_nr x.2));
    ((r, 5), VStr (nachname x.2));
    ((r, 6), VStr (vorname x.2)) ].

Definition studenten_list (studis_pro_mappe : Z) (students : list Student)
  : list write :=
  studenten_header ++ (enumerate 0 students ≫= studenten_cells studis_pro_mappe).

(** The cells of a folder sheet in the order they are written. *)
Definition mappe_list (get_column_letter : Z → string) (aufgaben : list Aufgabe)
    (students_in_mappe : list Student) (mappe_nr : Z) (semester : string)
    (exam_date : cell_value) : list write :=
  let lays := aufgabe_layouts aufgaben in
  row1 semester lays ++ row2_list exam_date mappe_nr lays
  ++ row3_list lays ++ row4_list lays
  ++ row5_list get_column_letter lays
  ++ row6_list get_column_letter (len students_in_mappe) lays
  ++ student_list get_column_letter lays students_in_mappe.

(** The sheets of the workbook for [n_mappen] folders. *)
Definition studenten_sheet (students : list Student) (studis_pro_mappe : Z)
  : Sheet :=
  mkSheet "Studenten" (ws_write_all ∅ (studenten_list studis_pro_mappe students)).

Definition mappe_sheet (get_column_letter : Z → string) (students : list Student)
    (aufgaben : list Aufgabe) (studis_pro_mappe : Z) (semester : string)
    (exam_date : cell_value) (m : Z) : Sheet :=
  mkSheet ("Mappe " +:+ pretty (m + 1))
    (ws_write_all ∅
       (mappe_list get_column_letter aufgaben
          (students_in_mappe students studis_pro_mappe m) (m + 1)
          semester exam_date)).

(** A computation that raises nothing but [IndexError]. *)
Definition only_index_error {A : Type} (r : result A) : Prop :=
  ∀ e, r = Raise e → e = IndexError.

(** A configuration with a task that has no subtasks. *)
Definition config_empty_task : list Aufgabe := [new_aufgabe; mkAufgabe []].

(** ** Merged cells of a folder sheet *)

(** A rectangle of cells, as [merge_cells] and [_set_medium_outline] take
    it: first and last row, first and last column. *)
Record cell_range : Type := mkRange {
  min_row : Z;
  max_row : Z;
  min_col : Z;
  max_col : Z
}.

Definition in_range (rg : cell_range) (k : Z * Z) : Prop :=
  (min_row rg ≤ k.1 ≤ max_row rg) ∧ (min_col rg ≤ k.2 ≤ max_col rg).

(** The top-left cell of a rectangle, the one that holds the value of a
    merged range. *)
Definition anchor (rg : cell_range) : Z * Z := (min_row rg, min_col rg).

(** The merge over the label of the subtask [x.1] with [x.2] points in
    row 2: made only when the run has more than one column. *)
Definition label_merge (lay : Layout) (x : Z * Z) : result (list cell_range) :=
  start_c ← py_getitem (teil_point_starts lay) x.1;
  let end_c := start_c + x.2 - 1 in
  Ok (if bool_decide (end_c > start_c) then [mkRange 2 2 start_c end_c] else []).

Definition label_merges (lays : list Layout) : result (list cell_range) :=
  per_lay ← mapR
    (λ lay,
       per_teil ← mapR (label_merge lay) (enumerate 0 (teil_punkte lay));
       Ok (concat per_teil))
    lays;
  Ok (concat per_lay).

(** The [merge_cells] calls of [build_mappe_sheet], in program order. *)
Definition mappe_merges (lays : list Layout) : result (list cell_range) :=
  labels ← label_merges lays;
  Ok (mkRange 1 1 1 5
        :: ((λ lay, mkRange 1 2 (ss_col lay) (sum_block_end lay)) <$> lays)
        ++ mkRange 2 2 1 2
        :: labels
        ++ [mkRange 5 5 1 5; mkRange 6 6 1 5]).

(** The same with the index look-ups resolved. *)
Definition label_merge_list (lay : Layout) (x : Z * Z) : list cell_range :=
  match teil_point_starts lay !! Z.to_nat x.1 with
  | Some start_c =>
      if bool_decide (start_c + x.2 - 1 > start_c)
      then [mkRange 2 2 start_c (start_c + x.2 - 1)] else []
  | None => []
  end.

Definition label_merge_ranges (lays : list Layout) : list cell_range :=
  lays ≫= λ lay, enumerate 0 (teil_punkte lay) ≫= label_merge_list lay.

Definition merge_list (lays : list Layout) : list cell_range :=
  mkRange 1 1 1 5
    :: ((λ lay, mkRange 1 2 (ss_col lay) (sum_block_end lay)) <$> lays)
    ++ mkRange 2 2 1 2
    :: label_merge_ranges lays
    ++ [mkRange 5 5 1 5; mkRange 6 6 1 5].

(** ** Borders of a folder sheet *)

(** The two line styles the program uses. *)
Inductive Side : Type :=
  | THIN
  | MEDIUM.

(** [Border(left=..., right=..., top=..., bottom=...)] *)
Record Border : Type := mkBorder {
  border_left : Side;
  border_right : Side;
  border_top : Side;
  border_bottom : Side
}.

Abbreviation border_map := (gmap (Z * Z) Border).

(** [range(a, b)] *)
Definition range_from (a b : Z) : list Z := seqZ a (b - a).

(** [_set_medium_outline]: every cell of the rectangle gets a border, thin
    inside and medium on the sides that lie on the rectangle's edge. *)
Definition _set_medium_outline (ws : border_map)
    (min_row max_row min_col max_col : Z) : border_map :=
  foldl
    (λ ws r,
       foldl
         (λ ws c,
            let left := if bool_decide (c = min_col) then MEDIUM else THIN in
            let right := if bool_decide (c = max_col) then MEDIUM else THIN in
            let top := if bool_decide (r = min_row) then MEDIUM else THIN in
            let bottom := if bool_decide (r = max_row) then MEDIUM else THIN in
            <[(r, c) := mkBorder left right top bottom]> ws)
         ws (range_from min_col (max_col + 1)))
    ws (range_from min_row (max_row + 1)).

(** A loop that threads a state and may raise. *)
Fixpoint foldR {S A : Type} (f : S → A → result S) (s : S) (l : list A)
  : result S :=
  match l with
  | [] => Ok s
  | x :: l' =>
      match f s x with
      | Ok s' => foldR f s' l'
      | Raise e => Raise e
      end
  end.

(** The border section of [build_mappe_sheet]: the outline of the leading
    columns, then per task the outline of its summary block and of the
    point columns of each subtask. *)
Definition mappe_borders (lays : list Layout) (n_students : Z)
  : result border_map :=
  let last_data_row_border := 6 + n_students in
  let ws := _set_medium_outline ∅ 4 last_data_row_border 1 5 in
  foldR
    (λ ws lay,
       let ws := _set_medium_outline ws 3 last_data_row_border
                   (ss_col lay) (sum_block_end lay) in
       foldR
         (λ ws t_idx,
            start_c ← py_getitem (teil_point_starts lay) t_idx;
            pts ← py_getitem (teil_punkte lay) t_idx;
            let end_c := start_c + pts - 1 in
            Ok (_set_medium_outline ws 3 last_data_row_border start_c end_c))
         ws (range (n_teil lay)))
    ws lays.

(** The border a cell [k] of the rectangle [rg] gets from the outline of
    [rg]. *)
Definition outline_border (rg : cell_range) (k : Z * Z) : Border :=
  mkBorder (if bool_decide (k.2 = min_col rg) then MEDIUM else THIN)
           (if bool_decide (k.2 = max_col rg) then MEDIUM else THIN)
           (if bool_decide (k.1 = min_row rg) then MEDIUM else THIN)
           (if bool_decide (k.1 = max_row rg) then MEDIUM else THIN).

Definition set_outline (ws : border_map) (rg : cell_range) : border_map :=
  _set_medium_outline ws (min_row rg) (max_row rg) (min_col rg) (max_col rg).

(** The cells of a rectangle, row by row. *)
Definition range_cells (rg : cell_range) : list (Z * Z) :=
  range_from (min_row rg) (max_row rg + 1)
    ≫= λ r, (λ c, (r, c)) <$> range_from (min_col rg) (max_col rg + 1).

(** The rectangles the border section outlines, in program order. *)
Definition run_outline (lay : Layout) (last_row t_idx : Z) : list cell_range :=
  match teil_point_starts lay !! Z.to_nat t_idx,
        teil_punkte lay !! Z.to_nat t_idx with
  | Some st, Some pt => [mkRange 3 last_row st (st + pt - 1)]
  | _, _ => []
  end.

Definition lay_outlines (last_row : Z) (lay : Layout) : list cell_range :=
  mkRange 3 last_row (ss_col lay) (sum_block_end lay)
    :: (range (n_teil lay) ≫= run_outline lay last_row).

Definition outline_list (lays : list Layout) (n_students : Z) : list cell_range :=
  mkRange 4 (6 + n_students) 1 5 :: (lays ≫= lay_outlines (6 + n_students)).

#[global] Instance cell_range_eq_dec : EqDecision cell_range.
Proof. solve_decision. Defined.

#[global] Instance in_range_dec (rg : cell_range) (k : Z * Z) :
  Decision (in_range rg k).
Proof. unfold in_range. apply _. Defined.

(** ** Formulas and how a spreadsheet reads them

    The program writes a formula as the text of a cell; the spreadsheet
    application that opens the workbook evaluates it.  This section gives
    the formula of an average cell as a term, the text of a term, and the
    value the application shows for a term, following the documented
    behaviour of the functions.  A range is the rectangle between its two
    corner cells, in whichever order they are written.  AVERAGE over a
    range takes the mean of the cells that hold a number, skips empty cells
    and text, and is the division error when no cell holds a number.
    IFERROR gives its second argument when the first is an error value.  A
    formula whose range contains its own cell is a circular reference,
    which is not an error value and so passes through IFERROR.  The value
    of a range that holds another formula is not given here. *)





(** What a cell of a range holds. *)
Inductive cell_reading : Type :=
  | CellBlank
  | CellNumber (z : Z)
  | CellText
  | CellFormula.

#[global] Instance cell_reading_eq_dec : EqDecision cell_reading.
Proof. solve_decision. Defined.







(** ** The name of the downloaded file *)

(** [s.replace(old, new)] for an [old] of one character. *)
Fixpoint str_replace_char (old : Ascii.ascii) (new : string) (s : string) : string :=
  match s with
  | EmptyString => EmptyString
  | String c rest =>
      if bool_decide (c = old) then new +:+ str_replace_char old new rest
      else String c (str_replace_char old new rest)
  end.

(** [f"Punktezettel_{semester.replace(' ', '_').replace('/', '')}.xlsx"] *)
Definition download_file_name (semester : string) : string :=
  "Punktezettel_"
    +:+ str_replace_char "/"%char EmptyString
          (str_replace_char " "%char "_" semester)
    +:+ ".xlsx".

(** The characters of a string and the number of times one occurs. *)
Definition str_chars (s : string) : list Ascii.ascii :=
  String.list_ascii_of_string s.

Definition str_count (c : Ascii.ascii) (s : string) : nat :=
  length (filter (λ x, x = c) (str_chars s)).

(** The last column openpyxl names: [get_column_letter] raises ValueError
    for a column beyond it, and so does merging cells there. *)
Definition max_column : Z := 18278.

(** * Properties *)

(** ** The result monad and the Python helpers *)

Lemma sumZ_app (l1 l2 : list Z) : sumZ (l1 ++ l2) = sumZ l1 + sumZ l2.
Proof. induction l1 as [|x l1 IH]; simpl; [done | rewrite IH; lia]. Qed.

Lemma sumZ_nonneg (l : list Z) : Forall (λ x, 0 ≤ x) l → 0 ≤ sumZ l.
Proof. induction 1; simpl; lia. Qed.

Lemma len_nonneg {A} (l : list A) : 0 ≤ len l.
Proof. unfold len. lia. Qed.

Lemma len_app {A} (l1 l2 : list A) : len (l1 ++ l2) = len l1 + len l2.
Proof. unfold len. rewrite length_app. lia. Qed.

Lemma len_fmap {A B} (f : A → B) (l : list A) : len (f <$> l) = len l.
Proof. unfold len. by rewrite length_fmap. Qed.


Lemma py_pos_nonneg {A} (l : list A) (i : Z) :
  0 ≤ i < len l → py_pos l i = Some (Z.to_nat i).
Proof.
  intros Hi. unfold py_pos.
  repeat case_bool_decide; done || lia.
Qed.

Lemma py_pos_lt {A} (l : list A) (i : Z) (k : nat) :
  py_pos l i = Some k → (k < length l)%nat.
Proof.
  unfold py_pos, len. intros H.
  repeat case_bool_decide; simplify_eq; lia.
Qed.

Lemma py_getitem_lookup {A} (l : list A) (i : nat) (x : A) :
  l !! i = Some x → py_getitem l (Z.of_nat i) = Ok x.
Proof.
  intros Hx. unfold py_getitem.
  rewrite py_pos_nonneg.
  - by rewrite Nat2Z.id, Hx.
  - apply lookup_lt_Some in Hx. unfold len. lia.
Qed.

Lemma py_getitem_last {A} (l : list A) (x : A) :
  last l = Some x → py_getitem l (-1) = Ok x.
Proof.
  intros Hx. unfold py_getitem, py_pos.
  rewrite last_lookup in Hx.
  assert (Hlt : (pred (length l) < length l)%nat) by (by apply lookup_lt_Some in Hx).
  rewrite (bool_decide_eq_true_2 (-1 < 0)) by lia.
  rewrite bool_decide_eq_true_2 by (unfold len; lia).
  replace (Z.to_nat (-1 + len l)) with (pred (length l)) by (unfold len; lia).
  by rewrite Hx.
Qed.

Lemma mapR_seqZ {B} (f : Z → result B) (l : list B) (k : Z) :
  (∀ (i : nat) (y : B), l !! i = Some y → f (k + Z.of_nat i) = Ok y) →
  mapR f (seqZ k (len l)) = Ok l.
Proof.
  revert k. induction l as [|y l IH]; intros k Hf.
  - done.
  - assert (Hs : seqZ k (len (y :: l)) = k :: seqZ (k + 1) (len l)).
    { unfold len. rewrite seqZ_cons by (simpl; lia).
      f_equal. f_equal; simpl; lia. }
    rewrite Hs. simpl mapR.
    pose proof (Hf 0%nat y eq_refl) as H0.
    replace (k + Z.of_nat 0) with k in H0 by lia. rewrite H0.
    rewrite IH; [done |].
    intros i z Hz. replace (k + 1 + Z.of_nat i) with (k + Z.of_nat (S i)) by lia.
    by apply Hf.
Qed.

Lemma mapR_range {B} (f : Z → result B) (l : list B) :
  (∀ (i : nat) (y : B), l !! i = Some y → f (Z.of_nat i) = Ok y) →
  mapR f (range (len l)) = Ok l.
Proof.
  intros Hf. unfold range. apply mapR_seqZ.
  intros i y Hy. rewrite Z.add_0_l. by apply Hf.
Qed.

Lemma mapR_ok {A B} (f : A → result B) (g : A → B) (l : list A) :
  (∀ x, x ∈ l → f x = Ok (g x)) → mapR f l = Ok (g <$> l).
Proof.
  induction l as [|x l IH]; intros Hf; [done |].
  simpl. rewrite Hf by left. rewrite IH; [done |].
  intros y Hy. apply Hf. by right.
Qed.

Lemma mapR_Forall {A B} (f : A → result B) (P : B → Prop) (l : list A) ys :
  mapR f l = Ok ys →
  (∀ x y, x ∈ l → f x = Ok y → P y) →
  Forall P ys.
Proof.
  revert ys. induction l as [|x l IH]; intros ys Hm HP; simpl in Hm.
  - by simplify_eq.
  - destruct (f x) as [y|] eqn:Hy; [|done].
    destruct (mapR f l) as [ys'|] eqn:Hys; [|done].
    simplify_eq. constructor.
    + eapply HP; [left | done].
    + apply IH; [done |]. intros x' y' Hx'. apply HP. by right.
Qed.

Lemma mapR_is_ok {A B} (f : A → result B) (l : list A) :
  (∀ x, x ∈ l → ∃ y, f x = Ok y) → ∃ ys, mapR f l = Ok ys.
Proof.
  induction l as [|x l IH]; intros Hf; [by eexists |].
  simpl. destruct (Hf x) as [y ->]; [left |].
  destruct IH as [ys ->]; [|by eexists].
  intros x' Hx'. apply Hf. by right.
Qed.

(** ** The allocator *)

Section Allocator.

Implicit Types (aufgaben : list Aufgabe) (lays : list Layout) (col : Z).

Lemma phase1_cursor aufgaben col :
  (phase1 aufgaben col).2 = col + sumZ (block_width <$> aufgaben).
Proof.
  revert col. induction aufgaben as [|a rest IH]; intros col; csimpl.
  - lia.
  - specialize (IH (col + len (punkte <$> teilaufgaben a) + 1)).
    destruct (phase1 rest _) as [lays col'] eqn:Hp. csimpl in *.
    rewrite IH, len_fmap. unfold block_width. lia.
Qed.

Lemma phase1_length aufgaben col :
  length (phase1 aufgaben col).1 = length aufgaben.
Proof.
  revert col. induction aufgaben as [|a rest IH]; intros col; csimpl; [done |].
  specialize (IH (col + len (punkte <$> teilaufgaben a) + 1)).
  destruct (phase1 rest _) as [lays col'] eqn:Hp. csimpl in *. by rewrite IH.
Qed.

Lemma phase1_lookup aufgaben col (a : nat) aufgabe :
  aufgaben !! a = Some aufgabe →
  (phase1 aufgaben col).1 !! a =
    let c := col + sumZ (block_width <$> take a aufgaben) in
    Some (mkLayout (punkte <$> teilaufgaben aufgabe)
            (descriptions <$> teilaufgaben aufgabe)
            (len (teilaufgaben aufgabe)) c
            ((λ t, c + 1 + t) <$> range (len (teilaufgaben aufgabe)))
            (c + len (teilaufgaben aufgabe)) []).
Proof.
  revert col a. induction aufgaben as [|a0 rest IH]; intros col a Ha; [done |].
  csimpl.
  specialize (IH (col + len (punkte <$> teilaufgaben a0) + 1)).
  destruct (phase1 rest _) as [lays col'] eqn:Hp. csimpl in *.
  destruct a as [|a]; csimpl in *.
  - simplify_eq. rewrite len_fmap, Z.add_0_r. done.
  - rewrite (IH a Ha). rewrite len_fmap.
    replace (col + (block_width a0 + sumZ (block_width <$> take a rest)))
      with (col + len (teilaufgaben a0) + 1 + sumZ (block_width <$> take a rest))
      by (unfold block_width; lia).
    done.
Qed.

Lemma point_starts_cursor (pts : list Z) col :
  (point_starts pts col).2 = col + sumZ pts.
Proof.
  revert col. induction pts as [|p pts IH]; intros col; csimpl; [lia |].
  specialize (IH (col + p)).
  destruct (point_starts pts _) as [st c] eqn:Hp. csimpl in *. lia.
Qed.

Lemma point_starts_length (pts : list Z) col :
  length (point_starts pts col).1 = length pts.
Proof.
  revert col. induction pts as [|p pts IH]; intros col; csimpl; [done |].
  specialize (IH (col + p)).
  destruct (point_starts pts _) as [st c] eqn:Hp. csimpl in *. by rewrite IH.
Qed.

Lemma point_starts_lookup (pts : list Z) col (t : nat) :
  (t < length pts)%nat →
  (point_starts pts col).1 !! t = Some (col + sumZ (take t pts)).
Proof.
  revert col t. induction pts as [|p pts IH]; intros col t Ht; csimpl in *; [lia |].
  specialize (IH (col + p)).
  destruct (point_starts pts _) as [st c] eqn:Hp. csimpl in *.
  destruct t as [|t]; csimpl.
  - f_equal. lia.
  - rewrite IH by lia. f_equal. lia.
Qed.

Lemma phase2_cursor lays col :
  (phase2 lays col).2 = col + sumZ ((λ lay, sumZ (teil_punkte lay)) <$> lays).
Proof.
  revert col. induction lays as [|lay rest IH]; intros col; csimpl; [lia |].
  pose proof (point_starts_cursor (teil_punkte lay) col) as Hc.
  destruct (point_starts _ col) as [st c1] eqn:Hp. csimpl in Hc.
  specialize (IH c1). destruct (phase2 rest c1) as [rest' c2] eqn:Hr.
  csimpl in *. lia.
Qed.

Lemma phase2_length lays col : length (phase2 lays col).1 = length lays.
Proof.
  revert col. induction lays as [|lay rest IH]; intros col; csimpl; [done |].
  destruct (point_starts _ col) as [st c1] eqn:Hp.
  specialize (IH c1). destruct (phase2 rest c1) as [rest' c2] eqn:Hr.
  csimpl in *. by rewrite IH.
Qed.

Lemma phase2_lookup lays col (a : nat) lay :
  lays !! a = Some lay →
  (phase2 lays col).1 !! a =
    let c := col + sumZ ((λ lay, sumZ (teil_punkte lay)) <$> take a lays) in
    Some (mkLayout (teil_punkte lay) (teil_descriptions lay) (n_teil lay)
            (ss_col lay) (s_cols lay) (sum_block_end lay)
            (teil_point_starts lay ++ (point_starts (teil_punkte lay) c).1)).
Proof.
  revert col a. induction lays as [|lay0 rest IH]; intros col a Ha; [done |].
  csimpl.
  pose proof (point_starts_cursor (teil_punkte lay0) col) as Hc.
  destruct (point_starts _ col) as [st c1] eqn:Hp. csimpl in Hc.
  specialize (IH c1). destruct (phase2 rest c1) as [rest' c2] eqn:Hr.
  csimpl in *.
  destruct a as [|a]; csimpl in *.
  - simplify_eq. by rewrite Z.add_0_r, Hp.
  - rewrite (IH a Ha). subst c1.
    replace (col + (sumZ (teil_punkte lay0)
                    + sumZ ((λ lay, sumZ (teil_punkte lay)) <$> take a rest)))
      with (col + sumZ (teil_punkte lay0)
            + sumZ ((λ lay, sumZ (teil_punkte lay)) <$> take a rest)) by lia.
    done.
Qed.

End Allocator.

Section Columns.

Implicit Types (aufgaben : list Aufgabe) (lays : list Layout) (col : Z).

Lemma aufgabe_layouts_unfold aufgaben :
  aufgabe_layouts aufgaben =
  (phase2 (phase1 aufgaben first_col).1 (phase1 aufgaben first_col).2).1.
Proof. unfold aufgabe_layouts. by destruct (phase1 aufgaben first_col). Qed.

Lemma phase1_teil_punkte aufgaben col :
  teil_punkte <$> (phase1 aufgaben col).1
  = (λ a, punkte <$> teilaufgaben a) <$> aufgaben.
Proof.
  revert col. induction aufgaben as [|a rest IH]; intros col; csimpl; [done |].
  specialize (IH (col + len (punkte <$> teilaufgaben a) + 1)).
  destruct (phase1 rest _) as [lays col'] eqn:Hp. csimpl in *. by rewrite IH.
Qed.

Lemma phase1_points_prefix aufgaben col (a : nat) :
  sumZ ((λ lay, sumZ (teil_punkte lay)) <$> take a (phase1 aufgaben col).1)
  = sumZ (points_width <$> take a aufgaben).
Proof.
  rewrite !fmap_take.
  change (λ lay, sumZ (teil_punkte lay)) with (sumZ ∘ teil_punkte).
  rewrite list_fmap_compose, phase1_teil_punkte.
  by rewrite <- list_fmap_compose.
Qed.

Lemma phase1_points_total aufgaben col :
  sumZ ((λ lay, sumZ (teil_punkte lay)) <$> (phase1 aufgaben col).1)
  = sumZ (points_width <$> aufgaben).
Proof.
  change (λ lay, sumZ (teil_punkte lay)) with (sumZ ∘ teil_punkte).
  rewrite list_fmap_compose, phase1_teil_punkte.
  by rewrite <- list_fmap_compose.
Qed.

(** The layout of task [a] in closed form. *)
Lemma aufgabe_layouts_lookup aufgaben (a : nat) aufgabe :
  aufgaben !! a = Some aufgabe →
  aufgabe_layouts aufgaben !! a =
    let c := block_start aufgaben a in
    let n := len (teilaufgaben aufgabe) in
    Some (mkLayout (punkte <$> teilaufgaben aufgabe)
            (descriptions <$> teilaufgaben aufgabe) n c
            ((λ t, c + 1 + t) <$> range n) (c + n)
            (point_starts (punkte <$> teilaufgaben aufgabe)
               (run_start aufgaben a 0)).1).
Proof.
  intros Ha. rewrite aufgabe_layouts_unfold.
  erewrite phase2_lookup by (by apply phase1_lookup).
  cbn zeta. cbn [teil_punkte teil_descriptions n_teil ss_col s_cols
                 sum_block_end teil_point_starts app].
  rewrite phase1_cursor, phase1_points_prefix.
  unfold run_start, phase2_start, block_start. rewrite Ha.
  rewrite take_0. csimpl. by rewrite Z.add_0_r.
Qed.

Lemma aufgabe_layouts_length aufgaben :
  length (aufgabe_layouts aufgaben) = length aufgaben.
Proof. by rewrite aufgabe_layouts_unfold, phase2_length, phase1_length. Qed.

Lemma point_run_seqZ (start pts : Z) : point_run start pts = seqZ start pts.
Proof.
  unfold point_run, range.
  replace (seqZ start pts) with (seqZ (start + 0) pts) by (f_equal; lia).
  by rewrite <- fmap_add_seqZ.
Qed.

Lemma summary_block_phase1 (c n : Z) :
  0 ≤ n → c :: ((λ t, c + 1 + t) <$> range n) = seqZ c (1 + n).
Proof.
  intros Hn. rewrite (seqZ_cons c) by lia. f_equal.
  replace (Z.pred (1 + n)) with n by lia.
  unfold range.
  replace (seqZ (Z.succ c) n) with (seqZ (Z.succ c + 0) n) by (f_equal; lia).
  rewrite <- fmap_add_seqZ.
  apply list_fmap_ext. intros; lia.
Qed.

Lemma summary_columns_phase1 aufgaben col :
  summary_columns (phase1 aufgaben col).1
  = seqZ col (sumZ (block_width <$> aufgaben)).
Proof.
  revert col. induction aufgaben as [|a rest IH]; intros col; csimpl; [done |].
  specialize (IH (col + len (punkte <$> teilaufgaben a) + 1)).
  destruct (phase1 rest _) as [lays col'] eqn:Hp. csimpl in *.
  unfold summary_columns in *. csimpl. rewrite IH.
  unfold summary_block. cbn [ss_col s_cols].
  rewrite len_fmap.
  pose proof (len_nonneg (teilaufgaben a)).
  rewrite app_comm_cons, summary_block_phase1 by done.
  assert (0 ≤ sumZ (block_width <$> rest)).
  { apply sumZ_nonneg, Forall_fmap, Forall_forall.
    intros x _. simpl. unfold block_width. pose proof (len_nonneg (teilaufgaben x)). lia. }
  replace (block_width a + sumZ (block_width <$> rest))
    with ((1 + len (teilaufgaben a)) + sumZ (block_width <$> rest))
    by (unfold block_width; lia).
  rewrite (seqZ_app col (1 + len (teilaufgaben a))) by lia.
  do 2 f_equal. lia.
Qed.

Lemma summary_columns_phase2 lays col :
  summary_columns (phase2 lays col).1 = summary_columns lays.
Proof.
  revert col. induction lays as [|lay rest IH]; intros col; csimpl; [done |].
  destruct (point_starts _ col) as [st c1] eqn:Hp.
  specialize (IH c1). destruct (phase2 rest c1) as [rest' c2] eqn:Hr.
  unfold summary_columns in *. csimpl in *. by rewrite IH.
Qed.

Lemma point_block_starts (pts : list Z) col :
  Forall (λ p, 0 ≤ p) pts →
  mjoin (zip_with point_run (point_starts pts col).1 pts) = seqZ col (sumZ pts).
Proof.
  intros Hpts. revert col. induction Hpts as [|p pts Hp Hpts IH]; intros col; csimpl.
  - done.
  - specialize (IH (col + p)).
    destruct (point_starts pts _) as [st c] eqn:Hst. csimpl in *.
    rewrite IH, point_run_seqZ.
    pose proof (sumZ_nonneg pts Hpts). by rewrite seqZ_app by lia.
Qed.

Lemma point_columns_phase2 lays col :
  Forall (λ lay, teil_point_starts lay = [] ∧ Forall (λ p, 0 ≤ p) (teil_punkte lay))
    lays →
  point_columns (phase2 lays col).1
  = seqZ col (sumZ ((λ lay, sumZ (teil_punkte lay)) <$> lays)).
Proof.
  intros Hl. revert col.
  induction Hl as [|lay rest [Hnil Hpts] Hl IH]; intros col; csimpl; [done |].
  pose proof (point_starts_cursor (teil_punkte lay) col) as Hc.
  pose proof (point_block_starts (teil_punkte lay) col Hpts) as Hb.
  destruct (point_starts _ col) as [st c1] eqn:Hp. csimpl in *.
  specialize (IH c1). destruct (phase2 rest c1) as [rest' c2] eqn:Hr.
  unfold point_columns in *. csimpl in *. rewrite IH.
  unfold point_block at 1. cbn [teil_point_starts teil_punkte].
  rewrite Hnil. csimpl. rewrite Hb. subst c1.
  rewrite seqZ_app; [done | by apply sumZ_nonneg |].
  apply sumZ_nonneg, Forall_fmap. eapply Forall_impl; [exact Hl |].
  intros l' [_ H']. by apply sumZ_nonneg.
Qed.

Lemma phase1_fresh aufgaben col :
  Forall (λ p, 0 ≤ p) (aufgaben ≫= λ a, punkte <$> teilaufgaben a) →
  Forall (λ lay, teil_point_starts lay = [] ∧ Forall (λ p, 0 ≤ p) (teil_punkte lay))
    (phase1 aufgaben col).1.
Proof.
  revert col. induction aufgaben as [|a rest IH]; intros col Hp; csimpl in *.
  - constructor.
  - apply Forall_app in Hp as [Ha Hrest].
    specialize (IH (col + len (punkte <$> teilaufgaben a) + 1) Hrest).
    destruct (phase1 rest _) as [lays col'] eqn:Hph. csimpl in *.
    constructor; [by split | done].
Qed.

(** With no negative point count, the columns in cursor order are the
    consecutive integers from the first column on. *)
Lemma columns_consecutive aufgaben :
  Forall (λ p, 0 ≤ p) (aufgaben ≫= λ a, punkte <$> teilaufgaben a) →
  summary_columns (aufgabe_layouts aufgaben)
    = seqZ first_col (sumZ (block_width <$> aufgaben))
  ∧ point_columns (aufgabe_layouts aufgaben)
    = seqZ (phase2_start aufgaben) (sumZ (points_width <$> aufgaben)).
Proof.
  intros Hp. rewrite aufgabe_layouts_unfold. split.
  - by rewrite summary_columns_phase2, summary_columns_phase1.
  - rewrite point_columns_phase2 by by apply phase1_fresh.
    by rewrite phase1_cursor, phase1_points_total.
Qed.

Lemma wf_config_points aufgaben :
  wf_config aufgaben →
  Forall (λ p, 1 ≤ p) (aufgaben ≫= λ a, punkte <$> teilaufgaben a).
Proof.
  intros [_ Hwf]. induction Hwf as [|a rest [_ Ha] Hwf IH]; csimpl.
  - constructor.
  - apply Forall_app. split; [|done]. by apply Forall_fmap.
Qed.

End Columns.

Lemma wf_config_2_3 : wf_config config_2_3.
Proof.
  split; [done |].
  repeat constructor; unfold wf_teilaufgabe; simpl; done || lia.
Qed.

Lemma wf_config_1x44 : wf_config config_1x44.
Proof.
  split; [done |].
  repeat constructor; unfold wf_teilaufgabe; simpl; done || lia.
Qed.

Example layouts_1x44 :
  aufgabe_layouts config_1x44 =
  [ mkLayout [4; 4] [replicate 4 EmptyString; replicate 4 EmptyString]
      2 6 [7; 8] 8 [9; 13] ].
Proof. reflexivity. Qed.

Example layouts_2_3 :
  aufgabe_layouts config_2_3 =
  [ mkLayout [2; 3] [[]; []] 2 6 [7; 8] 8 [13; 15];
    mkLayout [1; 2; 4] [[]; []; []] 3 9 [10; 11; 12] 12 [18; 19; 21] ].
Proof. reflexivity. Qed.

(** C1. The allocator moves one cursor from left to right in two phases.
    The cursor starts at [first_col]; before the summary block of task [a]
    it stands at [block_start aufgaben a], where the task gets its SS column
    followed by one S column per subtask, and the next block starts
    [1 + n_teil] columns further.  Phase 2 begins where the last summary
    block ended; before the run of subtask [t] of task [a] the cursor stands
    at [run_start aufgaben a t], which is recorded as the run's start, and
    it then advances by the subtask's point count, tasks and subtasks taken
    in their order. *)
Theorem C1_two_phase_allocation (aufgaben : list Aufgabe) :
  length (aufgabe_layouts aufgaben) = length aufgaben
  ∧ block_start aufgaben 0 = first_col
  ∧ phase2_start aufgaben = block_start aufgaben (length aufgaben)
  ∧ run_start aufgaben 0 0 = phase2_start aufgaben
  ∧ ∀ (a : nat) (aufgabe : Aufgabe),
      aufgaben !! a = Some aufgabe →
      ∃ lay,
        aufgabe_layouts aufgaben !! a = Some lay
        ∧ teil_punkte lay = punkte <$> teilaufgaben aufgabe
        ∧ n_teil lay = len (teilaufgaben aufgabe)
        ∧ ss_col lay = block_start aufgaben a
        ∧ s_cols lay = seqZ (ss_col lay + 1) (n_teil lay)
        ∧ sum_block_end lay = ss_col lay + n_teil lay
        ∧ block_start aufgaben (S a) = ss_col lay + (1 + n_teil lay)
        ∧ length (teil_point_starts lay) = length (teilaufgaben aufgabe)
        ∧ (∀ (t : nat) (ta : Teilaufgabe),
             teilaufgaben aufgabe !! t = Some ta →
             teil_point_starts lay !! t = Some (run_start aufgaben a t)
             ∧ run_start aufgaben a (S t) = run_start aufgaben a t + punkte ta)
        ∧ run_start aufgaben (S a) 0
          = run_start aufgaben a (length (teilaufgaben aufgabe)).
Proof.
  split; [apply aufgabe_layouts_length |].
  split; [unfold block_start; rewrite take_0; csimpl; lia |].
  split; [unfold phase2_start, block_start; by rewrite firstn_all |].
  split.
  { unfold run_start. rewrite take_0. destruct (aufgaben !! 0%nat); csimpl; lia. }
  intros a aufgabe Ha.
  eexists. split; [by apply aufgabe_layouts_lookup |].
  cbn zeta. cbn [teil_punkte n_teil ss_col s_cols sum_block_end teil_point_starts].
  assert (Htake : take (S a) aufgaben = take a aufgaben ++ [aufgabe])
    by by apply take_S_r.
  repeat split.
  - pose proof (len_nonneg (teilaufgaben aufgabe)) as Hn.
    pose proof (summary_block_phase1 (block_start aufgaben a) _ Hn) as Hs.
    rewrite (seqZ_cons _ (1 + _)) in Hs by lia.
    injection Hs as Hs. rewrite Hs. f_equal; lia.
  - unfold block_start. rewrite Htake, fmap_app, sumZ_app. csimpl.
    unfold block_width. lia.
  - by rewrite point_starts_length, length_fmap.
  - rewrite point_starts_lookup.
    + f_equal. unfold run_start. rewrite Ha, take_0, !fmap_take. csimpl. lia.
    + rewrite length_fmap. by eapply lookup_lt_Some.
  - unfold run_start. rewrite Ha.
    rewrite (take_S_r _ _ ta) by done. rewrite fmap_app, sumZ_app. csimpl. lia.
  - unfold run_start. rewrite Ha, Htake, fmap_app, sumZ_app, firstn_all.
    unfold points_width at 2. simpl.
    destruct (aufgaben !! S a); rewrite ?take_0; csimpl; lia.
Qed.

(** The columns of a well-formed configuration, one phase after the other. *)
Lemma wf_columns_seq (aufgaben : list Aufgabe) :
  wf_config aufgaben →
  summary_columns (aufgabe_layouts aufgaben)
    = seqZ first_col (sumZ (block_width <$> aufgaben))
  ∧ point_columns (aufgabe_layouts aufgaben)
    = seqZ (phase2_start aufgaben) (sumZ (points_width <$> aufgaben))
  ∧ 0 ≤ sumZ (block_width <$> aufgaben)
  ∧ 0 ≤ sumZ (points_width <$> aufgaben).
Proof.
  intros Hwf.
  assert (Hp : Forall (λ p, 0 ≤ p) (aufgaben ≫= λ a, punkte <$> teilaufgaben a)).
  { eapply Forall_impl; [by apply wf_config_points |]. simpl. lia. }
  destruct (columns_consecutive aufgaben Hp) as [Hs Hpt].
  split; [done |]. split; [done |]. split.
  - apply sumZ_nonneg, Forall_fmap, Forall_forall. intros x _. simpl.
    unfold block_width. pose proof (len_nonneg (teilaufgaben x)). lia.
  - clear -Hp. induction aufgaben as [|a rest IH]; csimpl in *; [lia |].
    apply Forall_app in Hp as [Ha Hr]. specialize (IH Hr).
    pose proof (sumZ_nonneg _ Ha). unfold points_width at 1. lia.
Qed.

(** C2. For a configuration with at least one task, at least one subtask
    per task and point counts of at least 1, all assigned columns are
    pairwise distinct; the summary columns in cursor order are consecutive
    integers starting at [first_col]; the point columns in cursor order are
    consecutive integers starting at [phase2_start]; and every summary
    column is strictly left of every point column. *)
Theorem C2_columns_distinct_contiguous_ordered (aufgaben : list Aufgabe) :
  wf_config aufgaben →
  let lays := aufgabe_layouts aufgaben in
  NoDup (all_columns lays)
  ∧ summary_columns lays = seqZ first_col (sumZ (block_width <$> aufgaben))
  ∧ point_columns lays
    = seqZ (phase2_start aufgaben) (sumZ (points_width <$> aufgaben))
  ∧ ∀ s p, s ∈ summary_columns lays → p ∈ point_columns lays → s < p.
Proof.
  intros Hwf lays.
  destruct (wf_columns_seq aufgaben Hwf) as (Hs & Hpt & Hw & Hq).
  fold lays in Hs, Hpt.
  split; [|split; [done | split; [done |]]].
  - unfold all_columns. rewrite Hs, Hpt. unfold phase2_start.
    rewrite <- seqZ_app by done. apply NoDup_seqZ.
  - intros s p. rewrite Hs, Hpt, !elem_of_seqZ. unfold phase2_start. lia.
Qed.

Lemma C2_witness :
  wf_config config_2_3
  ∧ NoDup (all_columns (aufgabe_layouts config_2_3)).
Proof.
  split; [exact wf_config_2_3 |].
  exact (proj1 (C2_columns_distinct_contiguous_ordered config_2_3 wf_config_2_3)).
Defined.

(** C7 as stated fails: the allocator returns a layout for a task without
    subtasks and for a subtask with point count 0.  With the point count 0
    the whole sheet is built; with the task without subtasks the sheet
    builder later raises IndexError at [s_cols[0]], when it forms the first
    SS formula. *)
Lemma C7_counterexample :
  aufgabe_layouts [mkAufgabe []] = [mkLayout [] [] 0 6 [] 6 []]
  ∧ aufgabe_layouts [mkAufgabe [mkTeilaufgabe 0 []]]
    = [mkLayout [0] [[]] 1 6 [7] 7 [8]]
  ∧ (∃ sheet,
       build_mappe_sheet column_name "Mappe 1" [mkAufgabe [mkTeilaufgabe 0 []]]
         (roster 2) 1 "WiSe 25/26" (VStr "2026-02-01") = Ok sheet)
  ∧ build_mappe_sheet column_name "Mappe 1" [mkAufgabe []] (roster 2) 1
      "WiSe 25/26" (VStr "2026-02-01") = Raise IndexError.
Proof.
  split; [reflexivity |]. split; [reflexivity |].
  split; [eexists; reflexivity | reflexivity].
Qed.

(** C7, amended. The allocator validates nothing and returns a layout for
    every task of every configuration: a task without subtasks gets a
    summary block that is its SS column alone, and every subtask gets a run
    start recorded whatever its point count is. *)
Theorem C7_allocation_never_fails (aufgaben : list Aufgabe) :
  length (aufgabe_layouts aufgaben) = length aufgaben
  ∧ ∀ (a : nat) (aufgabe : Aufgabe),
      aufgaben !! a = Some aufgabe →
      ∃ lay,
        aufgabe_layouts aufgaben !! a = Some lay
        ∧ length (s_cols lay) = length (teilaufgaben aufgabe)
        ∧ length (teil_point_starts lay) = length (teilaufgaben aufgabe)
        ∧ teil_punkte lay = punkte <$> teilaufgaben aufgabe
        ∧ (teilaufgaben aufgabe = [] →
           s_cols lay = [] ∧ sum_block_end lay = ss_col lay).
Proof.
  split; [apply aufgabe_layouts_length |].
  intros a aufgabe Ha.
  eexists. split; [by apply aufgabe_layouts_lookup |].
  cbn zeta. cbn [teil_punkte n_teil ss_col s_cols sum_block_end teil_point_starts].
  split; [|split; [|split; [done |]]].
  - unfold range, len. rewrite length_fmap, length_seqZ. lia.
  - by rewrite point_starts_length, length_fmap.
  - intros ->. split; [done |]. unfold len. simpl. lia.
Qed.

(** ** The editor *)

Section Editor.

Context {A : Type}.
Implicit Types (l : list A) (i : Z) (f : A → result A).

Lemma py_getitem_Ok l i x :
  py_getitem l i = Ok x → ∃ k, py_pos l i = Some k ∧ l !! k = Some x.
Proof.
  unfold py_getitem. destruct (py_pos l i) as [k|]; [|done].
  destruct (l !! k) as [y|] eqn:Hy; [|done]. intros; simplify_eq. eauto.
Qed.

Lemma py_pos_length l l' i : length l = length l' → py_pos l i = py_pos l' i.
Proof. unfold py_pos, len. by intros ->. Qed.

Lemma py_update_Ok l i f x y :
  py_getitem l i = Ok x → f x = Ok y →
  ∃ k, l !! k = Some x
       ∧ py_update l i f = Ok (<[k := y]> l)
       ∧ py_getitem (<[k := y]> l) i = Ok y.
Proof.
  intros (k & Hk & Hx)%py_getitem_Ok Hf. exists k.
  split; [done |]. unfold py_update, py_getitem.
  rewrite (py_pos_length (<[k := y]> l) l) by apply length_insert.
  rewrite Hk, Hx, Hf. split; [done |].
  rewrite list_lookup_insert_eq; [done | by eapply lookup_lt_Some].
Qed.

Lemma py_update_inv l i f l' :
  py_update l i f = Ok l' →
  ∃ k x y, l !! k = Some x ∧ f x = Ok y ∧ l' = <[k := y]> l.
Proof.
  unfold py_update. destruct (py_pos l i) as [k|]; [|done].
  destruct (l !! k) as [x|] eqn:Hx; [|done].
  destruct (f x) as [y|] eqn:Hy; [|done].
  intros; simplify_eq. eauto 10.
Qed.

Lemma py_update_Forall (P : A → Prop) l i f l' :
  Forall P l →
  (∀ x y, P x → f x = Ok y → P y) →
  py_update l i f = Ok l' →
  Forall P l' ∧ length l' = length l.
Proof.
  intros HP Hf (k & x & y & Hx & Hy & ->)%py_update_inv.
  split; [|apply length_insert].
  apply Forall_insert; [done |].
  eapply Hf; [|done]. by eapply Forall_lookup_1.
Qed.

Lemma py_pop_length l i l' :
  py_pop l i = Ok l' → length l = S (length l').
Proof.
  unfold py_pop. destruct (py_pos l i) as [k|] eqn:Hk; [|done].
  intros; simplify_eq. apply py_pos_lt in Hk.
  rewrite length_delete; [lia |]. by apply lookup_lt_is_Some_2.
Qed.

Lemma py_pop_Forall (P : A → Prop) l i l' :
  Forall P l → py_pop l i = Ok l' → Forall P l'.
Proof.
  unfold py_pop. destruct (py_pos l i) as [k|]; [|done].
  intros HP ?; simplify_eq. by apply Forall_delete.
Qed.

End Editor.

Lemma py_slice_to_take {A} (l : list A) (n : Z) :
  0 ≤ n → py_slice_to l n = take (Z.to_nat n) l.
Proof.
  intros Hn. unfold py_slice_to, py_slice, py_bound.
  rewrite !bool_decide_eq_false_2 by lia.
  pose proof (len_nonneg l).
  rewrite (Z.min_l 0) by lia. simpl. rewrite drop_0, Nat.sub_0_r.
  destruct (decide (n ≤ len l)).
  - by rewrite Z.min_l by lia.
  - rewrite Z.min_r by lia. unfold len in *.
    rewrite Nat2Z.id, firstn_all. symmetry. apply take_ge. lia.
Qed.

(** The resize on one subtask, for a point count that is not negative. *)
Lemma sync_teilaufgabe_spec (new_punkte : Z) (ta : Teilaufgabe) :
  0 ≤ new_punkte →
  let ta' := sync_teilaufgabe new_punkte ta in
  punkte ta' = new_punkte
  ∧ len (descriptions ta') = punkte ta'
  ∧ (len (descriptions ta) ≤ new_punkte →
     descriptions ta'
     = descriptions ta
       ++ replicate (Z.to_nat (new_punkte - len (descriptions ta))) EmptyString)
  ∧ (new_punkte ≤ len (descriptions ta) →
     descriptions ta' = take (Z.to_nat new_punkte) (descriptions ta))
  ∧ (∀ (i : nat) (d : string),
       Z.of_nat i < new_punkte →
       descriptions ta !! i = Some d → descriptions ta' !! i = Some d).
Proof.
  intros Hn. unfold sync_teilaufgabe. cbn zeta. cbn [punkte descriptions].
  pose proof (len_nonneg (descriptions ta)) as Hlen.
  repeat case_bool_decide; try lia.
  - (* grow *)
    split; [done |]. split.
    { rewrite len_app. unfold py_repeat, len. rewrite length_replicate. unfold len in *. lia. }
    split; [done |]. split; [lia |].
    intros i d _ Hd. by apply lookup_app_l_Some.
  - (* shrink *)
    rewrite py_slice_to_take by done.
    split; [done |]. split.
    { unfold len in *. rewrite length_take. lia. }
    split; [lia |]. split; [done |].
    intros i d Hi Hd. rewrite lookup_take_lt by lia. done.
  - (* same length *)
    assert (new_punkte = len (descriptions ta)) as -> by lia.
    split; [done |]. split; [done |].
    split.
    { intros _. rewrite Z.sub_diag. simpl. by rewrite app_nil_r. }
    split.
    { intros _. unfold len. by rewrite Nat2Z.id, firstn_all. }
    done.
Qed.

(** C9. For every subtask the editor can address and every new point
    count (not negative), [_sync_descriptions] succeeds, and afterwards the
    subtask stores the new point count and a description list of exactly
    that length: a longer list is the old one followed by empty strings, a
    shorter one is its first [new_punkte] entries, and the entries below
    both lengths are the old ones. *)
Theorem C9_sync_descriptions_length (aufgaben : list Aufgabe)
    (a_idx t_idx new_punkte : Z) (a : Aufgabe) (ta : Teilaufgabe) :
  0 ≤ new_punkte →
  py_getitem aufgaben a_idx = Ok a →
  py_getitem (teilaufgaben a) t_idx = Ok ta →
  ∃ aufgaben' a' ta',
    _sync_descriptions a_idx t_idx new_punkte aufgaben = Ok aufgaben'
    ∧ py_getitem aufgaben' a_idx = Ok a'
    ∧ py_getitem (teilaufgaben a') t_idx = Ok ta'
    ∧ punkte ta' = new_punkte
    ∧ len (descriptions ta') = punkte ta'
    ∧ (len (descriptions ta) ≤ new_punkte →
       descriptions ta'
       = descriptions ta
         ++ replicate (Z.to_nat (new_punkte - len (descriptions ta))) EmptyString)
    ∧ (new_punkte ≤ len (descriptions ta) →
       descriptions ta' = take (Z.to_nat new_punkte) (descriptions ta))
    ∧ (∀ (i : nat) (d : string),
         Z.of_nat i < new_punkte →
         descriptions ta !! i = Some d → descriptions ta' !! i = Some d).
Proof.
  intros Hn Ha Hta.
  destruct (py_update_Ok (teilaufgaben a) t_idx
              (λ ta, Ok (sync_teilaufgabe new_punkte ta)) ta _ Hta eq_refl)
    as (kt & _ & Hupd_t & Hget_t).
  destruct (py_update_Ok aufgaben a_idx
              (λ a, tas ← py_update (teilaufgaben a) t_idx
                            (λ ta, Ok (sync_teilaufgabe new_punkte ta));
                    Ok (mkAufgabe tas))
              a (mkAufgabe (<[kt := sync_teilaufgabe new_punkte ta]> (teilaufgaben a))) Ha)
    as (ka & _ & Hupd_a & Hget_a).
  { by rewrite Hupd_t. }
  eexists _, _, (sync_teilaufgabe new_punkte ta).
  split; [exact Hupd_a |]. split; [exact Hget_a |]. split; [exact Hget_t |].
  by apply sync_teilaufgabe_spec.
Qed.

Lemma C9_witness :
  ∃ aufgaben',
    _sync_descriptions 0 1 2
      [mkAufgabe [new_teilaufgabe;
                  mkTeilaufgabe 4 ["w"; "x"; "y"; "z"]%string]] = Ok aufgaben'
    ∧ ∃ a' ta',
        py_getitem aufgaben' 0 = Ok a'
        ∧ py_getitem (teilaufgaben a') 1 = Ok ta'
        ∧ punkte ta' = 2
        ∧ len (descriptions ta') = 2.
Proof.
  destruct (C9_sync_descriptions_length
              [mkAufgabe [new_teilaufgabe;
                          mkTeilaufgabe 4 ["w"; "x"; "y"; "z"]%string]]
              0 1 2 _ _ ltac:(lia) eq_refl eq_refl)
    as (aufgaben' & a' & ta' & H1 & H2 & H3 & H4 & H5 & _).
  exists aufgaben'. split; [exact H1 |].
  exists a', ta'. rewrite H4 in H5. repeat split; assumption.
Defined.

Example sync_shrink_4_to_2 :
  sync_teilaufgabe 2 (mkTeilaufgabe 4 ["w"; "x"; "y"; "z"]%string)
  = mkTeilaufgabe 2 ["w"; "x"]%string.
Proof. reflexivity. Qed.

(** Outside the editor's range: for a negative count the slice drops
    entries from the end and the two numbers differ. *)
Example sync_negative :
  sync_teilaufgabe (-1) (mkTeilaufgabe 4 ["w"; "x"; "y"; "z"]%string)
  = mkTeilaufgabe (-1) ["w"; "x"; "y"]%string.
Proof. reflexivity. Qed.

Lemma length_pos_nonnil {A} (l : list A) : (0 < length l)%nat → l ≠ [].
Proof. destruct l; simpl; [lia | done]. Qed.

Lemma run_op_nonempty (op : editor_op) (aufgaben aufgaben' : list Aufgabe) :
  nonempty_config aufgaben →
  run_op op aufgaben = Ok aufgaben' →
  nonempty_config aufgaben'.
Proof.
  intros [Hne Hall] Hrun. unfold nonempty_config.
  assert (H0 : (0 < length aufgaben)%nat) by (destruct aufgaben; simpl; [done | lia]).
  destruct op as [|idx|a_idx|a_idx t_idx|a_idx t_idx n|a_idx t_idx p_idx d];
    simpl in Hrun.
  - (* _add_aufgabe *)
    simplify_eq. unfold _add_aufgabe. split.
    + apply length_pos_nonnil. rewrite length_app. simpl. lia.
    + apply Forall_app. split; [done |]. by repeat constructor.
  - (* _remove_aufgabe *)
    unfold _remove_aufgabe in Hrun. case_bool_decide as Hgt.
    + split; [|by eapply py_pop_Forall].
      apply py_pop_length in Hrun. apply length_pos_nonnil. unfold len in Hgt. lia.
    + by simplify_eq.
  - (* _add_teilaufgabe *)
    eapply py_update_Forall in Hrun as [HP Hl]; [| exact Hall |].
    + split; [apply length_pos_nonnil; lia | done].
    + intros x y _ ?; simplify_eq. simpl. by destruct (teilaufgaben x).
  - (* _remove_teilaufgabe *)
    eapply py_update_Forall in Hrun as [HP Hl]; [| exact Hall |].
    + split; [apply length_pos_nonnil; lia | done].
    + intros x y Hx Hy. cbn zeta in Hy. case_bool_decide as Hgt.
      * destruct (py_pop (teilaufgaben x) t_idx) as [tl|] eqn:Hpop; [|done].
        simpl in Hy. simplify_eq. simpl.
        apply py_pop_length in Hpop. apply length_pos_nonnil. unfold len in Hgt. lia.
      * by simplify_eq.
  - (* _sync_descriptions *)
    eapply py_update_Forall in Hrun as [HP Hl]; [| exact Hall |].
    + split; [apply length_pos_nonnil; lia | done].
    + intros x y Hx Hy.
      destruct (py_update (teilaufgaben x) t_idx _) as [tl|] eqn:Hupd; [|done].
      simpl in Hy. simplify_eq. simpl.
      apply py_update_inv in Hupd as (k & ? & ? & Hk & _ & ->).
      apply length_pos_nonnil. rewrite length_insert. simpl in Hx.
      destruct (teilaufgaben x); simpl; [done | lia].
  - (* description field *)
    eapply py_update_Forall in Hrun as [HP Hl]; [| exact Hall |].
    + split; [apply length_pos_nonnil; lia | done].
    + intros x y Hx Hy.
      destruct (py_update (teilaufgaben x) t_idx _) as [tl|] eqn:Hupd; [|done].
      simpl in Hy. simplify_eq. simpl.
      apply py_update_inv in Hupd as (k & ? & ? & Hk & _ & ->).
      apply length_pos_nonnil. rewrite length_insert. simpl in Hx.
      destruct (teilaufgaben x); simpl; [done | lia].
Qed.

Lemma reachable_nonempty (aufgaben : list Aufgabe) :
  reachable aufgaben → nonempty_config aufgaben.
Proof.
  induction 1 as [|op aufgaben aufgaben' _ IH Hrun].
  - split; [done |]. by repeat constructor.
  - by eapply run_op_nonempty.
Qed.

(** C10. Every configuration the editor can reach has at least one task
    and every task has at least one subtask; removing a task does nothing
    when only one task is left, whatever index is given, and removing a
    subtask does nothing when the task has only one subtask. *)
Theorem C10_removal_keeps_nonempty (aufgaben : list Aufgabe) :
  reachable aufgaben →
  (aufgaben ≠ [] ∧ Forall (λ a, teilaufgaben a ≠ []) aufgaben)
  ∧ (len aufgaben = 1 → ∀ idx, _remove_aufgabe idx aufgaben = Ok aufgaben)
  ∧ (∀ a_idx t_idx a,
       py_getitem aufgaben a_idx = Ok a →
       len (teilaufgaben a) = 1 →
       _remove_teilaufgabe a_idx t_idx aufgaben = Ok aufgaben).
Proof.
  intros Hr. split; [by apply reachable_nonempty |]. split.
  - intros Hlen idx. unfold _remove_aufgabe.
    by rewrite bool_decide_eq_false_2 by lia.
  - intros a_idx t_idx a Ha Hlen.
    destruct (py_update_Ok aufgaben a_idx
                (λ a, let ta_list := teilaufgaben a in
                      if bool_decide (len ta_list > 1)
                      then ta_list' ← py_pop ta_list t_idx; Ok (mkAufgabe ta_list')
                      else Ok a) a a Ha)
      as (k & Hk & Hupd & _).
    { cbn zeta. by rewrite bool_decide_eq_false_2 by lia. }
    etrans; [exact Hupd |]. f_equal. by apply list_insert_id.
Qed.

Lemma reachable_after_remove : reachable after_remove_teilaufgabe.
Proof.
  apply (reachable_step (RemoveTeilaufgabe 0 1) (_init_state None)).
  - apply reachable_init.
  - reflexivity.
Qed.

Lemma C10_witness :
  reachable after_remove_teilaufgabe
  ∧ after_remove_teilaufgabe ≠ []
  ∧ _remove_aufgabe 0 after_remove_teilaufgabe = Ok after_remove_teilaufgabe
  ∧ _remove_teilaufgabe 0 0 after_remove_teilaufgabe = Ok after_remove_teilaufgabe.
Proof.
  pose proof (C10_removal_keeps_nonempty after_remove_teilaufgabe
                reachable_after_remove) as ((Hne & _) & Ha & Ht).
  split; [exact reachable_after_remove |]. split; [exact Hne |]. split.
  - apply Ha. reflexivity.
  - apply (Ht 0 0 (mkAufgabe [new_teilaufgabe])); reflexivity.
Defined.

(** ** The floating-point quotient *)

Lemma round_half_even_cases (num den : Z) :
  0 < den →
  (round_half_even num den = num `div` den ∧ 2 * (num `mod` den) ≤ den)
  ∨ (round_half_even num den = num `div` den + 1 ∧ den ≤ 2 * (num `mod` den)).
Proof.
  intros Hden. unfold round_half_even. cbn zeta.
  repeat case_bool_decide; [left | right | ]; try (split; [done | lia]).
  destruct (Z.even (num `div` den)); [left | right]; split; done || lia.
Qed.

Lemma round_half_even_le (num den N : Z) :
  0 < den → num ≤ N * den → round_half_even num den ≤ N.
Proof.
  intros Hden Hle.
  pose proof (Z.div_mod num den ltac:(lia)) as Hdm.
  pose proof (Z.mod_pos_bound num den Hden) as Hb.
  destruct (round_half_even_cases num den Hden) as [[-> _] | [-> Hr]]; nia.
Qed.

Lemma round_half_even_ge (num den N : Z) :
  0 < den → (2 * N + 1) * den < 2 * num → N + 1 ≤ round_half_even num den.
Proof.
  intros Hden Hlt.
  pose proof (Z.div_mod num den ltac:(lia)) as Hdm.
  pose proof (Z.mod_pos_bound num den Hden) as Hb.
  destruct (round_half_even_cases num den Hden) as [[-> Hr] | [-> Hr]]; nia.
Qed.

Lemma round_half_even_nonneg (num den : Z) :
  0 < den → 0 ≤ num → 0 ≤ round_half_even num den.
Proof.
  intros Hden Hnum.
  pose proof (Z.div_pos num den Hnum Hden).
  destruct (round_half_even_cases num den Hden) as [[-> _] | [-> _]]; lia.
Qed.

Lemma float_exponent_small (p q : Z) :
  0 < p < 2 ^ 53 → 1 ≤ q < 2 ^ 53 →
  float_exponent p q ≤ 0 ∧ q < 2 ^ (1 - float_exponent p q).
Proof.
  intros Hp Hq. unfold float_exponent. cbn zeta. case_bool_decide as Hle.
  - assert (Hd : 1 ≤ p `div` q) by (apply Z.div_le_lower_bound; lia).
    pose proof (Z.log2_nonneg (p `div` q)) as Hl0.
    pose proof (Z.log2_spec (p `div` q) ltac:(lia)) as [Hlo _].
    pose proof (Z.mul_div_le p q ltac:(lia)) as Hmd.
    assert (Hl : Z.log2 (p `div` q) < 53).
    { apply Z.log2_lt_pow2; [lia |].
      assert (p `div` q ≤ p) by (apply Z.div_le_upper_bound; nia). lia. }
    set (L := Z.log2 (p `div` q)) in *.
    rewrite Z.max_r by lia. split; [lia |].
    replace (1 - (L - 52)) with (53 - L) by lia.
    assert (Hpow : 2 ^ 53 = 2 ^ L * 2 ^ (53 - L))
      by (rewrite <- Z.pow_add_r by lia; f_equal; lia).
    assert (0 < 2 ^ L) by (apply Z.pow_pos_nonneg; lia).
    assert (0 < 2 ^ (53 - L)) by (apply Z.pow_pos_nonneg; lia).
    nia.
  - pose proof (Z.log2_up_nonneg ((q + p - 1) `div` p)) as Hl0.
    set (U := Z.log2_up ((q + p - 1) `div` p)) in *.
    split; [lia |].
    assert (2 ^ 53 ≤ 2 ^ (1 - Z.max (-1074) (- U - 52)))
      by (apply Z.pow_le_mono_r; lia).
    lia.
Qed.

Lemma ceil_div_exact (a b : Z) :
  0 ≤ a < 2 ^ 53 → 1 ≤ b < 2 ^ 53 →
  ceil_div a b = Ok (- ((- a) `div` b)).
Proof.
  intros Ha Hb. unfold ceil_div.
  rewrite bool_decide_eq_false_2 by lia.
  rewrite bool_decide_eq_true_2 by nia.
  rewrite (Z.abs_eq a), (Z.abs_eq b) by lia. f_equal.
  unfold float_quotient. case_bool_decide as Ha0.
  { subst a. unfold float_ceil. simpl. by rewrite Z.div_0_l by lia. }
  destruct (float_exponent_small a b ltac:(lia) Hb) as [He Hlt].
  set (e := float_exponent a b) in *. cbn zeta.
  pose proof (Z.div_mod (- a) b ltac:(lia)) as Hdm.
  pose proof (Z.mod_pos_bound (- a) b ltac:(lia)) as Hmb.
  set (k := - ((- a) `div` b)) in *.
  assert (Hk : (k - 1) * b < a ≤ k * b) by (unfold k; nia).
  case_bool_decide as He0.
  - assert (e = 0) as -> by lia. simpl in Hlt. assert (b = 1) as -> by lia.
    unfold float_ceil. cbn [fst snd]. rewrite bool_decide_eq_true_2 by done.
    simpl (2 ^ 0). rewrite !Z.mul_1_r.
    assert (round_half_even a 1 ≤ k) by (apply round_half_even_le; lia).
    assert (k - 1 + 1 ≤ round_half_even a 1)
      by (apply round_half_even_ge; lia).
    lia.
  - unfold float_ceil. cbn [fst snd]. rewrite bool_decide_eq_false_2 by done.
    set (s := - e) in *.
    assert (Hs : 0 < 2 ^ s) by (apply Z.pow_pos_nonneg; lia).
    assert (Hs1 : 2 ^ (1 - e) = 2 * 2 ^ s).
    { replace (1 - e) with (1 + s) by lia. rewrite Z.pow_add_r by lia. done. }
    set (m := round_half_even (a * 2 ^ s) b).
    assert (Hup : m ≤ k * 2 ^ s) by (apply round_half_even_le; nia).
    assert (Hlo : (k - 1) * 2 ^ s + 1 ≤ m) by (apply round_half_even_ge; nia).
    assert (Hdiv : (- m) `div` 2 ^ s = - k).
    { symmetry. apply (Z.div_unique_pos (- m) (2 ^ s) (- k) (- m + k * 2 ^ s)); lia. }
    rewrite Hdiv. lia.
Qed.


Example ceil_div_rounds : ceil_div (2 ^ 53 + 1) 1 = Ok (2 ^ 53).
Proof. vm_compute. reflexivity. Qed.

(** ** The folder partition *)

Section Partition.

Variables (students : list Student) (studis_pro_mappe : Z).
Hypothesis Hcap : 1 ≤ studis_pro_mappe.

Local Abbreviation cap := studis_pro_mappe.
Local Abbreviation n_students := (len students).

Lemma ceil_div_spec (n : Z) :
  0 ≤ n < 2 ^ 53 → cap < 2 ^ 53 →
  ∃ k, ceil_div n cap = Ok k ∧ (k - 1) * cap < n ≤ k * cap.
Proof.
  intros Hn Hc. rewrite ceil_div_exact by lia.
  eexists; split; [done |].
  pose proof (Z.div_mod (- n) cap ltac:(lia)) as Hdm.
  pose proof (Z.mod_pos_bound (- n) cap ltac:(lia)) as Hb.
  nia.
Qed.

Lemma py_slice_nonneg {A} (l : list A) (a b : Z) :
  0 ≤ a ≤ b → b ≤ len l →
  py_slice l a b = take (Z.to_nat (b - a)) (drop (Z.to_nat a) l).
Proof.
  intros Hab Hb. unfold py_slice, py_bound.
  rewrite !bool_decide_eq_false_2 by lia.
  rewrite (Z.min_l a), (Z.min_l b) by lia.
  f_equal. lia.
Qed.

Lemma students_in_mappe_take (m k : Z) :
  (k - 1) * cap < n_students ≤ k * cap → 0 ≤ m < k →
  students_in_mappe students cap m
  = take (Z.to_nat (Z.min (m * cap + cap) n_students - m * cap))
      (drop (Z.to_nat (m * cap)) students).
Proof.
  intros Hk Hm. unfold students_in_mappe. cbn zeta.
  apply py_slice_nonneg; nia.
Qed.



End Partition.

Example mappen_12_by_5 :
  ceil_div 12 5 = Ok 3
  ∧ length <$> (students_in_mappe (roster 12) 5 <$> range 3) = [5; 5; 2]%nat.
Proof. split; reflexivity. Qed.

(** ** Worksheets: the value a sequence of writes leaves in a cell *)

Section Worksheet.

Implicit Types (ws : worksheet) (l : list write) (k : Z * Z) (v : cell_value).

Lemma ws_write_all_app ws l1 l2 :
  ws_write_all ws (l1 ++ l2) = ws_write_all (ws_write_all ws l1) l2.
Proof. unfold ws_write_all. apply foldl_app. Qed.

Lemma ws_write_all_notin ws l k :
  k ∉ l.*1 → ws_write_all ws l !! k = ws !! k.
Proof.
  revert ws. induction l as [|[k' v'] l IH]; intros ws Hk; [done |].
  simpl in *. apply not_elem_of_cons in Hk as [Hne Hk].
  rewrite IH by done. unfold ws_write. simpl. by rewrite lookup_insert_ne.
Qed.

Lemma ws_write_all_nodup ws l k v :
  NoDup l.*1 → (k, v) ∈ l → ws_write_all ws l !! k = Some v.
Proof.
  revert ws. induction l as [|[k' v'] l IH]; intros ws Hnd Hin.
  - by apply elem_of_nil in Hin.
  - simpl in *. apply NoDup_cons in Hnd as [Hk' Hnd].
    apply elem_of_cons in Hin as [Heq | Hin].
    + simplify_eq. rewrite ws_write_all_notin by done.
      unfold ws_write. simpl. by rewrite lookup_insert_eq.
    + by apply IH.
Qed.

(** Writes to other rows do not matter for a cell. *)
Lemma ws_write_all_other_rows ws l (r c : Z) :
  Forall (λ w : write, w.1.1 ≠ r) l → ws_write_all ws l !! (r, c) = ws !! (r, c).
Proof.
  intros Hl. apply ws_write_all_notin.
  intros (w & Hw1 & Hw)%list_elem_of_fmap.
  rewrite Forall_forall in Hl. apply (Hl w Hw). by rewrite <- Hw1.
Qed.

Lemma ws_write_all_congr ws ws' l k :
  ws !! k = ws' !! k → ws_write_all ws l !! k = ws_write_all ws' l !! k.
Proof.
  revert ws ws'. induction l as [|[k' v'] l IH]; intros ws ws' Heq; [done |].
  simpl. apply IH. unfold ws_write. simpl.
  destruct (decide (k' = k)) as [->|Hne].
  - by rewrite !lookup_insert_eq.
  - by rewrite !lookup_insert_ne.
Qed.

(** The value of a cell of row [r] is decided by the writes to row [r]. *)
Lemma ws_write_all_row ws before l after (r c : Z) :
  Forall (λ w : write, w.1.1 ≠ r) before →
  Forall (λ w : write, w.1.1 ≠ r) after →
  ws_write_all ws (before ++ l ++ after) !! (r, c)
  = ws_write_all ws l !! (r, c).
Proof.
  intros Hb Ha. rewrite !ws_write_all_app.
  rewrite ws_write_all_other_rows by done.
  apply ws_write_all_congr. by apply ws_write_all_other_rows.
Qed.

End Worksheet.

(** ** Loops that write cells *)

Lemma list_bind_concat {A B} (f : A → list B) (l : list A) :
  concat (f <$> l) = l ≫= f.
Proof. induction l as [|x l IH]; csimpl; [done | by rewrite IH]. Qed.

Lemma for_each_ok {A} (l : list A) (body : A → result (list write))
    (g : A → list write) :
  (∀ x, x ∈ l → body x = Ok (g x)) → for_each l body = Ok (l ≫= g).
Proof.
  intros Hb. unfold for_each. rewrite (mapR_ok body g) by done.
  by rewrite list_bind_concat.
Qed.

Lemma for_each_Forall_ok {A} (l : list A) (body : A → result (list write))
    (P : write → Prop) :
  (∀ x, x ∈ l → ∃ w, body x = Ok w ∧ Forall P w) →
  ∃ w, for_each l body = Ok w ∧ Forall P w.
Proof.
  intros Hb. unfold for_each.
  destruct (mapR_is_ok body l) as [ys Hys].
  { intros x Hx. destruct (Hb x Hx) as (w & -> & _). by eexists. }
  rewrite Hys. eexists; split; [done |].
  apply Forall_concat. eapply mapR_Forall; [exact Hys |].
  intros x y Hx Hy. destruct (Hb x Hx) as (w & Hw & HP). congruence.
Qed.

Lemma py_getitem_in_range {A} (l : list A) (i : Z) :
  0 ≤ i < len l → ∃ x, py_getitem l i = Ok x ∧ l !! Z.to_nat i = Some x.
Proof.
  intros Hi. destruct (lookup_lt_is_Some_2 l (Z.to_nat i)) as [x Hx].
  { unfold len in Hi. lia. }
  exists x. split; [|done].
  rewrite <- (Z2Nat.id i) by lia. by apply py_getitem_lookup.
Qed.

Lemma elem_of_range (n i : Z) : i ∈ range n ↔ 0 ≤ i < n.
Proof. unfold range. rewrite elem_of_seqZ. lia. Qed.

Lemma elem_of_enumerate {A} (start : Z) (l : list A) (i : Z) (x : A) :
  (i, x) ∈ enumerate start l →
  ∃ j : nat, i = start + Z.of_nat j ∧ l !! j = Some x.
Proof.
  unfold enumerate. intros (j & y & Heq & Hy)%elem_of_lookup_imap.
  simplify_eq. eauto.
Qed.

Lemma lay_ok_lengths (lay : Layout) :
  lay_ok lay →
  len (s_cols lay) = n_teil lay
  ∧ len (teil_point_starts lay) = n_teil lay
  ∧ len (teil_punkte lay) = n_teil lay.
Proof.
  intros (Hs & Hn & Hl & Hpos). unfold len in *.
  rewrite Hs, length_seqZ. lia.
Qed.

Lemma teil_triples_lookup (lay : Layout) (i : nat) (x : Z * (Z * Z)) :
  teil_triples lay !! i = Some x ↔
  s_cols lay !! i = Some x.1
  ∧ teil_point_starts lay !! i = Some x.2.1
  ∧ teil_punkte lay !! i = Some x.2.2.
Proof.
  unfold teil_triples. destruct x as [sc [st pt]]. simpl.
  rewrite lookup_zip_with_Some. split.
  - intros (a & b & Heq & Ha & Hb). simplify_eq.
    apply lookup_zip_with_Some in Hb as (a' & b' & Heq & Ha' & Hb').
    by simplify_eq.
  - intros (Hs & Hst & Hpt). exists sc, (st, pt). split; [done |].
    split; [done |]. apply lookup_zip_with_Some. eauto.
Qed.

Lemma teil_triples_length (lay : Layout) :
  lay_ok lay → len (teil_triples lay) = n_teil lay.
Proof.
  intros Hok. destruct (lay_ok_lengths lay Hok) as (H1 & H2 & H3).
  unfold teil_triples, len in *. rewrite !length_zip_with. lia.
Qed.

(** The loops over one layout with every index look-up resolved. *)
Lemma lay_cells_ok (r : Z) (lay : Layout) (v : cell_value)
    (s_value : Z → Z → cell_value) (p_cells : Z → Z → result (list write))
    (pw : Z → Z → list write) :
  lay_ok lay →
  (∀ pc p, 0 ≤ p → p_cells pc p = Ok (pw pc p)) →
  lay_cells r lay (Ok v) s_value p_cells = Ok (lay_cells_list r lay v s_value pw).
Proof.
  intros Hok Hp. unfold lay_cells, lay_cells_list, for_each at 1.
  rewrite <- (teil_triples_length lay Hok).
  replace (len (teil_triples lay))
    with (len (teil_cells r s_value pw <$> teil_triples lay)) by apply len_fmap.
  rewrite mapR_range; [cbn; by rewrite list_bind_concat |].
  intros i y Hy. apply list_lookup_fmap_Some in Hy as (x & -> & Hx).
  apply teil_triples_lookup in Hx as (Hs & Hst & Hpt).
  rewrite (py_getitem_lookup _ _ _ Hs), (py_getitem_lookup _ _ _ Hst),
    (py_getitem_lookup _ _ _ Hpt).
  cbn. rewrite (for_each_ok _ _ (λ p, pw (x.2.1 + p) p)); [done |].
  intros p Hin. apply Hp. apply elem_of_range in Hin. lia.
Qed.

(** ** The rows of a folder sheet *)

Section Rows.

Variable get_column_letter : Z → string.

Implicit Types (aufgaben : list Aufgabe) (lays : list Layout) (lay : Layout).

Lemma aufgabe_layouts_elem aufgaben lay :
  lay ∈ aufgabe_layouts aufgaben →
  ∃ (a : nat) (aufgabe : Aufgabe),
    aufgaben !! a = Some aufgabe ∧ aufgabe_layouts aufgaben !! a = Some lay.
Proof.
  intros (a & Ha)%list_elem_of_lookup. exists a.
  destruct (lookup_lt_is_Some_2 aufgaben a) as [aufgabe Haufg].
  { rewrite <- aufgabe_layouts_length. by eapply lookup_lt_Some. }
  eauto.
Qed.

Lemma aufgabe_layouts_ok aufgaben :
  Forall (λ a, teilaufgaben a ≠ []) aufgaben →
  Forall lay_ok (aufgabe_layouts aufgaben).
Proof.
  intros Hne. apply Forall_forall. intros lay Hlay.
  apply aufgabe_layouts_elem in Hlay as (a & aufgabe & Ha & Hl).
  rewrite (aufgabe_layouts_lookup _ _ _ Ha) in Hl. cbn zeta in Hl.
  injection Hl as <-. unfold lay_ok.
  cbn [teil_punkte n_teil ss_col s_cols sum_block_end teil_point_starts].
  pose proof (len_nonneg (teilaufgaben aufgabe)) as Hn.
  split; [|split; [|split]].
  - pose proof (summary_block_phase1 (block_start aufgaben a) _ Hn) as Hs.
    rewrite (seqZ_cons _ (1 + _)) in Hs by lia.
    injection Hs as Hs. rewrite Hs. f_equal; lia.
  - by rewrite len_fmap.
  - by rewrite point_starts_length.
  - rewrite Forall_forall in Hne.
    specialize (Hne aufgabe (list_elem_of_lookup_2 _ _ _ Ha)).
    unfold len. destruct (teilaufgaben aufgabe); simpl; [done | lia].
Qed.

Lemma ss_formula_ok lay (r : Z) :
  lay_ok lay →
  ss_formula get_column_letter lay r = Ok (ss_value get_column_letter r lay).
Proof.
  intros (Hs & Hn & Hl & Hpos). unfold ss_formula, ss_value. rewrite Hs.
  rewrite (py_getitem_lookup _ 0%nat (ss_col lay + 1)).
  2:{ rewrite lookup_seqZ_lt by lia. f_equal. lia. }
  cbn. rewrite (py_getitem_last _ (ss_col lay + n_teil lay)); [done |].
  rewrite last_lookup, length_seqZ.
  rewrite lookup_seqZ_lt by lia. f_equal. lia.
Qed.

Lemma row_cells_for_each (r : Z) lays (v : Layout → cell_value)
    (s_value : Z → Z → cell_value) (p_cells : Z → Z → result (list write))
    (pw : Z → Z → list write) (ss : Layout → result cell_value) :
  Forall lay_ok lays →
  (∀ lay, lay_ok lay → ss lay = Ok (v lay)) →
  (∀ pc p, 0 ≤ p → p_cells pc p = Ok (pw pc p)) →
  for_each lays (λ lay, lay_cells r lay (ss lay) s_value p_cells)
  = Ok (row_cells r lays v s_value pw).
Proof.
  intros Hok Hss Hp. apply for_each_ok. intros lay Hlay.
  rewrite Forall_forall in Hok.
  rewrite Hss by auto. apply lay_cells_ok; auto.
Qed.

Lemma row4_ok lays :
  Forall lay_ok lays →
  row4 lays
  = Ok (row4_headers
          ++ row_cells 4 lays (λ _, VStr "SS") (λ _ _, VStr "S") row4_letter).
Proof.
  intros Hok. unfold row4.
  rewrite (row_cells_for_each 4 lays (λ _, VStr "SS") _ _ row4_letter); try done.
  intros pc p Hp. unfold row4_letter.
  destruct (py_getitem_in_range ascii_lowercase (p `mod` 26)) as (x & -> & ->).
  - pose proof (Z.mod_pos_bound p 26). unfold len. simpl. lia.
  - done.
Qed.

Lemma row5_ok lays :
  Forall lay_ok lays →
  row5 get_column_letter lays
  = Ok (((5, 1), VStr "Maximale Punkte")
          :: row_cells 5 lays (ss_value get_column_letter 5)
               (s_formula get_column_letter 5) row5_one).
Proof.
  intros Hok. unfold row5.
  rewrite (row_cells_for_each 5 lays (ss_value get_column_letter 5) _ _ row5_one);
    try done.
  intros lay Hlay. by apply ss_formula_ok.
Qed.

Lemma row6_ok (n_students : Z) lays :
  Forall lay_ok lays →
  row6 get_column_letter n_students lays
  = Ok (((6, 1), VStr "Durchschnittliche Punkte")
          :: row_cells 6 lays (ss_value get_column_letter 6)
               (s_formula get_column_letter 6)
               (row6_average get_column_letter n_students)).
Proof.
  intros Hok. unfold row6.
  rewrite (row_cells_for_each 6 lays (ss_value get_column_letter 6) _ _
             (row6_average get_column_letter n_students)); try done.
  intros lay Hlay. by apply ss_formula_ok.
Qed.

Lemma student_rows_ok lays (students : list Student) :
  Forall lay_ok lays →
  student_rows get_column_letter lays students
  = Ok (enumerate 0 students ≫= student_cells get_column_letter lays).
Proof.
  intros Hok. unfold student_rows. apply for_each_ok.
  intros [s_idx student] _. unfold student_row, student_cells. cbn zeta.
  rewrite (row_cells_for_each (7 + s_idx) lays
             (ss_value get_column_letter (7 + s_idx)) _ _ no_point_cells);
    try done.
  intros lay Hlay. by apply ss_formula_ok.
Qed.

End Rows.

Section HeaderRows.

Implicit Types (lays : list Layout) (lay : Layout).

Lemma row1_rows (semester : string) lays :
  Forall (λ w : write, w.1.1 = 1) (row1 semester lays).
Proof.
  unfold row1. constructor; [done |].
  apply Forall_fmap, Forall_forall. by intros lay _.
Qed.

Lemma row2_ok (exam_date : cell_value) (mappe_nr : Z) lays :
  Forall lay_ok lays →
  ∃ w, row2 exam_date mappe_nr lays = Ok w ∧ Forall (λ w : write, w.1.1 = 2) w.
Proof.
  intros Hok. unfold row2.
  edestruct (λ body, for_each_Forall_ok (enumerate 0 lays) body
                         (λ w : write, w.1.1 = 2))
    as (labels & -> & Hl);
    [|eexists; split; [done |]; repeat (constructor; [done |]); exact Hl].
  intros [a_idx lay] (a & _ & Hlay)%elem_of_enumerate.
  apply for_each_Forall_ok.
  intros [t_idx pts] (t & -> & Ht)%elem_of_enumerate.
  rewrite Forall_forall in Hok.
  destruct (Hok lay (list_elem_of_lookup_2 _ _ _ Hlay)) as (_ & _ & Hlen & _).
  destruct (lookup_lt_is_Some_2 (teil_point_starts lay) t) as [st Hst].
  { rewrite Hlen. by eapply lookup_lt_Some. }
  rewrite Z.add_0_l, (py_getitem_lookup _ _ _ Hst).
  eexists; split; [done |]. by repeat constructor.
Qed.

Lemma row3_lay_ok (a_idx : Z) lay :
  lay_ok lay →
  ∃ w, row3_lay a_idx lay = Ok w ∧ Forall (λ w : write, w.1.1 = 3) w.
Proof.
  intros Hok. destruct (lay_ok_lengths lay Hok) as (Hs & Hst & Hpt).
  unfold row3_lay. cbn zeta.
  edestruct (for_each_Forall_ok (range (n_teil lay))
               (λ t_idx, sc ← py_getitem (s_cols lay) t_idx;
                         Ok [((3, sc), VStr (teil_label (a_idx + 1) t_idx))])
               (λ w : write, w.1.1 = 3))
    as (s_descs & -> & Hsd).
  { intros t Ht%elem_of_range.
    destruct (py_getitem_in_range (s_cols lay) t) as (sc & -> & _); [lia |].
    eexists; split; [done |]. by repeat constructor. }
  cbn.
  edestruct (λ body, for_each_Forall_ok (range (n_teil lay)) body
                         (λ w : write, w.1.1 = 3))
    as (p_descs & -> & Hpd);
    [|eexists; split; [done |]; constructor; [done |];
      apply Forall_app; split; [exact Hsd | exact Hpd]].
  intros t Ht%elem_of_range.
  assert (∃ descs,
            (if bool_decide (t < len (teil_descriptions lay))
             then py_getitem (teil_descriptions lay) t else Ok []) = Ok descs)
    as [descs ->].
  { case_bool_decide; [|by eexists].
    destruct (py_getitem_in_range (teil_descriptions lay) t) as (d & -> & _);
      [lia | by eexists]. }
  destruct (py_getitem_in_range (teil_punkte lay) t) as (pt & -> & _); [lia |].
  cbn. apply for_each_Forall_ok.
  intros p Hp%elem_of_range.
  destruct (py_getitem_in_range (teil_point_starts lay) t) as (st & -> & _); [lia |].
  cbn.
  assert (∃ desc,
            (if bool_decide (p < len descs)
             then py_getitem descs p else Ok EmptyString) = Ok desc)
    as [desc ->].
  { case_bool_decide; [|by eexists].
    destruct (py_getitem_in_range descs p) as (d & -> & _); [lia | by eexists]. }
  cbn. eexists; split; [done |].
  case_bool_decide; by repeat constructor.
Qed.

Lemma row3_ok lays :
  Forall lay_ok lays →
  ∃ w, row3 lays = Ok w ∧ Forall (λ w : write, w.1.1 = 3) w.
Proof.
  intros Hok. unfold row3.
  edestruct (λ body, for_each_Forall_ok (enumerate 0 lays) body
                         (λ w : write, w.1.1 = 3))
    as (per_lay & -> & Hl);
    [|eexists; split; [done |]; constructor; [done | exact Hl]].
  intros [a_idx lay] (a & _ & Hlay)%elem_of_enumerate.
  apply row3_lay_ok. rewrite Forall_forall in Hok.
  apply Hok. by eapply list_elem_of_lookup_2.
Qed.

End HeaderRows.

(** ** Which cells a row writes *)

Section RowKeys.

Implicit Types (lays : list Layout) (lay : Layout) (r : Z).

Lemma bind_cons_perm {A B} (f : A → B) (g : A → list B) (l : list A) :
  (l ≫= λ x, f x :: g x) ≡ₚ (f <$> l) ++ (l ≫= g).
Proof.
  induction l as [|x l IH]; csimpl; [done |].
  rewrite IH. f_equiv. rewrite !app_assoc. f_equiv.
  by rewrite Permutation_app_comm.
Qed.

Lemma bind_app_perm {A B} (f g : A → list B) (l : list A) :
  (l ≫= λ x, f x ++ g x) ≡ₚ (l ≫= f) ++ (l ≫= g).
Proof.
  induction l as [|x l IH]; csimpl; [done |].
  rewrite IH. rewrite <- !app_assoc. f_equiv.
  rewrite !app_assoc. f_equiv. by rewrite Permutation_app_comm.
Qed.

Lemma bind_perm_ext {A B} (f g : A → list B) (l : list A) :
  (∀ x, x ∈ l → f x ≡ₚ g x) → l ≫= f ≡ₚ l ≫= g.
Proof.
  induction l as [|x l IH]; intros Hfg; csimpl; [done |].
  rewrite (Hfg x) by left. f_equiv. apply IH. intros y Hy. apply Hfg. by right.
Qed.

Lemma bind_keys {A} (f : A → list write) (g : A → list Z) (l : list A) r :
  (∀ x, x ∈ l → (f x).*1 = (λ c, (r, c)) <$> g x) →
  (l ≫= f).*1 = (λ c, (r, c)) <$> (l ≫= g).
Proof.
  induction l as [|x l IH]; intros Hfg; csimpl; [done |].
  rewrite !fmap_app, (Hfg x) by left. f_equal.
  apply IH. intros y Hy. apply Hfg. by right.
Qed.

Lemma triples_runs (ss st pt : list Z) :
  length ss = length pt → length st = length pt →
  zip ss (zip st pt) ≫= (λ x, point_run x.2.1 x.2.2)
  = mjoin (zip_with point_run st pt).
Proof.
  revert st pt. induction ss as [|s ss IH]; intros [|t st] [|p pt] H1 H2;
    simplify_eq/=; [done |].
  csimpl. f_equal. by apply IH.
Qed.

Lemma teil_triples_fst lay : lay_ok lay → (teil_triples lay).*1 = s_cols lay.
Proof.
  intros Hok. destruct (lay_ok_lengths lay Hok) as (H1 & H2 & H3).
  unfold teil_triples, len in *. apply fst_zip. rewrite length_zip_with. lia.
Qed.

Lemma teil_triples_runs lay :
  lay_ok lay →
  teil_triples lay ≫= (λ x, point_run x.2.1 x.2.2) = point_block lay.
Proof.
  intros Hok. destruct (lay_ok_lengths lay Hok) as (H1 & H2 & H3).
  unfold teil_triples, point_block, len in *. apply triples_runs; lia.
Qed.

Lemma lay_columns_perm lay :
  lay_ok lay → lay_columns lay ≡ₚ summary_block lay ++ point_block lay.
Proof.
  intros Hok. unfold lay_columns, summary_block, teil_columns.
  rewrite bind_cons_perm, teil_triples_fst, teil_triples_runs by done. done.
Qed.

Lemma row_columns_perm lays :
  Forall lay_ok lays → lays ≫= lay_columns ≡ₚ all_columns lays.
Proof.
  intros Hok. unfold all_columns, summary_columns, point_columns.
  rewrite <- bind_app_perm. apply bind_perm_ext.
  intros lay Hlay. apply lay_columns_perm.
  rewrite Forall_forall in Hok. by apply Hok.
Qed.

(** A row that writes one cell in every point column touches each column
    of the layouts once. *)
Lemma row_cells_keys r lays (v : Layout → cell_value)
    (s_value : Z → Z → cell_value) (pw : Z → Z → list write) :
  (∀ pc p, (pw pc p).*1 = [(r, pc)]) →
  (row_cells r lays v s_value pw).*1 = (λ c, (r, c)) <$> (lays ≫= lay_columns).
Proof.
  intros Hpw. unfold row_cells. apply bind_keys. intros lay _.
  unfold lay_cells_list, lay_columns. csimpl. f_equal.
  apply bind_keys. intros x _. unfold teil_cells, teil_columns. csimpl. f_equal.
  unfold point_run.
  rewrite (bind_keys _ (λ p, [x.2.1 + p]) _ r) by (intros; apply Hpw).
  by induction (range x.2.2) as [|p l IH]; csimpl; rewrite ?IH.
Qed.

(** A row that leaves the point columns alone touches the summary columns. *)
Lemma row_cells_keys_summary r lays (v : Layout → cell_value)
    (s_value : Z → Z → cell_value) :
  Forall lay_ok lays →
  (row_cells r lays v s_value no_point_cells).*1
  = (λ c, (r, c)) <$> summary_columns lays.
Proof.
  intros Hok. unfold row_cells, summary_columns. apply bind_keys. intros lay Hlay.
  rewrite Forall_forall in Hok. specialize (Hok lay Hlay).
  unfold lay_cells_list, summary_block. csimpl. f_equal.
  rewrite <- (teil_triples_fst lay Hok).
  induction (teil_triples lay) as [|x l IH]; csimpl; [done |].
  rewrite fmap_app, IH. f_equal.
  induction (range x.2.2) as [|p l' IH']; csimpl; done.
Qed.

Lemma row_cells_rows r lays (v : Layout → cell_value)
    (s_value : Z → Z → cell_value) (pw : Z → Z → list write) :
  (∀ pc p, Forall (λ w : write, w.1.1 = r) (pw pc p)) →
  Forall (λ w : write, w.1.1 = r) (row_cells r lays v s_value pw).
Proof.
  intros Hpw. unfold row_cells. apply Forall_forall.
  intros w (lay & Hw & _)%list_elem_of_bind.
  unfold lay_cells_list in Hw. apply elem_of_cons in Hw as [-> | Hw]; [done |].
  apply list_elem_of_bind in Hw as (x & Hw & _).
  unfold teil_cells in Hw. apply elem_of_cons in Hw as [-> | Hw]; [done |].
  apply list_elem_of_bind in Hw as (p & Hw & _).
  specialize (Hpw (x.2.1 + p) p). rewrite Forall_forall in Hpw. by apply Hpw.
Qed.

(** The cells a row holds. *)
Lemma row_cells_ss r lays (v : Layout → cell_value)
    (s_value : Z → Z → cell_value) (pw : Z → Z → list write) lay :
  lay ∈ lays → ((r, ss_col lay), v lay) ∈ row_cells r lays v s_value pw.
Proof.
  intros Hlay. unfold row_cells. apply list_elem_of_bind.
  exists lay. split; [left | done].
Qed.

Lemma row_cells_s r lays (v : Layout → cell_value)
    (s_value : Z → Z → cell_value) (pw : Z → Z → list write) lay
    (t : nat) (sc st pt : Z) :
  lay ∈ lays →
  s_cols lay !! t = Some sc →
  teil_point_starts lay !! t = Some st →
  teil_punkte lay !! t = Some pt →
  ((r, sc), s_value st pt) ∈ row_cells r lays v s_value pw.
Proof.
  intros Hlay Hs Hst Hpt. unfold row_cells. apply list_elem_of_bind.
  exists lay. split; [|done]. right. apply list_elem_of_bind.
  exists (sc, (st, pt)). split; [left |].
  apply list_elem_of_lookup. exists t. by apply teil_triples_lookup.
Qed.

Lemma row_cells_point r lays (v : Layout → cell_value)
    (s_value : Z → Z → cell_value) (pw : Z → Z → list write)
    (val : Z → cell_value) (pc : Z) :
  Forall lay_ok lays →
  (∀ pc p, pw pc p = [((r, pc), val pc)]) →
  pc ∈ point_columns lays →
  ((r, pc), val pc) ∈ row_cells r lays v s_value pw.
Proof.
  intros Hok Hpw (lay & Hpc & Hlay)%list_elem_of_bind.
  rewrite Forall_forall in Hok.
  rewrite <- (teil_triples_runs lay) in Hpc by auto.
  apply list_elem_of_bind in Hpc as (x & Hpc & Hx).
  unfold point_run in Hpc. apply list_elem_of_fmap in Hpc as (p & -> & Hp).
  unfold row_cells. apply list_elem_of_bind.
  exists lay. split; [|done]. right. apply list_elem_of_bind.
  exists x. split; [|done]. right. apply list_elem_of_bind.
  exists p. split; [|done]. rewrite Hpw. left.
Qed.

End RowKeys.

(** ** The folder sheet as a whole *)

Lemma fmap_bind {A B C} (f : B → C) (g : A → list B) (l : list A) :
  f <$> (l ≫= g) = l ≫= (λ x, f <$> g x).
Proof. induction l as [|x l IH]; csimpl; [done |]. by rewrite fmap_app, IH. Qed.

Lemma NoDup_enumerate {A} (start : Z) (l : list A) : NoDup (enumerate start l).
Proof.
  apply NoDup_alt. intros i j [k x] Hi Hj. unfold enumerate in *.
  apply list_lookup_imap_Some in Hi as (y & _ & Hy).
  apply list_lookup_imap_Some in Hj as (z & _ & Hz).
  simplify_eq. lia.
Qed.

Lemma enumerate_functional {A} (start : Z) (l : list A) (i : Z) (x y : A) :
  (i, x) ∈ enumerate start l → (i, y) ∈ enumerate start l → x = y.
Proof.
  intros (j & -> & Hx)%elem_of_enumerate (j' & Heq & Hy)%elem_of_enumerate.
  assert (j = j') as -> by lia. congruence.
Qed.

Lemma lookup_enumerate {A} (l : list A) (i : nat) (x : A) :
  l !! i = Some x → (Z.of_nat i, x) ∈ enumerate 0 l.
Proof.
  intros Hx. unfold enumerate. apply elem_of_lookup_imap.
  exists i, x. split; [f_equal; lia | done].
Qed.

(** Case analysis on membership in an explicit list. *)
Ltac elem_cases H :=
  repeat (apply elem_of_cons in H as [H | H]; [simplify_eq; try lia |]);
  try (by apply elem_of_nil in H).

Ltac nodup_explicit :=
  repeat (apply NoDup_cons; split;
          [let H := fresh in intros H; elem_cases H |]);
  apply NoDup_nil_2.

Section Sheet.

Variable get_column_letter : Z → string.
Variable aufgaben : list Aufgabe.
Hypothesis Hwf : wf_config aufgaben.

Local Abbreviation lays := (aufgabe_layouts aufgaben).

Lemma wf_lays_ok : Forall lay_ok lays.
Proof.
  apply aufgabe_layouts_ok. destruct Hwf as [_ Hall].
  eapply Forall_impl; [exact Hall |]. by intros a [Hne _].
Qed.

Lemma wf_all_columns :
  all_columns lays
  = seqZ first_col (sumZ (block_width <$> aufgaben)
                    + sumZ (points_width <$> aufgaben))
  ∧ 0 ≤ sumZ (block_width <$> aufgaben)
  ∧ 0 ≤ sumZ (points_width <$> aufgaben).
Proof.
  destruct (wf_columns_seq aufgaben Hwf) as (Hs & Hp & Hw & Hq).
  split; [|done]. unfold all_columns. rewrite Hs, Hp. unfold phase2_start.
  by rewrite <- seqZ_app.
Qed.

Lemma wf_columns_nodup : NoDup (lays ≫= lay_columns).
Proof.
  rewrite row_columns_perm by apply wf_lays_ok.
  destruct wf_all_columns as (-> & _). apply NoDup_seqZ.
Qed.

Lemma wf_columns_ge (c : Z) : c ∈ lays ≫= lay_columns → first_col ≤ c.
Proof.
  rewrite row_columns_perm by apply wf_lays_ok.
  destruct wf_all_columns as (-> & _). rewrite elem_of_seqZ. lia.
Qed.

Lemma wf_summary_ge (c : Z) : c ∈ summary_columns lays → first_col ≤ c.
Proof.
  intros Hc. apply wf_columns_ge.
  rewrite row_columns_perm by apply wf_lays_ok.
  unfold all_columns. apply elem_of_app. by left.
Qed.

Lemma wf_summary_nodup : NoDup (summary_columns lays).
Proof.
  destruct (wf_columns_seq aufgaben Hwf) as (-> & _). apply NoDup_seqZ.
Qed.

Lemma wf_summary_not_point (c : Z) :
  c ∈ summary_columns lays → c ∉ point_columns lays.
Proof.
  destruct (wf_columns_seq aufgaben Hwf) as (-> & -> & Hw & Hq).
  rewrite !elem_of_seqZ. unfold phase2_start. lia.
Qed.

Lemma pair_row_inj (r : Z) : Inj (=) (=) (λ c : Z, (r, c)).
Proof. intros c1 c2 Heq. by simplify_eq. Qed.

Lemma row4_list_nodup : NoDup (row4_list lays).*1.
Proof.
  unfold row4_list. rewrite fmap_app.
  rewrite (row_cells_keys 4) by done.
  apply NoDup_app. split; [|split].
  - simpl. nodup_explicit.
  - intros k Hk (c & -> & Hc%wf_columns_ge)%list_elem_of_fmap.
    unfold first_col in Hc. simpl in Hk. elem_cases Hk.
  - apply NoDup_fmap_2; [apply pair_row_inj | apply wf_columns_nodup].
Qed.

Lemma row5_list_nodup : NoDup (row5_list get_column_letter lays).*1.
Proof.
  unfold row5_list. csimpl. rewrite (row_cells_keys 5) by done.
  apply NoDup_cons. split.
  - intros (c & Heq & Hc%wf_columns_ge)%list_elem_of_fmap.
    unfold first_col in Hc. simplify_eq. lia.
  - apply NoDup_fmap_2; [apply pair_row_inj | apply wf_columns_nodup].
Qed.

Lemma row6_list_nodup (n_students : Z) :
  NoDup (row6_list get_column_letter n_students lays).*1.
Proof.
  unfold row6_list. csimpl. rewrite (row_cells_keys 6) by done.
  apply NoDup_cons. split.
  - intros (c & Heq & Hc%wf_columns_ge)%list_elem_of_fmap.
    unfold first_col in Hc. simplify_eq. lia.
  - apply NoDup_fmap_2; [apply pair_row_inj | apply wf_columns_nodup].
Qed.

Lemma student_cells_keys (x : Z * Student) :
  (student_cells get_column_letter lays x).*1
  = (λ c, (7 + x.1, c)) <$> ([1; 2; 3; 4] ++ summary_columns lays).
Proof.
  unfold student_cells. cbn zeta. rewrite !fmap_app.
  by rewrite row_cells_keys_summary by apply wf_lays_ok.
Qed.

Lemma student_list_nodup (students : list Student) :
  NoDup (student_list get_column_letter lays students).*1.
Proof.
  unfold student_list. rewrite fmap_bind. apply NoDup_bind.
  - intros [i1 s1] [i2 s2] k H1 H2.
    rewrite !student_cells_keys.
    intros (c1 & -> & _)%list_elem_of_fmap (c2 & Heq & _)%list_elem_of_fmap.
    simpl in Heq. assert (i1 = i2) as -> by (simplify_eq; lia).
    f_equal. by eapply enumerate_functional.
  - intros x _. rewrite student_cells_keys.
    apply NoDup_fmap_2; [apply pair_row_inj |].
    apply NoDup_app. split; [|split; [|apply wf_summary_nodup]].
    + nodup_explicit.
    + intros c Hc Hs%wf_summary_ge. unfold first_col in Hs.
      elem_cases Hc.
  - apply NoDup_enumerate.
Qed.

Lemma student_list_rows (students : list Student) :
  Forall (λ w : write, 7 ≤ w.1.1) (student_list get_column_letter lays students).
Proof.
  unfold student_list. apply Forall_forall.
  intros w ([i s] & Hw & (j & -> & _)%elem_of_enumerate)%list_elem_of_bind.
  assert (Hk : w.1 ∈ (student_cells get_column_letter lays (0 + Z.of_nat j, s)).*1)
    by by apply list_elem_of_fmap_2.
  rewrite student_cells_keys in Hk.
  apply list_elem_of_fmap in Hk as (c & -> & _). simpl. lia.
Qed.

(** With every task holding a subtask and no point count below 1 the
    sheet is built, and its cells are the header rows followed by the
    rows 4, 5 and 6 and the student rows. *)
Lemma build_mappe_sheet_ok (sheet_name : string) (students : list Student)
    (mappe_nr : Z) (semester : string) (exam_date : cell_value) :
  ∃ w2 w3,
    Forall (λ w : write, w.1.1 = 2) w2
    ∧ Forall (λ w : write, w.1.1 = 3) w3
    ∧ build_mappe_sheet get_column_letter sheet_name aufgaben students
        mappe_nr semester exam_date
      = Ok (mkSheet sheet_name
              (ws_write_all ∅
                 (row1 semester lays ++ w2 ++ w3 ++ row4_list lays
                  ++ row5_list get_column_letter lays
                  ++ row6_list get_column_letter (len students) lays
                  ++ student_list get_column_letter lays students))).
Proof.
  pose proof wf_lays_ok as Hok.
  destruct (row2_ok exam_date mappe_nr lays Hok) as (w2 & Hw2 & Hr2).
  destruct (row3_ok lays Hok) as (w3 & Hw3 & Hr3).
  exists w2, w3. split; [done |]. split; [done |].
  unfold build_mappe_sheet, mappe_writes. cbn zeta.
  rewrite Hw2, Hw3, (row4_ok lays Hok), (row5_ok _ lays Hok),
    (row6_ok _ _ lays Hok), (student_rows_ok _ lays _ Hok).
  done.
Qed.

End Sheet.

Section SheetCells.

Variable get_column_letter : Z → string.
Variable aufgaben : list Aufgabe.
Hypothesis Hwf : wf_config aufgaben.
Variables (students : list Student) (semester : string) (w2 w3 : list write).
Hypothesis Hw2 : Forall (λ w : write, w.1.1 = 2) w2.
Hypothesis Hw3 : Forall (λ w : write, w.1.1 = 3) w3.

Local Abbreviation lays := (aufgabe_layouts aufgaben).
Local Abbreviation gcl := get_column_letter.

(** The cells of the sheet that [build_mappe_sheet_ok] describes. *)
Local Abbreviation sheet_cells :=
  (ws_write_all ∅
     (row1 semester lays ++ w2 ++ w3 ++ row4_list lays
      ++ row5_list gcl lays
      ++ row6_list gcl (len students) lays
      ++ student_list gcl lays students)).

Lemma row4_list_rows : Forall (λ w : write, w.1.1 = 4) (row4_list lays).
Proof.
  unfold row4_list. apply Forall_app. split; [by repeat constructor |].
  apply row_cells_rows. intros. by repeat constructor.
Qed.

Lemma row5_list_rows : Forall (λ w : write, w.1.1 = 5) (row5_list gcl lays).
Proof.
  unfold row5_list. constructor; [done |].
  apply row_cells_rows. intros. by repeat constructor.
Qed.

Lemma row6_list_rows :
  Forall (λ w : write, w.1.1 = 6) (row6_list gcl (len students) lays).
Proof.
  unfold row6_list. constructor; [done |].
  apply row_cells_rows. intros. by repeat constructor.
Qed.

Ltac other_rows :=
  rewrite ?Forall_app; repeat split;
  (eapply Forall_impl;
   [first [ apply row1_rows | exact Hw2 | exact Hw3 | apply row4_list_rows
          | apply row5_list_rows | apply row6_list_rows
          | apply (student_list_rows gcl aufgaben Hwf) ]
   | simpl; intros; lia ]).

Lemma sheet_cells_row4 (c : Z) :
  sheet_cells !! (4, c) = ws_write_all ∅ (row4_list lays) !! (4, c).
Proof.
  rewrite <- (ws_write_all_row ∅ (row1 semester lays ++ w2 ++ w3) (row4_list lays)
                (row5_list gcl lays ++ row6_list gcl (len students) lays
                 ++ student_list gcl lays students) 4 c) by other_rows.
  by rewrite <- !app_assoc.
Qed.

Lemma sheet_cells_row5 (c : Z) :
  sheet_cells !! (5, c) = ws_write_all ∅ (row5_list gcl lays) !! (5, c).
Proof.
  rewrite <- (ws_write_all_row ∅ (row1 semester lays ++ w2 ++ w3 ++ row4_list lays)
                (row5_list gcl lays)
                (row6_list gcl (len students) lays
                 ++ student_list gcl lays students) 5 c) by other_rows.
  by rewrite <- !app_assoc.
Qed.

Lemma sheet_cells_row6 (c : Z) :
  sheet_cells !! (6, c)
  = ws_write_all ∅ (row6_list gcl (len students) lays) !! (6, c).
Proof.
  rewrite <- (ws_write_all_row ∅
                (row1 semester lays ++ w2 ++ w3 ++ row4_list lays
                 ++ row5_list gcl lays)
                (row6_list gcl (len students) lays)
                (student_list gcl lays students) 6 c) by other_rows.
  by rewrite <- !app_assoc.
Qed.

Lemma sheet_cells_student_rows (r c : Z) :
  7 ≤ r →
  sheet_cells !! (r, c) = ws_write_all ∅ (student_list gcl lays students) !! (r, c).
Proof.
  intros Hr.
  rewrite <- (ws_write_all_row ∅
                (row1 semester lays ++ w2 ++ w3 ++ row4_list lays
                 ++ row5_list gcl lays ++ row6_list gcl (len students) lays)
                (student_list gcl lays students) [] r c);
    [| other_rows | constructor].
  by rewrite app_nil_r, <- !app_assoc.
Qed.

(** Row 4: the headers of the leading columns. *)
Lemma sheet_row4_header (c : Z) (h : string) :
  ((4, c), VStr h) ∈ row4_headers → sheet_cells !! (4, c) = Some (VStr h).
Proof.
  intros Hin. rewrite sheet_cells_row4.
  apply ws_write_all_nodup; [by apply row4_list_nodup |].
  unfold row4_list. apply elem_of_app. by left.
Qed.



Lemma sheet_row5_point (pc : Z) :
  pc ∈ point_columns lays → sheet_cells !! (5, pc) = Some (VInt 1).
Proof.
  intros Hpc. rewrite sheet_cells_row5.
  apply ws_write_all_nodup; [by apply row5_list_nodup |].
  unfold row5_list. right.
  apply (row_cells_point 5 lays _ _ row5_one (λ _, VInt 1));
    [by apply wf_lays_ok | done | done].
Qed.


Lemma sheet_student_cell (s_idx : nat) (student : Student) (c : Z) (v : cell_value) :
  students !! s_idx = Some student →
  ((7 + Z.of_nat s_idx, c), v) ∈ student_cells gcl lays (Z.of_nat s_idx, student) →
  sheet_cells !! (7 + Z.of_nat s_idx, c) = Some v.
Proof.
  intros Hs Hin. rewrite sheet_cells_student_rows by lia.
  apply ws_write_all_nodup; [by apply student_list_nodup |].
  unfold student_list. apply list_elem_of_bind.
  eexists. split; [exact Hin |]. by apply lookup_enumerate.
Qed.

Lemma sheet_student_ss (s_idx : nat) (student : Student) (lay : Layout) :
  students !! s_idx = Some student → lay ∈ lays →
  sheet_cells !! (7 + Z.of_nat s_idx, ss_col lay)
  = Some (ss_value gcl (7 + Z.of_nat s_idx) lay).
Proof.
  intros Hs Hlay. apply (sheet_student_cell _ student); [done |].
  unfold student_cells. cbn zeta. apply elem_of_app. right.
  by apply row_cells_ss.
Qed.



End SheetCells.

(** ** The claims about the folder sheet *)

Section SheetClaims.

Variable get_column_letter : Z → string.
Variables (sheet_name : string) (aufgaben : list Aufgabe)
  (students : list Student) (mappe_nr : Z) (semester : string)
  (exam_date : cell_value).

Local Abbreviation lays := (aufgabe_layouts aufgaben).
Local Abbreviation gcl := get_column_letter.
Local Abbreviation build :=
  (build_mappe_sheet gcl sheet_name aufgaben students mappe_nr semester exam_date).

(** C4. For every task and every student row [r], the SS cell holds the
    text [=SUM(] first [r] [:] last [r] [)], where first is the name of the
    column after the SS column and last the name of the last column of the
    task's summary block; the columns from first to last are exactly the
    task's S columns, and none of them is a point column. *)
Theorem C4_task_sum_over_subtask_summaries :
  wf_config aufgaben →
  ∃ sheet,
    build = Ok sheet
    ∧ ∀ (a : nat) (lay : Layout) (s_idx : nat) (student : Student),
        lays !! a = Some lay →
        students !! s_idx = Some student →
        let r := 7 + Z.of_nat s_idx in
        cells sheet !! (r, ss_col lay)
        = Some (VStr ("=SUM(" +:+ gcl (ss_col lay + 1) +:+ pretty r +:+ ":"
                        +:+ gcl (ss_col lay + n_teil lay) +:+ pretty r +:+ ")"))
        ∧ s_cols lay = seqZ (ss_col lay + 1) (n_teil lay)
        ∧ 1 ≤ n_teil lay
        ∧ ∀ c, ss_col lay + 1 ≤ c ≤ ss_col lay + n_teil lay →
               c ∈ s_cols lay ∧ c ∉ point_columns lays.
Proof.
  intros Hwf.
  destruct (build_mappe_sheet_ok gcl aufgaben Hwf sheet_name students mappe_nr
              semester exam_date) as (w2 & w3 & Hw2 & Hw3 & Hb).
  eexists. split; [exact Hb |].
  intros a lay s_idx student Hlay%list_elem_of_lookup_2 Hs r.
  pose proof (wf_lays_ok aufgaben Hwf) as Hok.
  rewrite Forall_forall in Hok. destruct (Hok lay Hlay) as (Hsc & _ & _ & Hn).
  cbn [cells]. split.
  { unfold r.
    rewrite (sheet_student_ss gcl aufgaben Hwf students semester w2 w3 Hw2 Hw3
               s_idx student lay) by done.
    unfold sum_formula. done. }
  split; [done |]. split; [done |].
  intros c Hc.
  assert (Hin : c ∈ s_cols lay) by (rewrite Hsc, elem_of_seqZ; lia).
  split; [done |].
  apply (wf_summary_not_point aufgaben Hwf).
  unfold summary_columns. apply list_elem_of_bind.
  exists lay. split; [by right | done].
Qed.


End SheetClaims.

(** ** The claims at concrete inputs *)

Lemma C1_witness :
  ∃ lay,
    aufgabe_layouts config_2_3 !! 1%nat = Some lay
    ∧ ss_col lay = 9
    ∧ s_cols lay = [10; 11; 12]
    ∧ teil_point_starts lay !! 2%nat = Some 21.
Proof.
  destruct (C1_two_phase_allocation config_2_3) as (_ & _ & _ & _ & H).
  destruct (H 1%nat _ eq_refl)
    as (lay & Hlay & _ & Hn & Hss & Hs & _ & _ & _ & Hst & _).
  exists lay. split; [exact Hlay |]. split; [exact Hss |].
  split; [rewrite Hs, Hn, Hss; reflexivity |].
  exact (proj1 (Hst 2%nat _ eq_refl)).
Defined.

Lemma C7_witness :
  ∃ lay,
    aufgabe_layouts [mkAufgabe []; new_aufgabe] !! 0%nat = Some lay
    ∧ s_cols lay = []
    ∧ sum_block_end lay = ss_col lay.
Proof.
  destruct (C7_allocation_never_fails [mkAufgabe []; new_aufgabe]) as (_ & H).
  destruct (H 0%nat _ eq_refl) as (lay & Hlay & _ & _ & _ & Hempty).
  exists lay. split; [exact Hlay |]. exact (Hempty eq_refl).
Defined.

Lemma C4_witness :
  wf_config config_2_3
  ∧ ∃ sheet,
      build_mappe_sheet column_name "Mappe 1" config_2_3 (roster 2) 1
        "WiSe 25/26" (VStr "2026-02-01") = Ok sheet
      ∧ cells sheet !! (8, 6) = Some (VStr "=SUM(G8:H8)")
      ∧ cells sheet !! (7, 9) = Some (VStr "=SUM(J7:L7)").
Proof.
  split; [exact wf_config_2_3 |].
  destruct (C4_task_sum_over_subtask_summaries column_name "Mappe 1" config_2_3
              (roster 2) 1 "WiSe 25/26" (VStr "2026-02-01") wf_config_2_3)
    as (sheet & Hb & H).
  exists sheet. split; [exact Hb |]. split.
  - exact (proj1 (H 0%nat _ 1%nat _ eq_refl eq_refl)).
  - exact (proj1 (H 1%nat _ 0%nat _ eq_refl eq_refl)).
Defined.


(** The workbook of the spec's scenario: 12 students in folders of 5. *)
Example generate_excel_titles :
  ∃ sheets,
    generate_excel column_name (roster 12) config_1x44 5
      "WiSe 25/26" (VStr "2026-02-01") = Ok sheets
    ∧ title <$> sheets = ["Studenten"; "Mappe 1"; "Mappe 2"; "Mappe 3"]%string.
Proof. eexists. split; reflexivity. Qed.

(** Every folder [generate_excel] builds a sheet for holds a student, so
    the range of an average formula it writes is never empty. *)
Lemma mappe_nonempty (students : list Student) (studis_pro_mappe m n_mappen : Z) :
  1 ≤ studis_pro_mappe < 2 ^ 53 →
  len students < 2 ^ 53 →
  ceil_div (len students) studis_pro_mappe = Ok n_mappen →
  m ∈ range n_mappen →
  0 < len (students_in_mappe students studis_pro_mappe m).
Proof.
  intros [Hcap Hc53] Hn53 Hceil Hm%elem_of_range.
  destruct (ceil_div_spec studis_pro_mappe Hcap (len students))
    as (k & Hk & Hb); [split; [apply len_nonneg | done] | done |].
  rewrite Hceil in Hk. injection Hk as <-.
  rewrite (students_in_mappe_take students studis_pro_mappe Hcap m n_mappen)
    by done.
  unfold len in *. rewrite length_take, length_drop. nia.
Qed.

(** ** The workbook *)

Lemma mapR_Forall2 {A B} (f : A → result B) (l : list A) (ys : list B) :
  mapR f l = Ok ys → Forall2 (λ x y, f x = Ok y) l ys.
Proof.
  revert ys. induction l as [|x l IH]; intros ys Hm; simpl in Hm.
  - simplify_eq. constructor.
  - destruct (f x) as [y|] eqn:Hy; [|done].
    destruct (mapR f l) as [ys'|] eqn:Hys; [|done].
    simplify_eq. constructor; [done | by apply IH].
Qed.

Lemma build_studenten_sheet_ok (students : list Student) (studis_pro_mappe : Z) :
  studis_pro_mappe ≠ 0 →
  ∃ sheet,
    build_studenten_sheet students studis_pro_mappe = Ok sheet
    ∧ title sheet = "Studenten"%string.
Proof.
  intros Hcap. unfold build_studenten_sheet. cbn zeta.
  edestruct (λ body, for_each_Forall_ok (enumerate 0 students) body (λ _, True))
    as (rows & -> & _); [|by eexists].
  intros [idx row] _. unfold studenten_row, py_floordiv, py_mod.
  rewrite !bool_decide_eq_false_2 by done. cbn.
  eexists; split; [done |]. by repeat constructor.
Qed.

(** For a well-formed configuration, a capacity of at least 1 and operands
    below [2 ^ 53], for which the floating-point quotient gives the exact
    folder count, the workbook is produced: the overview sheet, then for
    every folder [m] (0-based) the sheet named after the folder number
    [m + 1], built from the students of that folder. *)
Lemma generate_excel_ok (get_column_letter : Z → string)
    (students : list Student) (aufgaben : list Aufgabe) (studis_pro_mappe : Z)
    (semester : string) (exam_date : cell_value) :
  wf_config aufgaben →
  1 ≤ studis_pro_mappe < 2 ^ 53 →
  len students < 2 ^ 53 →
  ∃ n_mappen studenten mappen,
    ceil_div (len students) studis_pro_mappe = Ok n_mappen
    ∧ generate_excel get_column_letter students aufgaben studis_pro_mappe
        semester exam_date = Ok (studenten :: mappen)
    ∧ title studenten = "Studenten"%string
    ∧ Forall2
        (λ m sheet,
           build_mappe_sheet get_column_letter ("Mappe " +:+ pretty (m + 1))
             aufgaben (students_in_mappe students studis_pro_mappe m) (m + 1)
             semester exam_date = Ok sheet)
        (range n_mappen) mappen.
Proof.
  intros Hwf [Hcap Hc53] Hn53.
  destruct (ceil_div_spec studis_pro_mappe Hcap (len students))
    as (k & Hk & _); [split; [apply len_nonneg | done] | done |].
  destruct (build_studenten_sheet_ok students studis_pro_mappe ltac:(lia))
    as (studenten & Hst & Htitle).
  destruct (mapR_is_ok
              (λ m, build_mappe_sheet get_column_letter
                      ("Mappe " +:+ pretty (m + 1)) aufgaben
                      (students_in_mappe students studis_pro_mappe m) (m + 1)
                      semester exam_date)
              (range k)) as (mappen & Hm).
  { intros m _.
    destruct (build_mappe_sheet_ok get_column_letter aufgaben Hwf
                ("Mappe " +:+ pretty (m + 1))
                (students_in_mappe students studis_pro_mappe m) (m + 1)
                semester exam_date) as (w2 & w3 & _ & _ & Hb).
    by eexists. }
  exists k, studenten, mappen. split; [done |]. split.
  - unfold generate_excel. rewrite Hk. cbn. rewrite Hst. cbn. by rewrite Hm.
  - split; [done |]. by apply mapR_Forall2.
Qed.

(** * Further properties of the program *)

(** ** The editor as the page drives it *)

Lemma new_teilaufgabe_in_sync : ta_in_sync new_teilaufgabe.
Proof. unfold ta_in_sync, new_teilaufgabe, len. simpl. lia. Qed.

Lemma new_aufgabe_in_sync : aufgabe_in_sync new_aufgabe.
Proof.
  split; [done |]. repeat constructor; apply new_teilaufgabe_in_sync.
Qed.

Lemma sync_teilaufgabe_in_sync (n : Z) (ta : Teilaufgabe) :
  1 ≤ n ≤ 50 → ta_in_sync (sync_teilaufgabe n ta).
Proof.
  intros Hn.
  destruct (sync_teilaufgabe_spec n ta ltac:(lia)) as (Hp & Hl & _).
  unfold ta_in_sync. rewrite Hl, Hp. lia.
Qed.

Lemma in_sync_nonempty_len {A} (l : list A) : l ≠ [] ↔ (0 < length l)%nat.
Proof. destruct l; simpl; split; intros; try done; lia. Qed.

Lemma run_op_editor_inv (op : editor_op) (aufgaben aufgaben' : list Aufgabe) :
  editor_inv aufgaben →
  ui_op_ok op →
  run_op op aufgaben = Ok aufgaben' →
  editor_inv aufgaben'.
Proof.
  intros [Hne Hall] Hop Hrun. unfold editor_inv.
  assert (H0 : (0 < length aufgaben)%nat) by by apply in_sync_nonempty_len.
  destruct op as [|idx|a_idx|a_idx t_idx|a_idx t_idx n|a_idx t_idx p_idx d];
    simpl in Hrun, Hop.
  - simplify_eq. unfold _add_aufgabe. split.
    + apply in_sync_nonempty_len. rewrite length_app. simpl. lia.
    + apply Forall_app. split; [done |].
      constructor; [apply new_aufgabe_in_sync | constructor].
  - unfold _remove_aufgabe in Hrun. case_bool_decide as Hgt.
    + split; [|by eapply py_pop_Forall].
      apply py_pop_length in Hrun. apply in_sync_nonempty_len.
      unfold len in Hgt. lia.
    + by simplify_eq.
  - eapply py_update_Forall in Hrun as [HP Hl]; [| exact Hall |].
    + split; [apply in_sync_nonempty_len; lia | done].
    + intros x y [Hx1 Hx2] ?; simplify_eq. split; simpl.
      * by destruct (teilaufgaben x).
      * apply Forall_app. split; [done |].
        constructor; [apply new_teilaufgabe_in_sync | constructor].
  - eapply py_update_Forall in Hrun as [HP Hl]; [| exact Hall |].
    + split; [apply in_sync_nonempty_len; lia | done].
    + intros x y [Hx1 Hx2] Hy. cbn zeta in Hy. case_bool_decide as Hgt.
      * destruct (py_pop (teilaufgaben x) t_idx) as [tl|] eqn:Hpop; [|done].
        simpl in Hy. simplify_eq. split; simpl.
        -- apply py_pop_length in Hpop. apply in_sync_nonempty_len.
           unfold len in Hgt. lia.
        -- by eapply py_pop_Forall.
      * by simplify_eq.
  - eapply py_update_Forall in Hrun as [HP Hl]; [| exact Hall |].
    + split; [apply in_sync_nonempty_len; lia | done].
    + intros x y [Hx1 Hx2] Hy.
      destruct (py_update (teilaufgaben x) t_idx _) as [tl|] eqn:Hupd; [|done].
      simpl in Hy. simplify_eq.
      eapply py_update_Forall in Hupd as [HP' Hl']; [| exact Hx2 |].
      * split; simpl; [|done]. apply in_sync_nonempty_len. rewrite Hl'.
        by apply in_sync_nonempty_len.
      * intros ta ta' _ ?; simplify_eq. by apply sync_teilaufgabe_in_sync.
  - eapply py_update_Forall in Hrun as [HP Hl]; [| exact Hall |].
    + split; [apply in_sync_nonempty_len; lia | done].
    + intros x y [Hx1 Hx2] Hy.
      destruct (py_update (teilaufgaben x) t_idx _) as [tl|] eqn:Hupd; [|done].
      simpl in Hy. simplify_eq.
      eapply py_update_Forall in Hupd as [HP' Hl']; [| exact Hx2 |].
      * split; simpl; [|done]. apply in_sync_nonempty_len. rewrite Hl'.
        by apply in_sync_nonempty_len.
      * intros ta ta' [Hb Hlen] Hta'. case_bool_decide; simplify_eq; [|done].
        split; simpl; [done |]. unfold len in *. by rewrite length_insert.
Qed.

Lemma editor_inv_wf (aufgaben : list Aufgabe) :
  editor_inv aufgaben → wf_config aufgaben.
Proof.
  intros [Hne Hall]. split; [done |].
  eapply Forall_impl; [exact Hall |]. intros a [Ha1 Ha2]. split; [done |].
  eapply Forall_impl; [exact Ha2 |]. intros ta [Hb _]. unfold wf_teilaufgabe. lia.
Qed.

(** X1. Every configuration reachable through the page, whose point field
    is bounded to 1..50, has at least one task, every task has at least one
    subtask, and every subtask has a point count in 1..50 with exactly that
    many descriptions. *)
Theorem ui_reachable_in_sync (aufgaben : list Aufgabe) :
  ui_reachable aufgaben →
  aufgaben ≠ []
  ∧ ∀ a, a ∈ aufgaben →
      teilaufgaben a ≠ []
      ∧ ∀ ta, ta ∈ teilaufgaben a →
          1 ≤ punkte ta ≤ 50 ∧ len (descriptions ta) = punkte ta.
Proof.
  intros Hr.
  assert (Hinv : editor_inv aufgaben).
  { induction Hr as [|op aufgaben aufgaben' _ IH Hop Hrun].
    - split; [done |]. constructor; [apply new_aufgabe_in_sync | constructor].
    - by eapply run_op_editor_inv. }
  destruct Hinv as [Hne Hall]. split; [done |].
  intros a Ha. rewrite Forall_forall in Hall. destruct (Hall a Ha) as [Ha1 Ha2].
  split; [done |]. intros ta Hta. rewrite Forall_forall in Ha2. by apply Ha2.
Qed.

Lemma ui_reachable_config_edited : ui_reachable config_edited.
Proof.
  apply (ui_reachable_step AddAufgabe
           [mkAufgabe [new_teilaufgabe;
                       mkTeilaufgabe 2 [EmptyString; EmptyString]]]);
    [|done | reflexivity].
  apply (ui_reachable_step (SyncDescriptions 0 1 2) (_init_state None));
    [apply ui_reachable_init | simpl; lia | reflexivity].
Qed.

Lemma ui_reachable_in_sync_witness :
  ui_reachable config_edited
  ∧ ∀ a, a ∈ config_edited → teilaufgaben a ≠ [].
Proof.
  split; [exact ui_reachable_config_edited |].
  intros a Ha.
  exact (proj1 (proj2 (ui_reachable_in_sync config_edited
                         ui_reachable_config_edited) a Ha)).
Defined.

Lemma ui_reachable_wf (aufgaben : list Aufgabe) :
  ui_reachable aufgaben → wf_config aufgaben.
Proof.
  intros Hr. apply editor_inv_wf.
  induction Hr as [|op aufgaben aufgaben' _ IH Hop Hrun].
  - split; [done |]. constructor; [apply new_aufgabe_in_sync | constructor].
  - by eapply run_op_editor_inv.
Qed.

(** The resize writes the description list that [resize] describes: the
    first [new_punkte] entries, filled up with empty strings. *)
Lemma sync_teilaufgabe_resize (n : Z) (ta : Teilaufgabe) :
  0 ≤ n →
  sync_teilaufgabe n ta
  = mkTeilaufgabe n (resize (Z.to_nat n) EmptyString (descriptions ta)).
Proof.
  intros Hn. unfold sync_teilaufgabe. cbn zeta. f_equal.
  pose proof (len_nonneg (descriptions ta)) as Hlen. unfold len in *.
  repeat case_bool_decide; try lia.
  - rewrite resize_ge by lia. unfold py_repeat. do 2 f_equal. lia.
  - rewrite py_slice_to_take by done. by rewrite resize_le by lia.
  - replace (Z.to_nat n) with (length (descriptions ta)) by lia.
    by rewrite resize_all.
Qed.

(** X2. Two resizes of a subtask in a row, to [m] and then to [n] points
    (neither negative): when [n] is at most [m] the result is the one of
    resizing to [n] directly; when [n] is above [m] the entries from
    position [m] on are empty strings, whatever the list held there
    before, and the entries below [m] are those of the first resize. *)
Theorem sync_teilaufgabe_twice (m n : Z) (ta : Teilaufgabe) :
  0 ≤ m → 0 ≤ n →
  (n ≤ m →
   sync_teilaufgabe n (sync_teilaufgabe m ta) = sync_teilaufgabe n ta)
  ∧ (m ≤ n →
     descriptions (sync_teilaufgabe n (sync_teilaufgabe m ta))
     = descriptions (sync_teilaufgabe m ta)
       ++ replicate (Z.to_nat (n - m)) EmptyString).
Proof.
  intros Hm Hn. rewrite !sync_teilaufgabe_resize by done. cbn [descriptions].
  split; intros Hle.
  - by rewrite resize_resize by lia.
  - rewrite resize_ge by (rewrite length_resize; lia).
    rewrite length_resize. do 2 f_equal. lia.
Qed.

Lemma sync_teilaufgabe_twice_witness :
  sync_teilaufgabe 4
    (sync_teilaufgabe 2 (mkTeilaufgabe 4 ["w"; "x"; "y"; "z"]%string))
  = mkTeilaufgabe 4 ["w"%string; "x"%string; EmptyString; EmptyString]
  ∧ descriptions
      (sync_teilaufgabe 4
         (sync_teilaufgabe 2 (mkTeilaufgabe 4 ["w"; "x"; "y"; "z"]%string)))
    = descriptions (sync_teilaufgabe 2 (mkTeilaufgabe 4 ["w"; "x"; "y"; "z"]%string))
      ++ replicate (Z.to_nat (4 - 2)) EmptyString.
Proof.
  split; [reflexivity |].
  apply (sync_teilaufgabe_twice 2 4); lia.
Defined.

Section EditorFrame.

Context {A : Type}.
Implicit Types (l : list A) (i : Z) (f : A → result A).

Lemma py_update_inv_pos l i f l' :
  py_update l i f = Ok l' →
  ∃ k x y, py_pos l i = Some k ∧ l !! k = Some x ∧ f x = Ok y ∧ l' = <[k := y]> l.
Proof.
  unfold py_update. destruct (py_pos l i) as [k|]; [|done].
  destruct (l !! k) as [x|] eqn:Hx; [|done].
  destruct (f x) as [y|] eqn:Hy; [|done].
  intros; simplify_eq. eauto 10.
Qed.

Lemma py_pos_None l i : py_pos l i = None ↔ i < - len l ∨ len l ≤ i.
Proof.
  unfold py_pos. pose proof (len_nonneg l).
  repeat case_bool_decide; split; intros; try done; lia.
Qed.

Lemma py_update_out_of_range l i f :
  i < - len l ∨ len l ≤ i → py_update l i f = Raise IndexError.
Proof. intros Hi%py_pos_None. unfold py_update. by rewrite Hi. Qed.

Lemma py_pop_out_of_range l i :
  i < - len l ∨ len l ≤ i → py_pop l i = Raise IndexError.
Proof. intros Hi%py_pos_None. unfold py_pop. by rewrite Hi. Qed.

End EditorFrame.

(** X3. A successful [_sync_descriptions] changes one subtask and nothing
    else: the number of tasks stays, every other task is the same object
    as before, and in the task addressed the number of subtasks stays and
    every other subtask is as before. *)
Theorem _sync_descriptions_frame (a_idx t_idx new_punkte : Z)
    (aufgaben aufgaben' : list Aufgabe) :
  _sync_descriptions a_idx t_idx new_punkte aufgaben = Ok aufgaben' →
  length aufgaben' = length aufgaben
  ∧ ∃ (ka kt : nat) (a a' : Aufgabe) (ta : Teilaufgabe),
      py_pos aufgaben a_idx = Some ka
      ∧ aufgaben !! ka = Some a
      ∧ aufgaben' !! ka = Some a'
      ∧ (∀ i, i ≠ ka → aufgaben' !! i = aufgaben !! i)
      ∧ py_pos (teilaufgaben a) t_idx = Some kt
      ∧ teilaufgaben a !! kt = Some ta
      ∧ teilaufgaben a' !! kt = Some (sync_teilaufgabe new_punkte ta)
      ∧ length (teilaufgaben a') = length (teilaufgaben a)
      ∧ ∀ j, j ≠ kt → teilaufgaben a' !! j = teilaufgaben a !! j.
Proof.
  intros (ka & a & a' & Hka & Ha & Hf & ->)%py_update_inv_pos.
  destruct (py_update (teilaufgaben a) t_idx _) as [tas|] eqn:Hupd; [|done].
  simpl in Hf. simplify_eq.
  apply py_update_inv_pos in Hupd as (kt & ta & ta' & Hkt & Hta & Hs & ->).
  simplify_eq.
  split; [apply length_insert |].
  exists ka, kt, a, (mkAufgabe (<[kt := sync_teilaufgabe new_punkte ta]> (teilaufgaben a))), ta.
  split; [done |]. split; [done |]. split.
  { apply list_lookup_insert_eq. by eapply lookup_lt_Some. }
  split; [intros i Hi; by apply list_lookup_insert_ne |].
  split; [done |]. split; [done |]. cbn [teilaufgaben]. split.
  { apply list_lookup_insert_eq. by eapply lookup_lt_Some. }
  split; [apply length_insert |].
  intros j Hj. by apply list_lookup_insert_ne.
Qed.

Lemma _sync_descriptions_frame_witness :
  ∃ aufgaben',
    _sync_descriptions 1 (-1) 7 config_edited = Ok aufgaben'
    ∧ length aufgaben' = length config_edited.
Proof.
  eexists. split; [reflexivity |].
  exact (proj1 (_sync_descriptions_frame 1 (-1) 7 config_edited _ eq_refl)).
Defined.

(** X4. The editor's callbacks raise IndexError, and so leave the stored
    configuration alone, when the task index lies outside the task list
    (below [-len] or at [len] and above); removing a task does so only when
    more than one task is stored, since with a single task it returns
    before it looks at the index. *)
Theorem editor_index_errors (idx t_idx new_punkte : Z) (aufgaben : list Aufgabe) :
  idx < - len aufgaben ∨ len aufgaben ≤ idx →
  _add_teilaufgabe idx aufgaben = Raise IndexError
  ∧ _remove_teilaufgabe idx t_idx aufgaben = Raise IndexError
  ∧ _sync_descriptions idx t_idx new_punkte aufgaben = Raise IndexError
  ∧ (len aufgaben > 1 → _remove_aufgabe idx aufgaben = Raise IndexError)
  ∧ (len aufgaben ≤ 1 → _remove_aufgabe idx aufgaben = Ok aufgaben).
Proof.
  intros Hidx.
  split; [by apply py_update_out_of_range |].
  split; [by apply py_update_out_of_range |].
  split; [by apply py_update_out_of_range |].
  unfold _remove_aufgabe. split; intros Hlen.
  - rewrite bool_decide_eq_true_2 by done. by apply py_pop_out_of_range.
  - by rewrite bool_decide_eq_false_2 by lia.
Qed.

Lemma editor_index_errors_witness :
  _sync_descriptions 2 0 3 config_edited = Raise IndexError
  ∧ _remove_aufgabe (-3) config_edited = Raise IndexError.
Proof.
  destruct (editor_index_errors 2 0 3 config_edited) as (_ & _ & H1 & _).
  { right. unfold len. simpl. lia. }
  destruct (editor_index_errors (-3) 0 3 config_edited) as (_ & _ & _ & H2 & _).
  { left. unfold len. simpl. lia. }
  split; [exact H1 |]. apply H2. unfold len. simpl. lia.
Defined.

(** ** Width of the sheet and what the layout depends on *)

Lemma block_width_sum (aufgaben : list Aufgabe) :
  sumZ (block_width <$> aufgaben) = len aufgaben + total_subtasks aufgaben.
Proof.
  unfold total_subtasks, len.
  induction aufgaben as [|a rest IH]; csimpl; [done |].
  rewrite IH. unfold block_width, len. lia.
Qed.

(** X5. For a well-formed configuration the assigned columns are exactly
    the columns from 6 on, as many as there are tasks, subtasks and points
    together; the number of point columns is the total the page shows as
    "Gesamtpunkte". *)
Theorem sheet_width (aufgaben : list Aufgabe) :
  wf_config aufgaben →
  all_columns (aufgabe_layouts aufgaben)
  = seqZ 6 (len aufgaben + total_subtasks aufgaben + total_points aufgaben)
  ∧ len (point_columns (aufgabe_layouts aufgaben)) = total_points aufgaben
  ∧ len (summary_columns (aufgabe_layouts aufgaben))
    = len aufgaben + total_subtasks aufgaben.
Proof.
  intros Hwf.
  destruct (wf_columns_seq aufgaben Hwf) as (Hs & Hp & Hw & Hq).
  change (sumZ (points_width <$> aufgaben)) with (total_points aufgaben) in *.
  rewrite block_width_sum in *.
  split; [|split].
  - unfold all_columns. rewrite Hs, Hp. unfold phase2_start.
    rewrite block_width_sum. by rewrite <- seqZ_app.
  - rewrite Hp. unfold len. rewrite length_seqZ. lia.
  - rewrite Hs. unfold len at 1. rewrite length_seqZ. lia.
Qed.

Lemma sheet_width_witness :
  wf_config config_2_3
  ∧ len (point_columns (aufgabe_layouts config_2_3)) = 12.
Proof.
  split; [exact wf_config_2_3 |].
  exact (proj1 (proj2 (sheet_width config_2_3 wf_config_2_3))).
Defined.

Lemma point_counts_lookup (aufgaben1 aufgaben2 : list Aufgabe) (a : nat) a1 :
  point_counts aufgaben1 = point_counts aufgaben2 →
  aufgaben1 !! a = Some a1 →
  ∃ a2, aufgaben2 !! a = Some a2
        ∧ punkte <$> teilaufgaben a1 = punkte <$> teilaufgaben a2.
Proof.
  intros Heq Ha1.
  assert (Hl : point_counts aufgaben1 !! a = Some (punkte <$> teilaufgaben a1)).
  { unfold point_counts. by rewrite list_lookup_fmap, Ha1. }
  rewrite Heq in Hl. unfold point_counts in Hl.
  rewrite list_lookup_fmap in Hl.
  destruct (aufgaben2 !! a) as [a2|]; [|done].
  simpl in Hl. exists a2. split; [done | congruence].
Qed.

Lemma block_width_points (aufgaben : list Aufgabe) :
  block_width <$> aufgaben = (λ l : list Z, 1 + len l) <$> point_counts aufgaben.
Proof.
  unfold point_counts. rewrite <- list_fmap_compose.
  apply list_fmap_ext. intros _ a _. simpl. unfold block_width.
  by rewrite len_fmap.
Qed.

Lemma points_width_points (aufgaben : list Aufgabe) :
  points_width <$> aufgaben = sumZ <$> point_counts aufgaben.
Proof. unfold point_counts. by rewrite <- list_fmap_compose. Qed.

(** X6. The positions the allocator assigns depend on the point counts
    alone: two configurations with the same point counts, whatever their
    descriptions, get the same columns. *)
Theorem layout_ignores_descriptions (aufgaben1 aufgaben2 : list Aufgabe) :
  point_counts aufgaben1 = point_counts aufgaben2 →
  layout_positions <$> aufgabe_layouts aufgaben1
  = layout_positions <$> aufgabe_layouts aufgaben2.
Proof.
  intros Heq.
  assert (Hlen : length aufgaben1 = length aufgaben2).
  { apply (f_equal length) in Heq. unfold point_counts in Heq.
    by rewrite !length_fmap in Heq. }
  apply list_eq. intros a. rewrite !list_lookup_fmap.
  destruct (aufgaben1 !! a) as [a1|] eqn:Ha1.
  - destruct (point_counts_lookup _ _ _ _ Heq Ha1) as (a2 & Ha2 & Hpts).
    rewrite (aufgabe_layouts_lookup _ _ _ Ha1), (aufgabe_layouts_lookup _ _ _ Ha2).
    cbn. unfold layout_positions. cbn.
    assert (Hn : len (teilaufgaben a1) = len (teilaufgaben a2)).
    { apply (f_equal len) in Hpts. by rewrite !len_fmap in Hpts. }
    assert (Hb : block_start aufgaben1 a = block_start aufgaben2 a).
    { unfold block_start. by rewrite !fmap_take, !block_width_points, Heq. }
    assert (Hr : run_start aufgaben1 a 0 = run_start aufgaben2 a 0).
    { unfold run_start, phase2_start.
      rewrite Ha1, Ha2, !fmap_take, !block_width_points, !points_width_points.
      by rewrite Heq. }
    by rewrite Hpts, Hn, Hb, Hr.
  - assert (aufgaben2 !! a = None) as Ha2.
    { apply lookup_ge_None. apply lookup_ge_None in Ha1. lia. }
    rewrite (proj2 (lookup_ge_None (aufgabe_layouts aufgaben1) a))
      by (rewrite aufgabe_layouts_length; by apply lookup_ge_None).
    rewrite (proj2 (lookup_ge_None (aufgabe_layouts aufgaben2) a))
      by (rewrite aufgabe_layouts_length; by apply lookup_ge_None).
    done.
Qed.

Lemma set_description_point_counts (a_idx t_idx p_idx : Z) (d : string)
    (aufgaben aufgaben' : list Aufgabe) :
  set_description a_idx t_idx p_idx d aufgaben = Ok aufgaben' →
  point_counts aufgaben' = point_counts aufgaben.
Proof.
  intros (ka & a & a' & Hka & Ha & Hf & ->)%py_update_inv_pos.
  destruct (py_update (teilaufgaben a) t_idx _) as [tas|] eqn:Hupd; [|done].
  simpl in Hf. simplify_eq.
  apply py_update_inv_pos in Hupd as (kt & ta & ta' & Hkt & Hta & Hs & ->).
  unfold point_counts. rewrite list_fmap_insert. cbn [teilaufgaben].
  rewrite list_fmap_insert.
  assert (punkte ta' = punkte ta) as ->.
  { case_bool_decide; by simplify_eq. }
  rewrite (list_insert_id (punkte <$> teilaufgaben a) kt (punkte ta))
    by (by rewrite list_lookup_fmap, Hta).
  apply list_insert_id. by rewrite list_lookup_fmap, Ha.
Qed.

Lemma layout_ignores_descriptions_witness :
  ∃ aufgaben',
    set_description 0 1 2 "Skizze" config_1x44 = Ok aufgaben'
    ∧ layout_positions <$> aufgabe_layouts aufgaben'
      = layout_positions <$> aufgabe_layouts config_1x44.
Proof.
  eexists. split; [reflexivity |].
  apply layout_ignores_descriptions.
  apply (set_description_point_counts 0 1 2 "Skizze" config_1x44).
  reflexivity.
Defined.

(** ** More on the value a sequence of writes leaves in a cell *)

Lemma ws_write_all_agree (ws : worksheet) (l : list write) (k : Z * Z)
    (v : cell_value) :
  (k, v) ∈ l → (∀ v', (k, v') ∈ l → v' = v) → ws_write_all ws l !! k = Some v.
Proof.
  revert ws. induction l as [|[k' v'] l IH]; intros ws Hin Hagree.
  - by apply elem_of_nil in Hin.
  - simpl. destruct (decide (k ∈ l.*1)) as [Hk | Hk].
    + apply list_elem_of_fmap in Hk as ([k1 v1] & Heq & Hk1). simpl in Heq. subst k1.
      assert (v1 = v) as -> by (apply Hagree; by right).
      apply IH; [done |]. intros v2 Hv2. apply Hagree. by right.
    + rewrite ws_write_all_notin by done.
      apply elem_of_cons in Hin as [Heq | Hin].
      * simplify_eq. unfold ws_write. simpl. by rewrite lookup_insert_eq.
      * exfalso. apply Hk. apply list_elem_of_fmap. by exists (k, v).
Qed.

Lemma ws_write_all_Some_in (l : list write) (k : Z * Z) (v : cell_value) :
  ws_write_all ∅ l !! k = Some v → (k, v) ∈ l.
Proof.
  assert (Hgen : ∀ ws : worksheet,
            ws_write_all ws l !! k = Some v → (k, v) ∈ l ∨ ws !! k = Some v).
  { induction l as [|[k' v'] l IH]; intros ws Hl; [by right |].
    simpl in Hl. destruct (IH _ Hl) as [Hin | Hws].
    - left. by right.
    - unfold ws_write in Hws. simpl in Hws.
      destruct (decide (k' = k)) as [-> | Hne].
      + rewrite lookup_insert_eq in Hws. simplify_eq. left. left.
      + rewrite lookup_insert_ne in Hws by done. by right. }
  intros Hl. destruct (Hgen ∅ Hl) as [Hin | Hempty]; [done |].
  by rewrite lookup_empty in Hempty.
Qed.

Lemma nodup_keys_functional (l : list write) (k : Z * Z) (v v' : cell_value) :
  NoDup l.*1 → (k, v) ∈ l → (k, v') ∈ l → v = v'.
Proof.
  intros Hnd Hv Hv'.
  pose proof (ws_write_all_nodup ∅ l k v Hnd Hv) as H1.
  pose proof (ws_write_all_nodup ∅ l k v' Hnd Hv') as H2.
  congruence.
Qed.

Lemma row_cells_point_at (r : Z) (lays : list Layout) (v : Layout → cell_value)
    (s_value : Z → Z → cell_value) (pw : Z → Z → list write)
    (val : Z → Z → cell_value) (lay : Layout) (t : nat) (sc st pt p : Z) :
  (∀ pc p, pw pc p = [((r, pc), val pc p)]) →
  lay ∈ lays →
  s_cols lay !! t = Some sc →
  teil_point_starts lay !! t = Some st →
  teil_punkte lay !! t = Some pt →
  0 ≤ p < pt →
  ((r, st + p), val (st + p) p) ∈ row_cells r lays v s_value pw.
Proof.
  intros Hpw Hlay Hs Hst Hpt Hp. unfold row_cells. apply list_elem_of_bind.
  exists lay. split; [|done]. right. apply list_elem_of_bind.
  exists (sc, (st, pt)). split.
  - right. apply list_elem_of_bind. exists p. split.
    + rewrite Hpw. left.
    + by apply elem_of_range.
  - apply list_elem_of_lookup. exists t. by apply teil_triples_lookup.
Qed.

(** ** Rows 4 and 6 of the folder sheet *)

Section HeaderAndAverageRows.

Variable get_column_letter : Z → string.
Variables (sheet_name : string) (aufgaben : list Aufgabe)
  (students : list Student) (mappe_nr : Z) (semester : string)
  (exam_date : cell_value).

Local Abbreviation lays := (aufgabe_layouts aufgaben).
Local Abbreviation gcl := get_column_letter.
Local Abbreviation build :=
  (build_mappe_sheet gcl sheet_name aufgaben students mappe_nr semester exam_date).

(** X7. Row 4 of a folder sheet names the columns: SS over every task
    summary column, S over every subtask summary column, and over the
    [p]-th point column of a subtask (from 0) the letter number [p mod 26]
    of the lower-case alphabet, so that from the 27th point column on the
    letters start again at a. *)
Theorem row4_column_headers :
  wf_config aufgaben →
  ∃ sheet,
    build = Ok sheet
    ∧ ∀ (a : nat) (lay : Layout),
        lays !! a = Some lay →
        cells sheet !! (4, ss_col lay) = Some (VStr "SS")
        ∧ ∀ (t : nat) (sc st pt : Z),
            s_cols lay !! t = Some sc →
            teil_point_starts lay !! t = Some st →
            teil_punkte lay !! t = Some pt →
            cells sheet !! (4, sc) = Some (VStr "S")
            ∧ ∀ p, 0 ≤ p < pt →
                (∃ letter,
                   ascii_lowercase !! Z.to_nat (p `mod` 26) = Some letter
                   ∧ cells sheet !! (4, st + p) = Some (VStr letter))
                ∧ (p + 26 < pt →
                   cells sheet !! (4, st + (p + 26)) = cells sheet !! (4, st + p)).
Proof.
  intros Hwf.
  destruct (build_mappe_sheet_ok gcl aufgaben Hwf sheet_name students mappe_nr
              semester exam_date) as (w2 & w3 & Hw2 & Hw3 & Hb).
  eexists. split; [exact Hb |]. cbn [cells].
  intros a lay Hlay%list_elem_of_lookup_2.
  assert (Hrow : ∀ c v,
            (((4, c), v) : write)
              ∈ row_cells 4 lays (λ _, VStr "SS") (λ _ _, VStr "S") row4_letter →
            ws_write_all ∅
              (row1 semester lays ++ w2 ++ w3 ++ row4_list lays
               ++ row5_list gcl lays ++ row6_list gcl (len students) lays
               ++ student_list gcl lays students) !! (4, c) = Some v).
  { intros c v Hin.
    rewrite (sheet_cells_row4 gcl aufgaben Hwf students semester w2 w3 Hw2 Hw3).
    apply ws_write_all_nodup; [by apply row4_list_nodup |].
    unfold row4_list. apply elem_of_app. by right. }
  split; [apply Hrow; by apply (row_cells_ss 4 lays (λ _, VStr "SS")) |].
  intros t sc st pt Hs Hst Hpt.
  split; [apply Hrow;
          by apply (row_cells_s 4 lays (λ _, VStr "SS") (λ _ _, VStr "S")
                      row4_letter lay t sc st pt) |].
  assert (Hcell : ∀ p, 0 ≤ p < pt →
            ws_write_all ∅
              (row1 semester lays ++ w2 ++ w3 ++ row4_list lays
               ++ row5_list gcl lays ++ row6_list gcl (len students) lays
               ++ student_list gcl lays students) !! (4, st + p)
            = Some (VStr (default EmptyString
                            (ascii_lowercase !! Z.to_nat (p `mod` 26))))).
  { intros p Hp. apply Hrow.
    by apply (row_cells_point_at 4 lays (λ _, VStr "SS") (λ _ _, VStr "S")
                row4_letter
                (λ _ p, VStr (default EmptyString
                                (ascii_lowercase !! Z.to_nat (p `mod` 26))))
                lay t sc st pt p). }
  intros p Hp. split.
  - destruct (lookup_lt_is_Some_2 ascii_lowercase (Z.to_nat (p `mod` 26)))
      as [letter Hl].
    { pose proof (Z.mod_pos_bound p 26). simpl. lia. }
    exists letter. split; [done |]. rewrite Hcell by done. by rewrite Hl.
  - intros Hp26. rewrite !Hcell by lia.
    replace ((p + 26) `mod` 26) with (p `mod` 26); [done |].
    replace (p + 26) with (p + 1 * 26) by lia. by rewrite Z_mod_plus_full.
Qed.

(** X8. In the average row (row 6) the summary cells are sums, not
    averages: every SS cell holds the text [=SUM(] first [6:] last [6)]
    over the task's S columns, every S cell holds the same text over the
    subtask's run of point columns, that is over the per-column averages,
    and every point column [X] holds [=IFERROR(AVERAGE(X7:X] last row [),]
    two double quotes [)], the last row being 6 plus the number of
    students. *)
Theorem row6_summary_cells :
  wf_config aufgaben →
  ∃ sheet,
    build = Ok sheet
    ∧ ∀ (a : nat) (lay : Layout),
        lays !! a = Some lay →
        cells sheet !! (6, ss_col lay)
        = Some (VStr ("=SUM(" +:+ gcl (ss_col lay + 1) +:+ "6:"
                        +:+ gcl (ss_col lay + n_teil lay) +:+ "6)"))
        ∧ s_cols lay = seqZ (ss_col lay + 1) (n_teil lay)
        ∧ ∀ (t : nat) (sc st pt : Z),
            s_cols lay !! t = Some sc →
            teil_point_starts lay !! t = Some st →
            teil_punkte lay !! t = Some pt →
            cells sheet !! (6, sc)
            = Some (VStr ("=SUM(" +:+ gcl st +:+ "6:"
                            +:+ gcl (st + pt - 1) +:+ "6)"))
            ∧ ∀ p, 0 ≤ p < pt →
                cells sheet !! (6, st + p)
                = Some (VStr ("=IFERROR(AVERAGE(" +:+ gcl (st + p) +:+ "7:"
                                +:+ gcl (st + p) +:+ pretty (6 + len students)
                                +:+ ")," +:+ dquote +:+ dquote +:+ ")")).
Proof.
  intros Hwf.
  destruct (build_mappe_sheet_ok gcl aufgaben Hwf sheet_name students mappe_nr
              semester exam_date) as (w2 & w3 & Hw2 & Hw3 & Hb).
  eexists. split; [exact Hb |]. cbn [cells].
  intros a lay Hlay%list_elem_of_lookup_2.
  assert (Hrow : ∀ c v,
            (((6, c), v) : write)
              ∈ row_cells 6 lays (ss_value gcl 6) (s_formula gcl 6)
                  (row6_average gcl (len students)) →
            ws_write_all ∅
              (row1 semester lays ++ w2 ++ w3 ++ row4_list lays
               ++ row5_list gcl lays ++ row6_list gcl (len students) lays
               ++ student_list gcl lays students) !! (6, c) = Some v).
  { intros c v Hin.
    rewrite (sheet_cells_row6 gcl aufgaben Hwf students semester w2 w3 Hw2 Hw3).
    apply ws_write_all_nodup; [by apply row6_list_nodup |].
    unfold row6_list. by right. }
  pose proof (wf_lays_ok aufgaben Hwf) as Hok.
  rewrite Forall_forall in Hok. destruct (Hok lay Hlay) as (Hsc & _).
  split.
  { rewrite (Hrow _ (ss_value gcl 6 lay))
      by by apply (row_cells_ss 6 lays (ss_value gcl 6)).
    unfold ss_value, sum_formula. done. }
  split; [done |].
  intros t sc st pt Hs Hst Hpt.
  split.
  { rewrite (Hrow _ (s_formula gcl 6 st pt))
      by by apply (row_cells_s 6 lays (ss_value gcl 6) (s_formula gcl 6)
                     (row6_average gcl (len students)) lay t sc st pt).
    unfold s_formula, sum_formula. done. }
  intros p Hp.
  rewrite (Hrow _ (VStr (average_formula gcl (st + p) first_data_row
                           (last_data_row (len students)))))
    by by apply (row_cells_point_at 6 lays (ss_value gcl 6) (s_formula gcl 6)
                   (row6_average gcl (len students))
                   (λ pc _, VStr (average_formula gcl pc first_data_row
                                    (last_data_row (len students))))
                   lay t sc st pt p).
  replace (6 + len students) with (last_data_row (len students))
    by (unfold last_data_row, first_data_row; lia).
  unfold average_formula, first_data_row. done.
Qed.

End HeaderAndAverageRows.

Lemma row4_column_headers_witness :
  wf_config config_1x44
  ∧ ∃ sheet,
      build_mappe_sheet column_name "Mappe 1" config_1x44 (roster 2) 1
        "WiSe 25/26" (VStr "2026-02-01") = Ok sheet
      ∧ cells sheet !! (4, 6) = Some (VStr "SS").
Proof.
  split; [exact wf_config_1x44 |].
  destruct (row4_column_headers column_name "Mappe 1" config_1x44 (roster 2) 1
              "WiSe 25/26" (VStr "2026-02-01") wf_config_1x44)
    as (sheet & Hb & H).
  exists sheet. split; [exact Hb |].
  exact (proj1 (H 0%nat _ eq_refl)).
Defined.

Lemma row6_summary_cells_witness :
  wf_config config_1x44
  ∧ ∃ sheet,
      build_mappe_sheet column_name "Mappe 1" config_1x44 (roster 2) 1
        "WiSe 25/26" (VStr "2026-02-01") = Ok sheet
      ∧ cells sheet !! (6, 6) = Some (VStr "=SUM(G6:H6)")
      ∧ cells sheet !! (6, 7) = Some (VStr "=SUM(I6:L6)")
      ∧ cells sheet !! (6, 8) = Some (VStr "=SUM(M6:P6)")
      ∧ cells sheet !! (6, 9)
        = Some (VStr ("=IFERROR(AVERAGE(I7:I8)," +:+ dquote +:+ dquote +:+ ")"))
      ∧ cells sheet !! (6, 14)
        = Some (VStr ("=IFERROR(AVERAGE(N7:N8)," +:+ dquote +:+ dquote +:+ ")")).
Proof.
  split; [exact wf_config_1x44 |].
  destruct (row6_summary_cells column_name "Mappe 1" config_1x44 (roster 2) 1
              "WiSe 25/26" (VStr "2026-02-01") wf_config_1x44)
    as (sheet & Hb & H).
  exists sheet. split; [exact Hb |].
  destruct (H 0%nat _ eq_refl) as (Hss & _ & Hs).
  split; [exact Hss |].
  destruct (Hs 0%nat 7 9 4 eq_refl eq_refl eq_refl) as (Hs0 & Hp0).
  destruct (Hs 1%nat 8 13 4 eq_refl eq_refl eq_refl) as (Hs1 & Hp1).
  split; [exact Hs0 |]. split; [exact Hs1 |].
  split; [exact (Hp0 0 ltac:(lia)) | exact (Hp1 1 ltac:(lia))].
Defined.

(** ** Blocks and runs as disjoint intervals, by task and subtask *)

Lemma sumZ_take_S (l : list Z) (i : nat) (x : Z) :
  l !! i = Some x → sumZ (take (S i) l) = sumZ (take i l) + x.
Proof.
  intros Hx. rewrite (take_S_r _ _ x) by done. rewrite sumZ_app. simpl. lia.
Qed.

Lemma sumZ_take_mono (l : list Z) (i j : nat) :
  Forall (λ x, 0 ≤ x) l → (i ≤ j)%nat → sumZ (take i l) ≤ sumZ (take j l).
Proof.
  intros Hl Hij.
  replace j with (i + (j - i))%nat by lia.
  rewrite <- take_take_drop, sumZ_app.
  assert (0 ≤ sumZ (take (j - i) (drop i l))); [|lia].
  apply sumZ_nonneg, Forall_take, Forall_drop. done.
Qed.

Lemma sumZ_take_le (l : list Z) (i : nat) :
  Forall (λ x, 0 ≤ x) l → sumZ (take i l) ≤ sumZ l.
Proof.
  intros Hl. rewrite <- (firstn_all l) at 2.
  destruct (decide (i ≤ length l)%nat).
  - by apply sumZ_take_mono.
  - rewrite take_ge by lia. by rewrite firstn_all.
Qed.

(** Columns [base + sum of the widths before i + offset] with the offset
    inside the width of [i] determine [i] and the offset. *)
Lemma interval_inj (widths : list Z) (i j : nat) (wi wj oi oj : Z) :
  Forall (λ x, 0 ≤ x) widths →
  widths !! i = Some wi → widths !! j = Some wj →
  0 ≤ oi < wi → 0 ≤ oj < wj →
  sumZ (take i widths) + oi = sumZ (take j widths) + oj →
  i = j ∧ oi = oj.
Proof.
  intros Hw Hi Hj Hoi Hoj Heq.
  assert (Hlt : ∀ a b wa ob, widths !! a = Some wa → (a < b)%nat → 0 ≤ ob →
            ∀ oa, 0 ≤ oa < wa →
            sumZ (take a widths) + oa < sumZ (take b widths) + ob).
  { intros a b wa ob Ha Hab Hob oa Hoa.
    pose proof (sumZ_take_S _ _ _ Ha) as HS.
    pose proof (sumZ_take_mono widths (S a) b Hw ltac:(lia)). lia. }
  destruct (decide (i = j)) as [-> | Hne].
  - split; [done | lia].
  - exfalso. destruct (decide (i < j)%nat).
    + pose proof (Hlt i j wi oj Hi ltac:(lia) ltac:(lia) oi Hoi). lia.
    + pose proof (Hlt j i wj oi Hj ltac:(lia) ltac:(lia) oj Hoj). lia.
Qed.

Section Intervals.

Variable aufgaben : list Aufgabe.
Hypothesis Hwf : wf_config aufgaben.

Local Abbreviation lays := (aufgabe_layouts aufgaben).

Lemma wf_points_width_nonneg : Forall (λ x, 0 ≤ x) (points_width <$> aufgaben).
Proof.
  destruct Hwf as [_ Hall]. apply Forall_fmap.
  eapply Forall_impl; [exact Hall |]. intros a [_ Ha]. simpl.
  apply sumZ_nonneg, Forall_fmap. eapply Forall_impl; [exact Ha |].
  intros ta Hta. unfold wf_teilaufgabe in Hta. simpl. lia.
Qed.

Lemma wf_block_width_nonneg : Forall (λ x, 0 ≤ x) (block_width <$> aufgaben).
Proof.
  apply Forall_fmap, Forall_forall. intros a _. simpl. unfold block_width.
  pose proof (len_nonneg (teilaufgaben a)). lia.
Qed.

Lemma wf_punkte_pos (a : nat) (aufgabe : Aufgabe) :
  aufgaben !! a = Some aufgabe →
  Forall (λ x, 1 ≤ x) (punkte <$> teilaufgaben aufgabe).
Proof.
  intros Ha. destruct Hwf as [_ Hall]. rewrite Forall_forall in Hall.
  destruct (Hall aufgabe (list_elem_of_lookup_2 _ _ _ Ha)) as [_ Hta].
  by apply Forall_fmap.
Qed.

(** The layout of a task, read through its index. *)
Lemma lay_at (a : nat) (lay : Layout) :
  lays !! a = Some lay →
  ∃ aufgabe,
    aufgaben !! a = Some aufgabe
    ∧ teil_punkte lay = punkte <$> teilaufgaben aufgabe
    ∧ teil_descriptions lay = descriptions <$> teilaufgaben aufgabe
    ∧ n_teil lay = len (teilaufgaben aufgabe)
    ∧ ss_col lay = block_start aufgaben a
    ∧ s_cols lay = seqZ (ss_col lay + 1) (n_teil lay)
    ∧ sum_block_end lay = ss_col lay + n_teil lay
    ∧ ∀ (t : nat) (st : Z),
        teil_point_starts lay !! t = Some st →
        st = run_start aufgaben a t ∧ (t < length (teilaufgaben aufgabe))%nat.
Proof.
  intros Hlay.
  destruct (lookup_lt_is_Some_2 aufgaben a) as [aufgabe Ha].
  { rewrite <- aufgabe_layouts_length. by eapply lookup_lt_Some. }
  rewrite (aufgabe_layouts_lookup _ _ _ Ha) in Hlay. cbn zeta in Hlay.
  injection Hlay as <-.
  cbn [teil_punkte teil_descriptions n_teil ss_col s_cols sum_block_end
       teil_point_starts].
  exists aufgabe. repeat (split; [done |]). split.
  { pose proof (len_nonneg (teilaufgaben aufgabe)) as Hn.
    pose proof (summary_block_phase1 (block_start aufgaben a) _ Hn) as Hs.
    rewrite (seqZ_cons _ (1 + _)) in Hs by lia.
    injection Hs as Hs. rewrite Hs. f_equal; lia. }
  split; [done |].
  intros t st Hst.
  assert (Ht : (t < length (punkte <$> teilaufgaben aufgabe))%nat).
  { rewrite <- (point_starts_length _ (run_start aufgaben a 0)).
    by eapply lookup_lt_Some. }
  rewrite point_starts_lookup in Hst by done. injection Hst as <-.
  split; [|by rewrite length_fmap in Ht].
  unfold run_start. rewrite Ha, take_0, !fmap_take. csimpl. lia.
Qed.

(** A point column belongs to one subtask of one task, at one offset. *)
Lemma point_column_inj (a a' : nat) (lay lay' : Layout) (t t' : nat)
    (st st' pt pt' p p' : Z) :
  lays !! a = Some lay → lays !! a' = Some lay' →
  teil_point_starts lay !! t = Some st → teil_punkte lay !! t = Some pt →
  teil_point_starts lay' !! t' = Some st' → teil_punkte lay' !! t' = Some pt' →
  0 ≤ p < pt → 0 ≤ p' < pt' →
  st + p = st' + p' →
  a = a' ∧ t = t' ∧ p = p'.
Proof.
  intros Hlay Hlay' Hst Hpt Hst' Hpt' Hp Hp' Heq.
  destruct (lay_at a lay Hlay) as (af & Ha & Hpts & _ & _ & _ & _ & _ & Hrs).
  destruct (lay_at a' lay' Hlay') as (af' & Ha' & Hpts' & _ & _ & _ & _ & _ & Hrs').
  destruct (Hrs t st Hst) as [-> _]. destruct (Hrs' t' st' Hst') as [-> _].
  rewrite Hpts in Hpt. rewrite Hpts' in Hpt'.
  unfold run_start in Heq. rewrite Ha, Ha' in Heq.
  rewrite !fmap_take in Heq.
  pose proof (wf_punkte_pos a af Ha) as Hpos.
  pose proof (wf_punkte_pos a' af' Ha') as Hpos'.
  assert (Hnn : Forall (λ x, 0 ≤ x) (punkte <$> teilaufgaben af))
    by (eapply Forall_impl; [exact Hpos |]; simpl; lia).
  assert (Hnn' : Forall (λ x, 0 ≤ x) (punkte <$> teilaufgaben af'))
    by (eapply Forall_impl; [exact Hpos' |]; simpl; lia).
  (* offsets inside the tasks' point widths *)
  set (o := sumZ (take t (punkte <$> teilaufgaben af)) + p) in *.
  set (o' := sumZ (take t' (punkte <$> teilaufgaben af')) + p') in *.
  assert (Ho : 0 ≤ o < points_width af).
  { unfold o, points_width.
    pose proof (sumZ_take_S _ _ _ Hpt) as HS.
    pose proof (sumZ_take_le (punkte <$> teilaufgaben af) (S t) Hnn).
    assert (0 ≤ sumZ (take t (punkte <$> teilaufgaben af)))
      by (apply sumZ_nonneg; by apply Forall_take).
    lia. }
  assert (Ho' : 0 ≤ o' < points_width af').
  { unfold o', points_width.
    pose proof (sumZ_take_S _ _ _ Hpt') as HS.
    pose proof (sumZ_take_le (punkte <$> teilaufgaben af') (S t') Hnn').
    assert (0 ≤ sumZ (take t' (punkte <$> teilaufgaben af')))
      by (apply sumZ_nonneg; by apply Forall_take).
    lia. }
  destruct (interval_inj (points_width <$> aufgaben) a a'
              (points_width af) (points_width af') o o')
    as [<- Hoo]; try done.
  { apply wf_points_width_nonneg. }
  { by rewrite list_lookup_fmap, Ha. }
  { by rewrite list_lookup_fmap, Ha'. }
  { unfold o, o'. lia. }
  simplify_eq. split; [done |].
  destruct (interval_inj (punkte <$> teilaufgaben af) t t' pt pt' p p')
    as [<- Hpp]; try done.
Qed.

(** A summary column belongs to one task, at one offset in its block. *)
Lemma summary_column_inj (a a' : nat) (lay lay' : Layout) (i i' : Z) :
  lays !! a = Some lay → lays !! a' = Some lay' →
  0 ≤ i ≤ n_teil lay → 0 ≤ i' ≤ n_teil lay' →
  ss_col lay + i = ss_col lay' + i' →
  a = a' ∧ i = i'.
Proof.
  intros Hlay Hlay' Hi Hi' Heq.
  destruct (lay_at a lay Hlay) as (af & Ha & _ & _ & Hn & Hss & _).
  destruct (lay_at a' lay' Hlay') as (af' & Ha' & _ & _ & Hn' & Hss' & _).
  rewrite Hss, Hss' in Heq. unfold block_start in Heq. rewrite !fmap_take in Heq.
  apply (interval_inj (block_width <$> aufgaben) a a'
           (block_width af) (block_width af') i i').
  - apply wf_block_width_nonneg.
  - by rewrite list_lookup_fmap, Ha.
  - by rewrite list_lookup_fmap, Ha'.
  - unfold block_width. lia.
  - unfold block_width. lia.
  - lia.
Qed.

End Intervals.

(** ** Rows 1 to 3 of the folder sheet *)

Lemma py_getitem_guarded {A} (l : list A) (i : Z) (d : A) :
  0 ≤ i →
  (if bool_decide (i < len l) then py_getitem l i else Ok d)
  = Ok (default d (l !! Z.to_nat i)).
Proof.
  intros Hi. case_bool_decide as Hlt.
  - destruct (py_getitem_in_range l i) as (x & -> & ->); [lia | done].
  - rewrite (proj2 (lookup_ge_None l (Z.to_nat i))); [done |].
    unfold len in Hlt. lia.
Qed.

Lemma row2_eq (exam_date : cell_value) (mappe_nr : Z) (lays : list Layout) :
  Forall lay_ok lays →
  row2 exam_date mappe_nr lays = Ok (row2_list exam_date mappe_nr lays).
Proof.
  intros Hok. unfold row2, row2_list, row2_labels.
  rewrite (for_each_ok _ _
             (λ y, enumerate 0 (teil_punkte y.2) ≫= row2_label y.1 y.2));
    [done |].
  intros [a_idx lay] (a & _ & Hlay)%elem_of_enumerate. cbn [fst snd].
  apply for_each_ok.
  intros [t_idx pts] (t & -> & Ht)%elem_of_enumerate.
  rewrite Forall_forall in Hok.
  destruct (Hok lay (list_elem_of_lookup_2 _ _ _ Hlay)) as (_ & _ & Hlen & _).
  destruct (lookup_lt_is_Some_2 (teil_point_starts lay) t) as [st Hst].
  { rewrite Hlen. by eapply lookup_lt_Some. }
  rewrite Z.add_0_l, (py_getitem_lookup _ _ _ Hst). cbn.
  unfold row2_label. cbn [fst]. by rewrite Nat2Z.id, Hst.
Qed.

Lemma row3_lay_eq (a_idx : Z) (lay : Layout) :
  lay_ok lay → row3_lay a_idx lay = Ok (row3_lay_list a_idx lay).
Proof.
  intros Hok. destruct (lay_ok_lengths lay Hok) as (Hs & Hst & Hpt).
  unfold row3_lay, row3_lay_list. cbn zeta.
  assert (H1 : for_each (range (n_teil lay))
                 (λ t_idx, sc ← py_getitem (s_cols lay) t_idx;
                           Ok [((3, sc), VStr (teil_label (a_idx + 1) t_idx))])
               = Ok (range (n_teil lay) ≫= row3_s_desc a_idx lay)).
  { apply for_each_ok. intros t Ht%elem_of_range. cbn beta.
    destruct (py_getitem_in_range (s_cols lay) t) as (sc & -> & Hsc); [lia |].
    cbn. unfold row3_s_desc. by rewrite Hsc. }
  rewrite H1. cbn.
  rewrite (for_each_ok (range (n_teil lay)) _ (row3_p_desc lay)); [done |].
  intros t Ht%elem_of_range. cbn beta.
  rewrite py_getitem_guarded by lia. cbn.
  destruct (py_getitem_in_range (teil_punkte lay) t) as (pt & -> & Hpt'); [lia |].
  destruct (py_getitem_in_range (teil_point_starts lay) t) as (st & Hgst & Hst');
    [lia |].
  cbn. unfold row3_p_desc. rewrite Hst', Hpt'.
  apply for_each_ok. intros p Hp%elem_of_range. cbn beta.
  rewrite Hgst. cbn. rewrite py_getitem_guarded by lia. cbn.
  unfold row3_desc_cell, desc_at. done.
Qed.

Lemma row3_eq (lays : list Layout) :
  Forall lay_ok lays → row3 lays = Ok (row3_list lays).
Proof.
  intros Hok. unfold row3, row3_list.
  rewrite (for_each_ok _ _ (λ y, row3_lay_list y.1 y.2)); [done |].
  intros [a_idx lay] (a & _ & Hlay)%elem_of_enumerate. cbn [fst snd].
  apply row3_lay_eq. rewrite Forall_forall in Hok.
  apply Hok. by eapply list_elem_of_lookup_2.
Qed.

Lemma row2_labels_elem (lays : list Layout) (a t : nat) (lay : Layout)
    (st pt : Z) :
  lays !! a = Some lay →
  teil_point_starts lay !! t = Some st →
  teil_punkte lay !! t = Some pt →
  ((2, st), VStr (teil_label (Z.of_nat a + 1) (Z.of_nat t))) ∈ row2_labels lays.
Proof.
  intros Hlay Hst Hpt. unfold row2_labels. apply list_elem_of_bind.
  exists (Z.of_nat a, lay). split; [|by apply lookup_enumerate].
  cbn [fst snd]. apply list_elem_of_bind.
  exists (Z.of_nat t, pt). split; [|by apply lookup_enumerate].
  unfold row2_label. cbn [fst]. rewrite Nat2Z.id, Hst. left.
Qed.

Lemma row2_labels_inv (lays : list Layout) (w : write) :
  w ∈ row2_labels lays →
  ∃ (a t : nat) (lay : Layout) (st pt : Z),
    lays !! a = Some lay
    ∧ teil_point_starts lay !! t = Some st
    ∧ teil_punkte lay !! t = Some pt
    ∧ w = ((2, st), VStr (teil_label (Z.of_nat a + 1) (Z.of_nat t))).
Proof.
  unfold row2_labels.
  intros ([a_idx lay] & Hw & (a & -> & Hlay)%elem_of_enumerate)%list_elem_of_bind.
  cbn [fst snd] in Hw.
  apply list_elem_of_bind in Hw as ([t_idx pt] & Hw & (t & -> & Hpt)%elem_of_enumerate).
  unfold row2_label in Hw. cbn [fst] in Hw.
  rewrite !Z.add_0_l, Nat2Z.id in Hw.
  destruct (teil_point_starts lay !! t) as [st|] eqn:Hst;
    [|by apply elem_of_nil in Hw].
  apply list_elem_of_singleton in Hw.
  by exists a, t, lay, st, pt.
Qed.

(** The three kinds of cells a layout contributes to row 3. *)
Lemma row3_lay_list_inv (a_idx : Z) (lay : Layout) (w : write) :
  w ∈ row3_lay_list a_idx lay →
  w = ((3, ss_col lay), VStr (ss_description a_idx lay))
  ∨ (∃ (t : nat) (sc : Z),
       s_cols lay !! t = Some sc
       ∧ w = ((3, sc), VStr (teil_label (a_idx + 1) (Z.of_nat t))))
  ∨ (∃ (t : nat) (st pt p : Z),
       teil_point_starts lay !! t = Some st
       ∧ teil_punkte lay !! t = Some pt
       ∧ 0 ≤ p < pt
       ∧ desc_at lay (Z.of_nat t) p ≠ EmptyString
       ∧ w = ((3, st + p), VStr (desc_at lay (Z.of_nat t) p))).
Proof.
  unfold row3_lay_list. intros [-> | Hw]%elem_of_cons; [by left |]. right.
  apply elem_of_app in Hw as [Hw | Hw].
  - left. apply list_elem_of_bind in Hw as (t & Hw & Ht%elem_of_range).
    unfold row3_s_desc in Hw.
    destruct (s_cols lay !! Z.to_nat t) as [sc|] eqn:Hsc;
      [|by apply elem_of_nil in Hw].
    apply list_elem_of_singleton in Hw.
    exists (Z.to_nat t), sc. rewrite Z2Nat.id by lia. done.
  - right. apply list_elem_of_bind in Hw as (t & Hw & Ht%elem_of_range).
    unfold row3_p_desc in Hw.
    destruct (teil_point_starts lay !! Z.to_nat t) as [st|] eqn:Hst;
      [|by apply elem_of_nil in Hw].
    destruct (teil_punkte lay !! Z.to_nat t) as [pt|] eqn:Hpt;
      [|by apply elem_of_nil in Hw].
    apply list_elem_of_bind in Hw as (p & Hw & Hp%elem_of_range).
    unfold row3_desc_cell in Hw. case_bool_decide as Hd;
      [by apply elem_of_nil in Hw |].
    apply list_elem_of_singleton in Hw.
    exists (Z.to_nat t), st, pt, p. rewrite Z2Nat.id by lia. done.
Qed.

Lemma row3_list_inv (lays : list Layout) (w : write) :
  w ∈ row3_list lays →
  w = ((3, 5), VStr "Richtige Klausur?")
  ∨ ∃ (a : nat) (lay : Layout),
      lays !! a = Some lay ∧ w ∈ row3_lay_list (Z.of_nat a) lay.
Proof.
  unfold row3_list. intros [-> | Hw]%elem_of_cons; [by left |]. right.
  apply list_elem_of_bind in Hw as ([a_idx lay] & Hw & (a & -> & Hlay)%elem_of_enumerate).
  cbn [fst snd] in Hw. rewrite Z.add_0_l in Hw. eauto.
Qed.

Lemma row3_list_elem (lays : list Layout) (a : nat) (lay : Layout) (w : write) :
  lays !! a = Some lay → w ∈ row3_lay_list (Z.of_nat a) lay → w ∈ row3_list lays.
Proof.
  intros Hlay Hw. unfold row3_list. right. apply list_elem_of_bind.
  exists (Z.of_nat a, lay). split; [done | by apply lookup_enumerate].
Qed.

Lemma row3_lay_list_s (a_idx : Z) (lay : Layout) (t : nat) (sc : Z) :
  lay_ok lay → s_cols lay !! t = Some sc →
  ((3, sc), VStr (teil_label (a_idx + 1) (Z.of_nat t))) ∈ row3_lay_list a_idx lay.
Proof.
  intros Hok Hsc. destruct (lay_ok_lengths lay Hok) as (Hs & _).
  unfold row3_lay_list. right. apply elem_of_app. left.
  apply list_elem_of_bind. exists (Z.of_nat t). split.
  - unfold row3_s_desc. rewrite Nat2Z.id, Hsc. left.
  - apply elem_of_range. apply lookup_lt_Some in Hsc. unfold len in Hs. lia.
Qed.

Lemma row3_lay_list_p (a_idx : Z) (lay : Layout) (t : nat) (st pt p : Z) :
  lay_ok lay →
  teil_point_starts lay !! t = Some st →
  teil_punkte lay !! t = Some pt →
  0 ≤ p < pt →
  desc_at lay (Z.of_nat t) p ≠ EmptyString →
  ((3, st + p), VStr (desc_at lay (Z.of_nat t) p)) ∈ row3_lay_list a_idx lay.
Proof.
  intros Hok Hst Hpt Hp Hd. destruct (lay_ok_lengths lay Hok) as (_ & _ & Hl).
  unfold row3_lay_list. right. apply elem_of_app. right.
  apply list_elem_of_bind. exists (Z.of_nat t). split.
  - unfold row3_p_desc. rewrite Nat2Z.id, Hst, Hpt.
    apply list_elem_of_bind. exists p. split; [|by apply elem_of_range].
    unfold row3_desc_cell. rewrite bool_decide_eq_false_2 by done. left.
  - apply elem_of_range. apply lookup_lt_Some in Hpt. unfold len in Hl. lia.
Qed.

(** ** Rows 1 to 3 in the finished sheet *)

Section UpperRows.

Variable get_column_letter : Z → string.
Variable aufgaben : list Aufgabe.
Hypothesis Hwf : wf_config aufgaben.
Variables (sheet_name : string) (students : list Student) (mappe_nr : Z)
  (semester : string) (exam_date : cell_value).

Local Abbreviation lays := (aufgabe_layouts aufgaben).
Local Abbreviation gcl := get_column_letter.
Local Abbreviation folder_cells :=
  (ws_write_all ∅
     (row1 semester lays ++ row2_list exam_date mappe_nr lays
      ++ row3_list lays ++ row4_list lays
      ++ row5_list gcl lays
      ++ row6_list gcl (len students) lays
      ++ student_list gcl lays students)).

(** The sheet with rows 2 and 3 written out. *)
Lemma build_mappe_sheet_eq :
  build_mappe_sheet gcl sheet_name aufgaben students mappe_nr semester exam_date
  = Ok (mkSheet sheet_name folder_cells).
Proof.
  pose proof (wf_lays_ok aufgaben Hwf) as Hok.
  unfold build_mappe_sheet, mappe_writes. cbn zeta.
  rewrite (row2_eq _ _ _ Hok), (row3_eq _ Hok), (row4_ok lays Hok),
    (row5_ok _ lays Hok), (row6_ok _ _ lays Hok), (student_rows_ok _ lays _ Hok).
  done.
Qed.

Lemma row2_list_rows :
  Forall (λ w : write, w.1.1 = 2) (row2_list exam_date mappe_nr lays).
Proof.
  pose proof (wf_lays_ok aufgaben Hwf) as Hok.
  destruct (row2_ok exam_date mappe_nr lays Hok) as (w & Hw & Hr).
  rewrite (row2_eq _ _ _ Hok) in Hw. by simplify_eq.
Qed.

Lemma row3_list_rows : Forall (λ w : write, w.1.1 = 3) (row3_list lays).
Proof.
  pose proof (wf_lays_ok aufgaben Hwf) as Hok.
  destruct (row3_ok lays Hok) as (w & Hw & Hr).
  rewrite (row3_eq _ Hok) in Hw. by simplify_eq.
Qed.

Ltac upper_other_rows :=
  rewrite ?Forall_app; repeat split;
  (eapply Forall_impl;
   [first [ apply row1_rows | apply row2_list_rows | apply row3_list_rows
          | apply row4_list_rows | apply row5_list_rows | apply row6_list_rows
          | apply (student_list_rows gcl aufgaben Hwf) ]
   | simpl; intros; lia ]).

Lemma folder_cells_row1 (c : Z) :
  folder_cells !! (1, c) = ws_write_all ∅ (row1 semester lays) !! (1, c).
Proof.
  rewrite <- (ws_write_all_row ∅ [] (row1 semester lays)
                (row2_list exam_date mappe_nr lays ++ row3_list lays
                 ++ row4_list lays ++ row5_list gcl lays
                 ++ row6_list gcl (len students) lays
                 ++ student_list gcl lays students) 1 c);
    [reflexivity | constructor | upper_other_rows].
Qed.

Lemma folder_cells_row2 (c : Z) :
  folder_cells !! (2, c)
  = ws_write_all ∅ (row2_list exam_date mappe_nr lays) !! (2, c).
Proof.
  rewrite <- (ws_write_all_row ∅ (row1 semester lays)
                (row2_list exam_date mappe_nr lays)
                (row3_list lays
                 ++ row4_list lays ++ row5_list gcl lays
                 ++ row6_list gcl (len students) lays
                 ++ student_list gcl lays students) 2 c);
    [reflexivity | upper_other_rows | upper_other_rows].
Qed.

Lemma folder_cells_row3 (c : Z) :
  folder_cells !! (3, c) = ws_write_all ∅ (row3_list lays) !! (3, c).
Proof.
  rewrite <- (ws_write_all_row ∅
                (row1 semester lays ++ row2_list exam_date mappe_nr lays)
                (row3_list lays)
                (row4_list lays ++ row5_list gcl lays
                 ++ row6_list gcl (len students) lays
                 ++ student_list gcl lays students) 3 c);
    [by rewrite <- !app_assoc | upper_other_rows | upper_other_rows].
Qed.

(** Where the columns of a layout lie. *)
Lemma phase2_start_ge : first_col ≤ phase2_start aufgaben.
Proof.
  unfold phase2_start.
  pose proof (sumZ_nonneg _ (wf_block_width_nonneg aufgaben)). lia.
Qed.

Lemma n_teil_pos (a : nat) (lay : Layout) : lays !! a = Some lay → 1 ≤ n_teil lay.
Proof.
  intros Hlay. pose proof (wf_lays_ok aufgaben Hwf) as Hok.
  rewrite Forall_lookup in Hok. by destruct (Hok a lay Hlay) as (_ & _ & _ & Hn).
Qed.

Lemma summary_col_bounds (a : nat) (lay : Layout) (i : Z) :
  lays !! a = Some lay → 0 ≤ i ≤ n_teil lay →
  first_col ≤ ss_col lay + i < phase2_start aufgaben.
Proof.
  intros Hlay Hi.
  destruct (lay_at aufgaben a lay Hlay) as (af & Ha & _ & _ & Hn & Hss & _).
  rewrite Hss. unfold block_start, phase2_start. rewrite fmap_take.
  pose proof (wf_block_width_nonneg aufgaben) as Hnn.
  pose proof (sumZ_take_le (block_width <$> aufgaben) (S a) Hnn) as Hle.
  assert (Hbw : (block_width <$> aufgaben) !! a = Some (block_width af))
    by (by rewrite list_lookup_fmap, Ha).
  rewrite (sumZ_take_S _ _ _ Hbw) in Hle.
  assert (0 ≤ sumZ (take a (block_width <$> aufgaben)))
    by (apply sumZ_nonneg; by apply Forall_take).
  assert (block_width af = 1 + n_teil lay) by (unfold block_width; lia).
  lia.
Qed.

Lemma point_col_ge (a : nat) (lay : Layout) (t : nat) (st p : Z) :
  lays !! a = Some lay → teil_point_starts lay !! t = Some st → 0 ≤ p →
  phase2_start aufgaben ≤ st + p.
Proof.
  intros Hlay Hst Hp.
  destruct (lay_at aufgaben a lay Hlay) as (af & Ha & _ & _ & _ & _ & _ & _ & Hrs).
  destruct (Hrs t st Hst) as [-> _]. unfold run_start. rewrite Ha.
  assert (0 ≤ sumZ (points_width <$> take a aufgaben)).
  { apply sumZ_nonneg. rewrite fmap_take.
    by apply Forall_take, wf_points_width_nonneg. }
  assert (0 ≤ sumZ (punkte <$> take t (teilaufgaben af))).
  { apply sumZ_nonneg. rewrite fmap_take. apply Forall_take.
    eapply Forall_impl; [apply (wf_punkte_pos aufgaben Hwf a af Ha) |].
    simpl. intros; lia. }
  lia.
Qed.

Lemma s_col_at (a : nat) (lay : Layout) (t : nat) (sc : Z) :
  lays !! a = Some lay → s_cols lay !! t = Some sc →
  sc = ss_col lay + (Z.of_nat t + 1) ∧ 0 ≤ Z.of_nat t + 1 ≤ n_teil lay.
Proof.
  intros Hlay Hsc.
  destruct (lay_at aufgaben a lay Hlay) as (af & _ & _ & _ & _ & _ & Hs & _).
  rewrite Hs in Hsc. apply lookup_seqZ in Hsc. lia.
Qed.

Lemma s_col_lookup (a : nat) (lay : Layout) (i : Z) :
  lays !! a = Some lay → 1 ≤ i ≤ n_teil lay →
  s_cols lay !! Z.to_nat (i - 1) = Some (ss_col lay + i).
Proof.
  intros Hlay Hi.
  destruct (lay_at aufgaben a lay Hlay) as (af & _ & _ & _ & _ & _ & Hs & _).
  rewrite Hs. rewrite lookup_seqZ_lt by lia. f_equal. lia.
Qed.

Lemma teil_at (a t : nat) (lay : Layout) (aufgabe : Aufgabe) (ta : Teilaufgabe) :
  lays !! a = Some lay → aufgaben !! a = Some aufgabe →
  teilaufgaben aufgabe !! t = Some ta →
  teil_punkte lay !! t = Some (punkte ta)
  ∧ ∀ p, desc_at lay (Z.of_nat t) p
         = default EmptyString (descriptions ta !! Z.to_nat p).
Proof.
  intros Hlay Ha Hta.
  destruct (lay_at aufgaben a lay Hlay) as (af & Ha' & Hpts & Hds & _).
  simplify_eq. split.
  - by rewrite Hpts, list_lookup_fmap, Hta.
  - intros p. unfold desc_at. by rewrite Nat2Z.id, Hds, list_lookup_fmap, Hta.
Qed.

(** Row 1. *)
Lemma folder_row1_title : folder_cells !! (1, 1) = Some (VStr semester).
Proof.
  rewrite folder_cells_row1. apply ws_write_all_agree; [left |].
  intros v' [Heq | Hin]%elem_of_cons; [by simplify_eq |].
  apply list_elem_of_fmap in Hin as (lay & Heq & (a & Hlay)%list_elem_of_lookup).
  simplify_eq.
  pose proof (n_teil_pos a lay Hlay).
  pose proof (summary_col_bounds a lay 0 Hlay). unfold first_col in *. lia.
Qed.

Lemma folder_row1_sum (a : nat) (lay : Layout) :
  lays !! a = Some lay → folder_cells !! (1, ss_col lay) = Some (VStr "SUM").
Proof.
  intros Hlay. rewrite folder_cells_row1. apply ws_write_all_agree.
  - right. apply list_elem_of_fmap. exists lay.
    split; [done | by eapply list_elem_of_lookup_2].
  - intros v' [Heq | Hin]%elem_of_cons.
    + simplify_eq.
      pose proof (n_teil_pos a lay Hlay).
      pose proof (summary_col_bounds a lay 0 Hlay). unfold first_col in *. lia.
    + apply list_elem_of_fmap in Hin as (lay' & Heq & _). by simplify_eq.
Qed.

(** Row 2. *)
Lemma folder_row2_fixed (c : Z) (v : cell_value) :
  ((2, c), v) ∈ row2_fixed exam_date mappe_nr → folder_cells !! (2, c) = Some v.
Proof.
  intros Hin. rewrite folder_cells_row2. apply ws_write_all_agree.
  - unfold row2_list. apply elem_of_app. by left.
  - intros v' [Hv' | Hv']%elem_of_app.
    + apply (nodup_keys_functional (row2_fixed exam_date mappe_nr) (2, c));
        [| done | done].
      unfold row2_fixed. cbn [fmap list_fmap fst]. nodup_explicit.
    + apply row2_labels_inv in Hv' as (a & t & lay & st & pt & Hlay & Hst & _ & Heq).
      simplify_eq.
      pose proof (point_col_ge a lay t st 0 Hlay Hst). pose proof phase2_start_ge.
      unfold first_col, row2_fixed in *.
      exfalso. elem_cases Hin.
Qed.

Lemma folder_row2_label (a t : nat) (lay : Layout) (st : Z) :
  lays !! a = Some lay → teil_point_starts lay !! t = Some st →
  folder_cells !! (2, st)
  = Some (VStr (teil_label (Z.of_nat a + 1) (Z.of_nat t))).
Proof.
  intros Hlay Hst.
  destruct (lay_at aufgaben a lay Hlay) as (af & Ha & Hpts & _ & _ & _ & _ & _ & Hrs).
  destruct (Hrs t st Hst) as [_ Ht].
  destruct (lookup_lt_is_Some_2 (teilaufgaben af) t Ht) as [ta Hta].
  assert (Hpt : teil_punkte lay !! t = Some (punkte ta))
    by (by rewrite Hpts, list_lookup_fmap, Hta).
  pose proof (wf_punkte_pos aufgaben Hwf a af Ha) as Hpos.
  rewrite Forall_lookup in Hpos.
  assert (1 ≤ punkte ta)
    by (apply (Hpos t); by rewrite list_lookup_fmap, Hta).
  rewrite folder_cells_row2. apply ws_write_all_agree.
  - unfold row2_list. apply elem_of_app. right.
    by apply (row2_labels_elem lays a t lay st (punkte ta)).
  - intros v' [Hv' | Hv']%elem_of_app.
    + pose proof (point_col_ge a lay t st 0 Hlay Hst). pose proof phase2_start_ge.
      unfold first_col, row2_fixed in *.
      exfalso. elem_cases Hv'.
    + apply row2_labels_inv in Hv'
        as (a' & t' & lay' & st' & pt' & Hlay' & Hst' & Hpt' & Heq).
      simplify_eq.
      destruct (lay_at aufgaben a' lay' Hlay') as (af' & Ha' & Hpts' & _).
      pose proof (wf_punkte_pos aufgaben Hwf a' af' Ha') as Hpos'.
      rewrite Forall_lookup in Hpos'.
      assert (1 ≤ pt') by (apply (Hpos' t'); by rewrite <- Hpts').
      destruct (point_column_inj aufgaben Hwf a a' lay lay' t t' st' st'
                  (punkte ta) pt' 0 0) as (-> & -> & _); try done; lia.
Qed.

(** Row 3. *)
Lemma row3_list_cases (w : write) :
  w ∈ row3_list lays →
  w = ((3, 5), VStr "Richtige Klausur?")
  ∨ ∃ (a : nat) (lay : Layout),
      lays !! a = Some lay
      ∧ ((∃ i, 0 ≤ i ≤ n_teil lay
               ∧ w = ((3, ss_col lay + i),
                      VStr (row3_summary_text (Z.of_nat a) lay i)))
         ∨ ∃ (t : nat) (st pt p : Z),
             teil_point_starts lay !! t = Some st
             ∧ teil_punkte lay !! t = Some pt
             ∧ 0 ≤ p < pt
             ∧ desc_at lay (Z.of_nat t) p ≠ EmptyString
             ∧ w = ((3, st + p), VStr (desc_at lay (Z.of_nat t) p))).
Proof.
  intros [-> | (a & lay & Hlay & Hin)]%row3_list_inv; [by left |]. right.
  exists a, lay. split; [done |].
  apply row3_lay_list_inv in Hin as [-> | [(t & sc & Hsc & ->) | Hp]].
  - left. exists 0. pose proof (n_teil_pos a lay Hlay).
    split; [lia |]. by rewrite Z.add_0_r.
  - left. destruct (s_col_at a lay t sc Hlay Hsc) as [-> Ht].
    exists (Z.of_nat t + 1). split; [done |].
    unfold row3_summary_text. rewrite bool_decide_eq_false_2 by lia.
    do 3 f_equal. lia.
  - by right.
Qed.

Lemma folder_row3_summary (a : nat) (lay : Layout) (i : Z) :
  lays !! a = Some lay → 0 ≤ i ≤ n_teil lay →
  folder_cells !! (3, ss_col lay + i)
  = Some (VStr (row3_summary_text (Z.of_nat a) lay i)).
Proof.
  intros Hlay Hi. rewrite folder_cells_row3.
  pose proof (wf_lays_ok aufgaben Hwf) as Hok. rewrite Forall_lookup in Hok.
  apply ws_write_all_agree.
  - apply (row3_list_elem lays a lay); [done |].
    destruct (decide (i = 0)) as [-> | Hne].
    + unfold row3_summary_text. rewrite bool_decide_eq_true_2 by done.
      rewrite Z.add_0_r. left.
    + pose proof (s_col_lookup a lay i Hlay) as Hsc.
      pose proof (row3_lay_list_s (Z.of_nat a) lay (Z.to_nat (i - 1))
                    (ss_col lay + i) (Hok a lay Hlay)) as Hin.
      unfold row3_summary_text. rewrite bool_decide_eq_false_2 by done.
      rewrite Z2Nat.id in Hin by lia. apply Hin, Hsc. lia.
  - intros v' [Heq | (a' & lay' & Hlay' & [(i' & Hi' & Heq) | Hp])]%row3_list_cases.
    + simplify_eq. pose proof (summary_col_bounds a lay i Hlay Hi).
      unfold first_col in *. lia.
    + simplify_eq.
      destruct (summary_column_inj aufgaben a a' lay lay' i i') as [-> ->];
        try done.
      by simplify_eq.
    + destruct Hp as (t & st & pt & p & Hst & Hpt & Hp & _ & Heq). simplify_eq.
      pose proof (summary_col_bounds a lay i Hlay Hi).
      pose proof (point_col_ge a' lay' t st p Hlay' Hst). lia.
Qed.

Lemma folder_row3_check :
  folder_cells !! (3, 5) = Some (VStr "Richtige Klausur?").
Proof.
  rewrite folder_cells_row3. apply ws_write_all_agree; [left |].
  intros v' [Heq | (a' & lay' & Hlay' & [(i' & Hi' & Heq) | Hp])]%row3_list_cases.
  - by simplify_eq.
  - simplify_eq. pose proof (summary_col_bounds a' lay' i' Hlay' Hi').
    unfold first_col in *. lia.
  - destruct Hp as (t & st & pt & p & Hst & Hpt & Hp & _ & Heq). simplify_eq.
    pose proof (point_col_ge a' lay' t st p Hlay' Hst). pose proof phase2_start_ge.
    unfold first_col in *. lia.
Qed.

Lemma folder_row3_point (a t : nat) (lay : Layout) (st pt p : Z) :
  lays !! a = Some lay →
  teil_point_starts lay !! t = Some st →
  teil_punkte lay !! t = Some pt →
  0 ≤ p < pt →
  folder_cells !! (3, st + p)
  = if bool_decide (desc_at lay (Z.of_nat t) p = EmptyString) then None
    else Some (VStr (desc_at lay (Z.of_nat t) p)).
Proof.
  intros Hlay Hst Hpt Hp. rewrite folder_cells_row3.
  pose proof (wf_lays_ok aufgaben Hwf) as Hok. rewrite Forall_lookup in Hok.
  assert (Hsame : ∀ w, w ∈ row3_list lays → w.1 = (3, st + p) →
            desc_at lay (Z.of_nat t) p ≠ EmptyString
            ∧ w.2 = VStr (desc_at lay (Z.of_nat t) p)).
  { intros w [-> | (a' & lay' & Hlay' & [(i' & Hi' & ->) | Hq])]%row3_list_cases Hk;
      cbn [fst snd] in Hk.
    - simplify_eq. pose proof (point_col_ge a lay t st p Hlay Hst).
      pose proof phase2_start_ge. unfold first_col in *. lia.
    - simplify_eq. pose proof (summary_col_bounds a' lay' i' Hlay' Hi').
      pose proof (point_col_ge a lay t st p Hlay Hst). lia.
    - destruct Hq as (t' & st' & pt' & p' & Hst' & Hpt' & Hp' & Hd & ->).
      cbn [fst snd] in Hk. simplify_eq.
      destruct (point_column_inj aufgaben Hwf a a' lay lay' t t' st st'
                  pt pt' p p') as (-> & -> & ->); try done.
      by simplify_eq. }
  case_bool_decide as Hd.
  - rewrite ws_write_all_notin; [apply lookup_empty |].
    intros (w & Hk & Hw)%list_elem_of_fmap.
    by destruct (Hsame w Hw (eq_sym Hk)) as [Hne _].
  - apply ws_write_all_agree.
    + apply (row3_list_elem lays a lay); [done |].
      by apply (row3_lay_list_p (Z.of_nat a) lay t st pt p (Hok a lay Hlay)).
    + intros v' Hin. destruct (Hsame _ Hin eq_refl) as [_ Hv]. exact Hv.
Qed.

(** X9. Rows 1 and 2 of a folder sheet built from a configuration of the
    editor's shape: the semester in A1 and the text SUM over the first
    column of every task's summary block; in row 2 the text Datum:, the
    exam date, the text Mappe and the folder number in columns 1, 3, 4
    and 5, and over the first point column of subtask [t] of task [a]
    (both counted from 0) the label A(a+1).(t+1). *)
Theorem folder_sheet_rows_1_2 :
  ∃ sheet,
    build_mappe_sheet gcl sheet_name aufgaben students mappe_nr semester
      exam_date = Ok sheet
    ∧ title sheet = sheet_name
    ∧ cells sheet !! (1, 1) = Some (VStr semester)
    ∧ cells sheet !! (2, 1) = Some (VStr "Datum:")
    ∧ cells sheet !! (2, 3) = Some exam_date
    ∧ cells sheet !! (2, 4) = Some (VStr "Mappe")
    ∧ cells sheet !! (2, 5) = Some (VInt mappe_nr)
    ∧ ∀ (a : nat) (lay : Layout),
        lays !! a = Some lay →
        cells sheet !! (1, ss_col lay) = Some (VStr "SUM")
        ∧ ∀ (t : nat) (st : Z),
            teil_point_starts lay !! t = Some st →
            cells sheet !! (2, st)
            = Some (VStr ("A" +:+ pretty (Z.of_nat a + 1) +:+ "."
                          +:+ pretty (Z.of_nat t + 1))).
Proof.
  eexists. split; [apply build_mappe_sheet_eq |]. cbn [title cells].
  split; [done |].
  split; [apply folder_row1_title |].
  split; [apply folder_row2_fixed; unfold row2_fixed; set_solver |].
  split; [apply folder_row2_fixed; unfold row2_fixed; set_solver |].
  split; [apply folder_row2_fixed; unfold row2_fixed; set_solver |].
  split; [apply folder_row2_fixed; unfold row2_fixed; set_solver |].
  intros a lay Hlay. split; [by apply (folder_row1_sum a) |].
  intros t st Hst. by apply (folder_row2_label a t lay st).
Qed.

(** X10. Row 3 of a folder sheet built from a configuration of the
    editor's shape: the text Richtige Klausur? in column 5; in a task's SS
    column the labels of its subtasks joined by [" + "]; in each S column
    the label of its subtask; and over point column [p] of a subtask the
    description the editor holds for that point, where a missing or empty
    description leaves the cell without a value. *)
Theorem folder_sheet_row_3 :
  ∃ sheet,
    build_mappe_sheet gcl sheet_name aufgaben students mappe_nr semester
      exam_date = Ok sheet
    ∧ cells sheet !! (3, 5) = Some (VStr "Richtige Klausur?")
    ∧ ∀ (a : nat) (lay : Layout) (aufgabe : Aufgabe),
        lays !! a = Some lay →
        aufgaben !! a = Some aufgabe →
        cells sheet !! (3, ss_col lay)
        = Some (VStr (py_join " + "
                        ((λ t, teil_label (Z.of_nat a + 1) t)
                           <$> range (len (teilaufgaben aufgabe)))))
        ∧ (∀ (t : nat) (sc : Z),
             s_cols lay !! t = Some sc →
             cells sheet !! (3, sc)
             = Some (VStr (teil_label (Z.of_nat a + 1) (Z.of_nat t))))
        ∧ ∀ (t : nat) (ta : Teilaufgabe) (st p : Z),
            teilaufgaben aufgabe !! t = Some ta →
            teil_point_starts lay !! t = Some st →
            0 ≤ p < punkte ta →
            cells sheet !! (3, st + p)
            = match descriptions ta !! Z.to_nat p with
              | Some d => if bool_decide (d = EmptyString) then None
                          else Some (VStr d)
              | None => None
              end.
Proof.
  eexists. split; [apply build_mappe_sheet_eq |]. cbn [title cells].
  split; [apply folder_row3_check |].
  intros a lay aufgabe Hlay Ha.
  destruct (lay_at aufgaben a lay Hlay) as (af & Ha' & _ & _ & Hn & _).
  assert (af = aufgabe) as -> by congruence.
  pose proof (n_teil_pos a lay Hlay) as Hpos.
  split; [| split].
  - pose proof (folder_row3_summary a lay 0 Hlay) as H0.
    rewrite Z.add_0_r in H0. rewrite H0 by lia.
    unfold row3_summary_text, ss_description.
    rewrite bool_decide_eq_true_2 by done. by rewrite Hn.
  - intros t sc Hsc. destruct (s_col_at a lay t sc Hlay Hsc) as [-> Ht].
    rewrite (folder_row3_summary a lay (Z.of_nat t + 1) Hlay Ht).
    unfold row3_summary_text. rewrite bool_decide_eq_false_2 by lia.
    do 3 f_equal. lia.
  - intros t ta st p Hta Hst Hp.
    destruct (teil_at a t lay aufgabe ta Hlay Ha Hta) as [Hpt Hdesc].
    rewrite (folder_row3_point a t lay st (punkte ta) p Hlay Hst Hpt Hp).
    rewrite Hdesc. destruct (descriptions ta !! Z.to_nat p) as [d|]; [done |].
    by rewrite bool_decide_eq_true_2.
Qed.

End UpperRows.

Lemma wf_config_described : wf_config config_described.
Proof.
  split; [done |].
  repeat constructor; unfold wf_teilaufgabe; simpl; done || lia.
Qed.

Lemma folder_sheet_rows_1_2_witness :
  wf_config config_2_3
  ∧ ∃ sheet,
      build_mappe_sheet column_name "Mappe 1" config_2_3 (roster 2) 1
        "WiSe 25/26" (VStr "2026-02-01") = Ok sheet
      ∧ cells sheet !! (1, 9) = Some (VStr "SUM")
      ∧ cells sheet !! (2, 15) = Some (VStr "A1.2").
Proof.
  split; [exact wf_config_2_3 |].
  destruct (folder_sheet_rows_1_2 column_name config_2_3 wf_config_2_3
              "Mappe 1" (roster 2) 1 "WiSe 25/26" (VStr "2026-02-01"))
    as (sheet & Hb & _ & _ & _ & _ & _ & _ & H).
  exists sheet. split; [exact Hb |]. split.
  - exact (proj1 (H 1%nat _ eq_refl)).
  - exact (proj2 (H 0%nat _ eq_refl) 1%nat 15 eq_refl).
Defined.

Lemma folder_sheet_row_3_witness :
  wf_config config_described
  ∧ ∃ sheet,
      build_mappe_sheet column_name "Mappe 1" config_described (roster 2) 1
        "WiSe 25/26" (VStr "2026-02-01") = Ok sheet
      ∧ cells sheet !! (3, 8) = Some (VStr "Ansatz")
      ∧ cells sheet !! (3, 9) = None
      ∧ cells sheet !! (3, 10) = Some (VStr "Ergebnis").
Proof.
  split; [exact wf_config_described |].
  destruct (folder_sheet_row_3 column_name config_described wf_config_described
              "Mappe 1" (roster 2) 1 "WiSe 25/26" (VStr "2026-02-01"))
    as (sheet & Hb & _ & H).
  exists sheet. split; [exact Hb |].
  destruct (H 0%nat _ _ eq_refl eq_refl) as (_ & _ & Hp).
  split; [| split].
  - apply (Hp 0%nat _ 8 0 eq_refl eq_refl). simpl. lia.
  - apply (Hp 0%nat _ 8 1 eq_refl eq_refl). simpl. lia.
  - apply (Hp 0%nat _ 8 2 eq_refl eq_refl). simpl. lia.
Defined.

(** ** The overview sheet *)

Lemma build_studenten_sheet_eq (students : list Student) (studis_pro_mappe : Z) :
  studis_pro_mappe ≠ 0 →
  build_studenten_sheet students studis_pro_mappe
  = Ok (mkSheet "Studenten"
          (ws_write_all ∅ (studenten_list studis_pro_mappe students))).
Proof.
  intros Hcap. unfold build_studenten_sheet. cbn zeta.
  rewrite (for_each_ok (enumerate 0 students) _
             (studenten_cells studis_pro_mappe)); [done |].
  intros [idx row] _. unfold studenten_row, py_floordiv, py_mod.
  by rewrite !bool_decide_eq_false_2 by done.
Qed.

Lemma studenten_header_inv (w : write) :
  w ∈ studenten_header →
  ∃ (j : nat) (h : string),
    studenten_headers !! j = Some h ∧ w = ((1, 1 + Z.of_nat j), VStr h).
Proof.
  unfold studenten_header.
  intros ([c h] & -> & (j & -> & Hj)%elem_of_enumerate)%list_elem_of_fmap.
  by exists j, h.
Qed.

Lemma studenten_rows_inv (studis_pro_mappe : Z) (students : list Student)
    (w : write) :
  w ∈ enumerate 0 students ≫= studenten_cells studis_pro_mappe →
  ∃ (idx : nat) (student : Student),
    students !! idx = Some student
    ∧ w ∈ studenten_cells studis_pro_mappe (Z.of_nat idx, student).
Proof.
  intros ([i student] & Hw & (idx & -> & Hidx)%elem_of_enumerate)%list_elem_of_bind.
  rewrite Z.add_0_l in Hw. by exists idx, student.
Qed.

Lemma studenten_cells_nodup (studis_pro_mappe : Z) (x : Z * Student) :
  NoDup (studenten_cells studis_pro_mappe x).*1.
Proof.
  unfold studenten_cells. cbn [fmap list_fmap fst]. nodup_explicit.
Qed.

Lemma studenten_cells_rows (studis_pro_mappe : Z) (x : Z * Student) (w : write) :
  w ∈ studenten_cells studis_pro_mappe x → w.1.1 = x.1 + 2 ∧ 1 ≤ w.1.2 ≤ 6.
Proof.
  unfold studenten_cells. intros Hw.
  repeat (apply elem_of_cons in Hw as [-> | Hw]; [simpl; lia |]).
  by apply elem_of_nil in Hw.
Qed.

(** The value of a header cell and of a student's cell in the finished
    overview sheet. *)
Lemma studenten_list_header (studis_pro_mappe : Z) (students : list Student)
    (j : nat) (h : string) :
  studenten_headers !! j = Some h →
  ws_write_all ∅ (studenten_list studis_pro_mappe students) !! (1, 1 + Z.of_nat j)
  = Some (VStr h).
Proof.
  intros Hj. apply ws_write_all_agree.
  - unfold studenten_list, studenten_header. apply elem_of_app. left.
    apply list_elem_of_fmap. exists (1 + Z.of_nat j, h). split; [done |].
    unfold enumerate. apply elem_of_lookup_imap. by exists j, h.
  - intros v' [Hin | Hin]%elem_of_app.
    + apply studenten_header_inv in Hin as (j' & h' & Hj' & Heq).
      simplify_eq. assert (j' = j) as -> by lia. congruence.
    + apply studenten_rows_inv in Hin as (idx & student & _ & Hin).
      apply studenten_cells_rows in Hin. cbn [fst snd] in Hin. lia.
Qed.

Lemma studenten_list_cell (studis_pro_mappe : Z) (students : list Student)
    (idx : nat) (student : Student) (c : Z) (v : cell_value) :
  students !! idx = Some student →
  ((Z.of_nat idx + 2, c), v) ∈ studenten_cells studis_pro_mappe (Z.of_nat idx, student) →
  ws_write_all ∅ (studenten_list studis_pro_mappe students) !! (Z.of_nat idx + 2, c)
  = Some v.
Proof.
  intros Hidx Hin. apply ws_write_all_agree.
  - unfold studenten_list. apply elem_of_app. right.
    apply list_elem_of_bind. exists (Z.of_nat idx, student).
    split; [done | by apply lookup_enumerate].
  - intros v' [Hv' | Hv']%elem_of_app.
    + apply studenten_header_inv in Hv' as (j' & h' & Hj' & Heq).
      simplify_eq. lia.
    + apply studenten_rows_inv in Hv' as (idx' & student' & Hidx' & Hv').
      pose proof (studenten_cells_rows _ _ _ Hv') as [Hr _]. cbn [fst snd] in Hr.
      assert (idx' = idx) as -> by lia.
      assert (student' = student) as -> by congruence.
      eapply nodup_keys_functional; [apply studenten_cells_nodup | done | done].
Qed.

(** X11. The overview sheet, for a capacity other than 0: it is named
    Studenten; row 1 holds the six headers in columns 1 to 6; the student
    at roster position [idx] (from 0) has row [idx + 2] with the folder
    number [idx // capacity + 1], the slot [idx % capacity], the code made
    of the two joined by an underscore, and the three roster fields; and
    no cell outside rows 1 to [n + 1] and columns 1 to 6 holds a value. *)
Theorem studenten_sheet_cells (students : list Student) (studis_pro_mappe : Z) :
  studis_pro_mappe ≠ 0 →
  ∃ sheet,
    build_studenten_sheet students studis_pro_mappe = Ok sheet
    ∧ title sheet = "Studenten"%string
    ∧ (∀ (j : nat) (h : string),
         studenten_headers !! j = Some h →
         cells sheet !! (1, 1 + Z.of_nat j) = Some (VStr h))
    ∧ (∀ (idx : nat) (student : Student),
         students !! idx = Some student →
         let r := Z.of_nat idx + 2 in
         let mappe := Z.of_nat idx `div` studis_pro_mappe + 1 in
         let stelle := Z.of_nat idx `mod` studis_pro_mappe in
         cells sheet !! (r, 1) = Some (VInt mappe)
         ∧ cells sheet !! (r, 2) = Some (VInt stelle)
         ∧ cells sheet !! (r, 3)
           = Some (VStr (pretty mappe +:+ "_" +:+ pretty stelle))
         ∧ cells sheet !! (r, 4) = Some (VStr (matr_nr student))
         ∧ cells sheet !! (r, 5) = Some (VStr (nachname student))
         ∧ cells sheet !! (r, 6) = Some (VStr (vorname student)))
    ∧ ∀ (r c : Z) (v : cell_value),
        cells sheet !! (r, c) = Some v →
        1 ≤ r ≤ len students + 1 ∧ 1 ≤ c ≤ 6.
Proof.
  intros Hcap. eexists. split; [by apply build_studenten_sheet_eq |].
  cbn [title cells]. split; [done |].
  split; [intros j h Hj; by apply studenten_list_header |].
  split.
  - intros idx student Hidx.
    repeat split;
      (apply (studenten_list_cell _ _ idx student); [done |]);
      unfold studenten_cells; cbn [fst snd].
    + left.
    + right; left.
    + do 2 right; left.
    + do 3 right; left.
    + do 4 right; left.
    + do 5 right; left.
  - intros r c v Hv%ws_write_all_Some_in.
    unfold studenten_list in Hv. apply elem_of_app in Hv as [Hv | Hv].
    + apply studenten_header_inv in Hv as (j & h & Hj%lookup_lt_Some & Heq).
      simplify_eq. pose proof (len_nonneg students).
      unfold studenten_headers in Hj. simpl in Hj. lia.
    + apply studenten_rows_inv in Hv as (idx & student & Hidx%lookup_lt_Some & Hv).
      apply studenten_cells_rows in Hv. cbn [fst snd] in Hv.
      unfold len. lia.
Qed.

Lemma studenten_sheet_cells_witness :
  ∃ sheet,
    build_studenten_sheet (roster 12) 5 = Ok sheet
    ∧ cells sheet !! (1, 3) = Some (VStr "KlausurCode")
    ∧ cells sheet !! (9, 3) = Some (VStr "2_2")
    ∧ cells sheet !! (9, 4) = Some (VStr "100007").
Proof.
  destruct (studenten_sheet_cells (roster 12) 5 ltac:(lia))
    as (sheet & Hb & _ & Hh & Hs & _).
  exists sheet. split; [exact Hb |].
  split; [exact (Hh 2%nat _ eq_refl) |].
  destruct (Hs 7%nat _ eq_refl) as (_ & _ & H3 & H4 & _).
  split; [exact H3 | exact H4].
Defined.

(** ** The workbook as a whole *)

Section Workbook.

Variable get_column_letter : Z → string.
Variables (students : list Student) (aufgaben : list Aufgabe)
  (studis_pro_mappe : Z) (semester : string) (exam_date : cell_value).

Local Abbreviation gcl := get_column_letter.
Local Abbreviation cap := studis_pro_mappe.
Local Abbreviation lays := (aufgabe_layouts aufgaben).

(** The workbook with every sheet written out. *)
Lemma generate_excel_eq (n_mappen : Z) :
  wf_config aufgaben → cap ≠ 0 →
  ceil_div (len students) cap = Ok n_mappen →
  generate_excel gcl students aufgaben cap semester exam_date
  = Ok (studenten_sheet students cap
          :: (mappe_sheet gcl students aufgaben cap semester exam_date
                <$> range n_mappen)).
Proof.
  intros Hwf Hcap Hk. unfold generate_excel. rewrite Hk. cbn.
  rewrite (build_studenten_sheet_eq students cap Hcap). cbn.
  rewrite (mapR_ok _ (mappe_sheet gcl students aufgaben cap semester exam_date));
    [done |].
  intros m _. cbn zeta. by apply build_mappe_sheet_eq.
Qed.

Lemma range_lookup (n i : Z) :
  0 ≤ i < n → range n !! Z.to_nat i = Some i.
Proof.
  intros Hi. unfold range. rewrite lookup_seqZ_lt by lia. f_equal. lia.
Qed.

Lemma students_in_mappe_lookup (idx : nat) (student : Student) (n_mappen : Z) :
  1 ≤ cap →
  (n_mappen - 1) * cap < len students ≤ n_mappen * cap →
  students !! idx = Some student →
  0 ≤ Z.of_nat idx `div` cap < n_mappen
  ∧ 0 ≤ Z.of_nat idx `mod` cap < cap
  ∧ students_in_mappe students cap (Z.of_nat idx `div` cap)
      !! Z.to_nat (Z.of_nat idx `mod` cap) = Some student.
Proof.
  intros Hcap Hb Hidx.
  assert (Hlt : Z.of_nat idx < len students)
    by (apply lookup_lt_Some in Hidx; unfold len; lia).
  pose proof (Z.div_mod (Z.of_nat idx) cap ltac:(lia)) as Hdm.
  pose proof (Z.mod_pos_bound (Z.of_nat idx) cap ltac:(lia)) as Hr.
  set (q := Z.of_nat idx `div` cap) in *.
  set (r := Z.of_nat idx `mod` cap) in *.
  assert (Hq : 0 ≤ q < n_mappen) by nia.
  split; [done |]. split; [done |].
  rewrite (students_in_mappe_take students cap Hcap q n_mappen) by lia.
  rewrite lookup_take_lt by nia.
  rewrite lookup_drop. rewrite <- Hidx. f_equal. nia.
Qed.

(** X12. For a capacity and a roster length below [2 ^ 53], where the
    floating-point quotient gives the exact folder count, the student at
    roster position [idx] is found in the workbook where the overview
    sheet says: with [q = idx // capacity] and [r = idx % capacity] the
    overview row [idx + 2] names folder [q + 1] and slot [r]; the sheet
    after the overview at position [q] is titled Mappe [q + 1], shows the
    folder number [q + 1] in E2 and holds in row [7 + r] the slot [r] and
    the student's matriculation number, last name and first name. *)
Theorem workbook_locates_student (idx : nat) (student : Student) :
  wf_config aufgaben → 1 ≤ cap < 2 ^ 53 → len students < 2 ^ 53 →
  students !! idx = Some student →
  let q := Z.of_nat idx `div` cap in
  let r := Z.of_nat idx `mod` cap in
  ∃ studenten mappen mappe,
    generate_excel gcl students aufgaben cap semester exam_date
    = Ok (studenten :: mappen)
    ∧ cells studenten !! (Z.of_nat idx + 2, 1) = Some (VInt (q + 1))
    ∧ cells studenten !! (Z.of_nat idx + 2, 2) = Some (VInt r)
    ∧ mappen !! Z.to_nat q = Some mappe
    ∧ title mappe = "Mappe " +:+ pretty (q + 1)
    ∧ cells mappe !! (2, 5) = Some (VInt (q + 1))
    ∧ cells mappe !! (7 + r, 1) = Some (VInt r)
    ∧ cells mappe !! (7 + r, 2) = Some (VStr (matr_nr student))
    ∧ cells mappe !! (7 + r, 3) = Some (VStr (nachname student))
    ∧ cells mappe !! (7 + r, 4) = Some (VStr (vorname student)).
Proof.
  intros Hwf [Hcap Hc53] Hn53 Hidx q r.
  destruct (ceil_div_spec cap Hcap (len students))
    as (k & Hk & Hb); [split; [apply len_nonneg | done] | done |].
  destruct (students_in_mappe_lookup idx student k Hcap Hb Hidx)
    as (Hq & Hr & Hin).
  fold q in Hq, Hin. fold r in Hr, Hin.
  exists (studenten_sheet students cap),
    (mappe_sheet gcl students aufgaben cap semester exam_date <$> range k),
    (mappe_sheet gcl students aufgaben cap semester exam_date q).
  split; [apply generate_excel_eq; [done | lia | done] |].
  unfold studenten_sheet, mappe_sheet. cbn [title cells].
  split.
  { apply (studenten_list_cell _ _ idx student); [done |].
    unfold studenten_cells. cbn [fst snd]. left. }
  split.
  { apply (studenten_list_cell _ _ idx student); [done |].
    unfold studenten_cells. cbn [fst snd]. right; left. }
  split; [by rewrite list_lookup_fmap, range_lookup |].
  split; [done |].
  split.
  { apply (folder_row2_fixed gcl aufgaben Hwf
             (students_in_mappe students cap q) (q + 1) semester exam_date
             5 (VInt (q + 1))).
    unfold row2_fixed. do 3 right; left. }
  assert (Hrn : r = Z.of_nat (Z.to_nat r)) by lia.
  revert Hin. generalize (Z.to_nat r) Hrn. intros rn -> Hin.
  repeat split;
    (apply (sheet_student_cell gcl aufgaben Hwf
              (students_in_mappe students cap q) semester
              (row2_list exam_date (q + 1) lays) (row3_list lays)
              (row2_list_rows aufgaben Hwf (q + 1) exam_date)
              (row3_list_rows aufgaben Hwf) rn student); [done |]);
    unfold student_cells; cbn [fst snd]; apply elem_of_app; left.
  - left.
  - right; left.
  - do 2 right; left.
  - do 3 right; left.
Qed.

End Workbook.

(** ** Inputs outside the page's bounds *)

Lemma float_quotient_nonneg (p q : Z) :
  0 ≤ p → 0 < q → 0 ≤ (float_quotient p q).1.
Proof.
  intros Hp Hq. unfold float_quotient. case_bool_decide; [done |]. cbn zeta.
  case_bool_decide; cbn [fst].
  - apply round_half_even_nonneg; [|done].
    assert (0 < 2 ^ float_exponent p q) by (apply Z.pow_pos_nonneg; lia). nia.
  - apply round_half_even_nonneg; [done |].
    assert (0 < 2 ^ (- float_exponent p q)) by (apply Z.pow_pos_nonneg; lia). nia.
Qed.

Lemma ceil_div_nonpos (n studis_pro_mappe : Z) :
  0 ≤ n → studis_pro_mappe ≠ 0 → n = 0 ∨ studis_pro_mappe < 0 →
  ∃ k, ceil_div n studis_pro_mappe = Ok k ∧ k ≤ 0.
Proof.
  intros Hn Hcap Hcase. unfold ceil_div.
  rewrite bool_decide_eq_false_2 by done.
  destruct (decide (n = 0)) as [-> | Hne].
  - rewrite bool_decide_eq_true_2 by lia. eexists. split; [done |].
    unfold float_quotient. simpl. done.
  - destruct Hcase as [? | Hneg]; [done |].
    rewrite bool_decide_eq_false_2 by nia. eexists. split; [done |].
    pose proof (float_quotient_nonneg (Z.abs n) (Z.abs studis_pro_mappe)
                  ltac:(lia) ltac:(lia)) as Hm.
    unfold float_floor. case_bool_decide.
    + assert (0 < 2 ^ (float_quotient (Z.abs n) (Z.abs studis_pro_mappe)).2)
        by (apply Z.pow_pos_nonneg; lia).
      nia.
    + assert (0 < 2 ^ (- (float_quotient (Z.abs n) (Z.abs studis_pro_mappe)).2))
        by (apply Z.pow_pos_nonneg; lia).
      pose proof (Z.div_pos _ _ Hm H0). lia.
Qed.

Lemma range_nonpos (n : Z) : n ≤ 0 → range n = [].
Proof. intros Hn. unfold range. by apply seqZ_nil. Qed.

(** X13. Inputs the page does not let through.  With a capacity of 0 the
    workbook is not produced: the folder count divides by zero.  With a
    capacity other than 0 and an empty roster, or with a negative
    capacity, the workbook is the overview sheet alone, whatever the
    configuration is: no folder sheet is built. *)
Theorem generate_excel_degenerate (get_column_letter : Z → string)
    (students : list Student) (aufgaben : list Aufgabe) (semester : string)
    (exam_date : cell_value) :
  generate_excel get_column_letter students aufgaben 0 semester exam_date
  = Raise ZeroDivisionError
  ∧ ∀ studis_pro_mappe,
      studis_pro_mappe ≠ 0 →
      students = [] ∨ studis_pro_mappe < 0 →
      generate_excel get_column_letter students aufgaben studis_pro_mappe
        semester exam_date
      = Ok [studenten_sheet students studis_pro_mappe].
Proof.
  split; [done |].
  intros studis_pro_mappe Hcap Hcase.
  destruct (ceil_div_nonpos (len students) studis_pro_mappe) as (k & Hk & Hk0);
    [apply len_nonneg | done | |].
  { destruct Hcase as [-> | Hneg]; [by left | by right]. }
  unfold generate_excel. rewrite Hk. cbn.
  rewrite (build_studenten_sheet_eq students studis_pro_mappe Hcap). cbn.
  by rewrite (range_nonpos k Hk0).
Qed.

Lemma generate_excel_degenerate_witness :
  generate_excel column_name (roster 3) config_empty_task (-2)
    "WiSe 25/26" (VStr "2026-02-01")
  = Ok [studenten_sheet (roster 3) (-2)]
  ∧ cells (studenten_sheet (roster 3) (-2)) !! (3, 1) = Some (VInt 0).
Proof.
  split; [| reflexivity].
  apply (generate_excel_degenerate column_name (roster 3) config_empty_task
           "WiSe 25/26" (VStr "2026-02-01")); [lia | right; lia].
Defined.

(** ** A task without subtasks *)

Lemma oie_ok {A} (x : A) : only_index_error (Ok x).
Proof. by intros e He. Qed.

Lemma oie_getitem {A} (l : list A) (i : Z) : only_index_error (py_getitem l i).
Proof.
  intros e. unfold py_getitem.
  destruct (py_pos l i) as [k|]; [destruct (l !! k) |]; congruence.
Qed.

Lemma oie_bind {A B} (m : result A) (f : A → result B) :
  only_index_error m → (∀ x, only_index_error (f x)) →
  only_index_error (m ≫= f).
Proof.
  intros Hm Hf e. destruct m as [x | e']; cbn.
  - apply Hf.
  - intros He. apply Hm. congruence.
Qed.

Lemma oie_mapR {A B} (f : A → result B) (l : list A) :
  (∀ x, only_index_error (f x)) → only_index_error (mapR f l).
Proof.
  intros Hf e. induction l as [|x l IH]; simpl; [done |].
  destruct (f x) as [y | e'] eqn:Hx.
  - destruct (mapR f l) as [ys | e'']; [done |].
    intros He. apply IH. congruence.
  - intros He. apply (Hf x). congruence.
Qed.

Lemma oie_for_each {A} (l : list A) (body : A → result (list write)) :
  (∀ x, only_index_error (body x)) → only_index_error (for_each l body).
Proof.
  intros Hb e. unfold for_each.
  pose proof (oie_mapR body l Hb e) as Hm.
  destruct (mapR body l); [done |]. intros He. apply Hm. congruence.
Qed.

Ltac oie_step :=
  lazymatch goal with
  | |- only_index_error (py_getitem _ _) => apply oie_getitem
  | |- only_index_error (for_each _ _) => apply oie_for_each
  | |- only_index_error (Ok _) => apply oie_ok
  | |- only_index_error (_ ≫= _) => apply oie_bind
  | |- only_index_error (if ?b then _ else _) => destruct b
  | |- only_index_error (let '(_, _) := ?x in _) => destruct x
  | |- only_index_error _ => progress cbn zeta
  | |- ∀ _, _ => intros ?
  end.

Lemma lay_cells_only_index_error (r : Z) (lay : Layout) (ss_value : result cell_value) (s_value : Z → Z → cell_value)
    (p_cells : Z → Z → result (list write)) :
  only_index_error ss_value →
  (∀ pc p, only_index_error (p_cells pc p)) →
  only_index_error (lay_cells r lay ss_value s_value p_cells).
Proof.
  intros Hss Hp. unfold lay_cells.
  apply oie_bind; [done |]. intros v. repeat oie_step. apply Hp.
Qed.

Lemma mappe_writes_only_index_error (get_column_letter : Z → string)
    (aufgaben : list Aufgabe) (students : list Student) (mappe_nr : Z)
    (semester : string) (exam_date : cell_value) :
  only_index_error
    (mappe_writes get_column_letter aufgaben students mappe_nr semester
       exam_date).
Proof.
  unfold mappe_writes, row2, row3, row3_lay, row4, row5, row6, student_rows,
    student_row.
  repeat first [ apply lay_cells_only_index_error; [unfold ss_formula |]
               | oie_step ].
Qed.

Lemma row5_empty_task (get_column_letter : Z → string) (lays : list Layout)
    (lay : Layout) (w : list write) :
  lay ∈ lays → s_cols lay = [] → row5 get_column_letter lays ≠ Ok w.
Proof.
  intros (i & Hi)%list_elem_of_lookup Hs Hw. unfold row5, for_each in Hw.
  destruct (mapR _ lays) as [ys|] eqn:Hm; [|done].
  apply mapR_Forall2 in Hm.
  destruct (Forall2_lookup_l _ _ _ i lay Hm Hi) as (y & _ & Hy).
  unfold lay_cells, ss_formula in Hy. rewrite Hs in Hy. done.
Qed.

(** X14. A configuration in which every subtask has at least one point
    but some task has no subtasks does not give a folder sheet: building
    the sheet raises [IndexError], for any roster. *)
Theorem build_mappe_sheet_empty_task (get_column_letter : Z → string)
    (sheet_name : string) (aufgaben : list Aufgabe) (students : list Student)
    (mappe_nr : Z) (semester : string) (exam_date : cell_value)
    (aufgabe : Aufgabe) :
  Forall (λ a, Forall wf_teilaufgabe (teilaufgaben a)) aufgaben →
  aufgabe ∈ aufgaben →
  teilaufgaben aufgabe = [] →
  build_mappe_sheet get_column_letter sheet_name aufgaben students mappe_nr
    semester exam_date
  = Raise IndexError.
Proof.
  intros _ (a & Ha)%list_elem_of_lookup Hempty.
  destruct (lookup_lt_is_Some_2 (aufgabe_layouts aufgaben) a) as [lay Hlay].
  { rewrite aufgabe_layouts_length. by eapply lookup_lt_Some. }
  destruct (lay_at aufgaben a lay Hlay) as (af & Ha' & _ & _ & Hn & _ & Hs & _).
  assert (af = aufgabe) as -> by congruence.
  rewrite Hempty in Hn. rewrite Hn in Hs. cbn in Hs.
  pose proof (mappe_writes_only_index_error get_column_letter aufgaben students
                mappe_nr semester exam_date) as Honly.
  unfold build_mappe_sheet.
  destruct (mappe_writes _ _ _ _ _ _) as [w | e] eqn:Hw.
  - exfalso. unfold mappe_writes in Hw. cbn zeta in Hw.
    destruct (row2 _ _ _) as [w2|]; [|done].
    destruct (row3 _) as [w3|]; [|done].
    destruct (row4 _) as [w4|]; [|done].
    destruct (row5 _ _) as [w5|] eqn:H5; [|done].
    apply (row5_empty_task get_column_letter (aufgabe_layouts aufgaben) lay w5);
      [by eapply list_elem_of_lookup_2 | done | done].
  - cbn. f_equal. by apply Honly.
Qed.

Lemma build_mappe_sheet_empty_task_witness :
  build_mappe_sheet column_name "Mappe 1" config_empty_task (roster 2) 1
    "WiSe 25/26" (VStr "2026-02-01")
  = Raise IndexError.
Proof.
  apply (build_mappe_sheet_empty_task column_name "Mappe 1" config_empty_task
           (roster 2) 1 "WiSe 25/26" (VStr "2026-02-01") (mkAufgabe [])).
  - unfold config_empty_task, new_aufgabe, new_teilaufgabe, wf_teilaufgabe.
    repeat constructor; simpl; lia.
  - unfold config_empty_task. right; left.
  - reflexivity.
Defined.

(** ** The cells a folder sheet gives a value *)

Section Extent.

Variable get_column_letter : Z → string.
Variable aufgaben : list Aufgabe.
Hypothesis Hwf : wf_config aufgaben.
Variables (students : list Student) (mappe_nr : Z) (semester : string)
  (exam_date : cell_value).

Local Abbreviation lays := (aufgabe_layouts aufgaben).
Local Abbreviation gcl := get_column_letter.
Local Abbreviation width :=
  (len aufgaben + total_subtasks aufgaben + total_points aufgaben).

Lemma layout_col_bounds (c : Z) :
  c ∈ lays ≫= lay_columns → first_col ≤ c < first_col + width.
Proof.
  rewrite row_columns_perm by apply (wf_lays_ok aufgaben Hwf).
  destruct (wf_all_columns aufgaben Hwf) as (-> & _ & _).
  rewrite block_width_sum.
  change (sumZ (points_width <$> aufgaben)) with (total_points aufgaben).
  rewrite elem_of_seqZ. lia.
Qed.

Lemma summary_col_in (c : Z) :
  c ∈ summary_columns lays → c ∈ lays ≫= lay_columns.
Proof.
  intros Hc. rewrite row_columns_perm by apply (wf_lays_ok aufgaben Hwf).
  unfold all_columns. apply elem_of_app. by left.
Qed.

Lemma point_col_in (c : Z) :
  c ∈ point_columns lays → c ∈ lays ≫= lay_columns.
Proof.
  intros Hc. rewrite row_columns_perm by apply (wf_lays_ok aufgaben Hwf).
  unfold all_columns. apply elem_of_app. by right.
Qed.

Lemma summary_offset_in (a : nat) (lay : Layout) (i : Z) :
  lays !! a = Some lay → 0 ≤ i ≤ n_teil lay →
  ss_col lay + i ∈ summary_columns lays.
Proof.
  intros Hlay Hi. unfold summary_columns. apply list_elem_of_bind.
  exists lay. split; [|by eapply list_elem_of_lookup_2].
  unfold summary_block.
  destruct (lay_at aufgaben a lay Hlay) as (af & _ & _ & _ & _ & _ & -> & _).
  destruct (decide (i = 0)) as [-> | Hne].
  - rewrite Z.add_0_r. left.
  - right. rewrite elem_of_seqZ. lia.
Qed.

Lemma point_offset_in (a t : nat) (lay : Layout) (st pt p : Z) :
  lays !! a = Some lay →
  teil_point_starts lay !! t = Some st →
  teil_punkte lay !! t = Some pt →
  0 ≤ p < pt →
  st + p ∈ point_columns lays.
Proof.
  intros Hlay Hst Hpt Hp. unfold point_columns. apply list_elem_of_bind.
  exists lay. split; [|by eapply list_elem_of_lookup_2].
  pose proof (wf_lays_ok aufgaben Hwf) as Hok. rewrite Forall_lookup in Hok.
  pose proof (Hok a lay Hlay) as Hlok.
  destruct (lay_ok_lengths lay Hlok) as (Hs & _ & Hl).
  destruct (lookup_lt_is_Some_2 (s_cols lay) t) as [sc Hsc].
  { apply lookup_lt_Some in Hpt. unfold len in *. lia. }
  rewrite <- (teil_triples_runs lay Hlok).
  apply list_elem_of_bind. exists (sc, (st, pt)). split.
  - cbn [fst snd]. rewrite point_run_seqZ, elem_of_seqZ. lia.
  - apply list_elem_of_lookup. exists t. by apply teil_triples_lookup.
Qed.

Lemma row_cells_key_col (r r' c : Z) (v' : cell_value) (v : Layout → cell_value)
    (s_value : Z → Z → cell_value) (pw : Z → Z → list write) :
  (∀ pc p, (pw pc p).*1 = [(r, pc)]) →
  ((r', c), v') ∈ row_cells r lays v s_value pw →
  r' = r ∧ c ∈ lays ≫= lay_columns.
Proof.
  intros Hpw Hin.
  assert (Hk : (r', c) ∈ (row_cells r lays v s_value pw).*1)
    by (apply list_elem_of_fmap; by exists ((r', c), v')).
  rewrite (row_cells_keys r) in Hk by done.
  apply list_elem_of_fmap in Hk as (c' & Heq & Hc). by simplify_eq.
Qed.

(** Where the writes of a folder sheet go. *)
Lemma mappe_list_key (r c : Z) (v : cell_value) :
  ((r, c), v)
    ∈ mappe_list gcl aufgaben students mappe_nr semester exam_date →
  (1 ≤ r ≤ 6 + len students ∧ 1 ≤ c < first_col + width)
  ∧ (r = 1 →
     c = 1 ∨ ∃ (a : nat) (lay : Layout), lays !! a = Some lay ∧ c = ss_col lay)
  ∧ (r = 2 →
     c = 1 ∨ 3 ≤ c ≤ 5
     ∨ ∃ (a t : nat) (lay : Layout),
         lays !! a = Some lay ∧ teil_point_starts lay !! t = Some c)
  ∧ (r = 5 ∨ r = 6 → c = 1 ∨ first_col ≤ c).
Proof.
  pose proof (len_nonneg students) as Hn.
  pose proof (len_nonneg aufgaben) as Hna.
  assert (Hw : 0 ≤ width).
  { destruct (wf_all_columns aufgaben Hwf) as (_ & Hb & Hp).
    rewrite block_width_sum in Hb.
    change (sumZ (points_width <$> aufgaben)) with (total_points aufgaben) in Hp.
    lia. }
  unfold mappe_list. cbn zeta. rewrite !elem_of_app.
  intros [H1 | [H2 | [H3 | [H4 | [H5 | [H6 | Hs]]]]]].
  - (* row 1 *)
    unfold row1 in H1. apply elem_of_cons in H1 as [Heq | Hin].
    + simplify_eq. unfold first_col. repeat split; try lia; by left.
    + apply list_elem_of_fmap in Hin as (lay & Heq & (a & Hlay)%list_elem_of_lookup).
      simplify_eq.
      pose proof (n_teil_pos aufgaben Hwf a lay Hlay).
      pose proof (layout_col_bounds _
                    (summary_col_in _ (summary_offset_in a lay 0 Hlay ltac:(lia))))
        as Hb.
      rewrite Z.add_0_r in Hb. unfold first_col in *.
      repeat split; try lia. intros _. right. by exists a, lay.
  - (* row 2 *)
    unfold row2_list in H2. apply elem_of_app in H2 as [Hf | Hl].
    + unfold row2_fixed, first_col in *.
      elem_cases Hf; repeat split; try lia.
    + apply row2_labels_inv in Hl as (a & t & lay & st & pt & Hlay & Hst & Hpt & Heq).
      simplify_eq.
      destruct (lay_at aufgaben a lay Hlay) as (af & Ha & Hpts & _).
      pose proof (wf_punkte_pos aufgaben Hwf a af Ha) as Hpos.
      rewrite Forall_lookup in Hpos.
      assert (1 ≤ pt) by (apply (Hpos t); by rewrite <- Hpts).
      pose proof (layout_col_bounds _
                    (point_col_in _ (point_offset_in a t lay st pt 0 Hlay Hst Hpt
                                       ltac:(lia)))) as Hb.
      rewrite Z.add_0_r in Hb. unfold first_col in *.
      repeat split; try lia. intros _. do 2 right. by exists a, t, lay.
  - (* row 3 *)
    apply (row3_list_cases aufgaben Hwf) in H3
      as [Heq | (a & lay & Hlay & [(i & Hi & Heq) | Hp])].
    + simplify_eq. unfold first_col. repeat split; lia.
    + simplify_eq.
      pose proof (layout_col_bounds _
                    (summary_col_in _ (summary_offset_in a lay i Hlay Hi))) as Hb.
      unfold first_col in *. repeat split; lia.
    + destruct Hp as (t & st & pt & p & Hst & Hpt & Hp & _ & Heq). simplify_eq.
      pose proof (layout_col_bounds _
                    (point_col_in _ (point_offset_in a t lay st pt p Hlay Hst Hpt Hp)))
        as Hb.
      unfold first_col in *. repeat split; lia.
  - (* row 4 *)
    unfold row4_list in H4. apply elem_of_app in H4 as [Hh | Hc].
    + unfold row4_headers, first_col in *.
      elem_cases Hh; repeat split; lia.
    + apply row_cells_key_col in Hc as [-> Hc%layout_col_bounds]; [|done].
      unfold first_col in *. repeat split; lia.
  - (* row 5 *)
    unfold row5_list in H5. apply elem_of_cons in H5 as [Heq | Hc].
    + simplify_eq. unfold first_col. repeat split; try lia; by left.
    + apply row_cells_key_col in Hc as [-> Hc%layout_col_bounds]; [|done].
      unfold first_col in *. repeat split; lia.
  - (* row 6 *)
    unfold row6_list in H6. apply elem_of_cons in H6 as [Heq | Hc].
    + simplify_eq. unfold first_col. repeat split; try lia; by left.
    + apply row_cells_key_col in Hc as [-> Hc%layout_col_bounds]; [|done].
      unfold first_col in *. repeat split; lia.
  - (* student rows *)
    unfold student_list in Hs.
    apply list_elem_of_bind in Hs
      as ([i s] & Hin & (j & -> & Hj%lookup_lt_Some)%elem_of_enumerate).
    assert (Hk : (r, c) ∈ (student_cells gcl lays (0 + Z.of_nat j, s)).*1)
      by (apply list_elem_of_fmap; by exists ((r, c), v)).
    rewrite student_cells_keys in Hk by done.
    apply list_elem_of_fmap in Hk as (c' & Heq & Hc). cbn [fst] in Heq.
    simplify_eq. unfold len in *.
    apply elem_of_app in Hc as [Hc | Hc%summary_col_in%layout_col_bounds].
    + unfold first_col. elem_cases Hc; repeat split; lia.
    + unfold first_col, len in *. repeat split; lia.
Qed.

(** The writes to the columns before the layout: columns 1 to 4, the
    folder number in row 2 of column 5 and the header of the check column
    in row 3 of column 5. *)
Lemma mappe_list_leading (r c : Z) (v : cell_value) :
  ((r, c), v)
    ∈ mappe_list gcl aufgaben students mappe_nr semester exam_date →
  c < first_col →
  1 ≤ c ≤ 4
  ∨ (c = 5 ∧ ((r = 2 ∧ v = VInt mappe_nr)
              ∨ (r = 3 ∧ v = VStr "Richtige Klausur?"))).
Proof.
  unfold mappe_list. cbn zeta. rewrite !elem_of_app.
  intros [H1 | [H2 | [H3 | [H4 | [H5 | [H6 | Hs]]]]]] Hc.
  - unfold row1 in H1. apply elem_of_cons in H1 as [Heq | Hin].
    + simplify_eq. left. lia.
    + apply list_elem_of_fmap in Hin as (lay & Heq & (a & Hlay)%list_elem_of_lookup).
      simplify_eq.
      pose proof (n_teil_pos aufgaben Hwf a lay Hlay).
      pose proof (layout_col_bounds _
                    (summary_col_in _ (summary_offset_in a lay 0 Hlay ltac:(lia))))
        as Hb.
      rewrite Z.add_0_r in Hb. lia.
  - unfold row2_list in H2. apply elem_of_app in H2 as [Hf | Hl].
    + unfold row2_fixed in Hf.
      repeat (apply elem_of_cons in Hf as [Hf | Hf];
              [simplify_eq; first [left; lia | right; split; [done |]; by left] |]).
      by apply elem_of_nil in Hf.
    + apply row2_labels_inv in Hl as (a & t & lay & st & pt & Hlay & Hst & Hpt & Heq).
      simplify_eq.
      destruct (lay_at aufgaben a lay Hlay) as (af & Ha & Hpts & _).
      pose proof (wf_punkte_pos aufgaben Hwf a af Ha) as Hpos.
      rewrite Forall_lookup in Hpos.
      assert (1 ≤ pt) by (apply (Hpos t); by rewrite <- Hpts).
      pose proof (layout_col_bounds _
                    (point_col_in _ (point_offset_in a t lay st pt 0 Hlay Hst Hpt
                                       ltac:(lia)))) as Hb.
      rewrite Z.add_0_r in Hb. lia.
  - apply (row3_list_cases aufgaben Hwf) in H3
      as [Heq | (a & lay & Hlay & [(i & Hi & Heq) | Hp])].
    + simplify_eq. right. split; [done |]. by right.
    + simplify_eq.
      pose proof (layout_col_bounds _
                    (summary_col_in _ (summary_offset_in a lay i Hlay Hi))) as Hb.
      lia.
    + destruct Hp as (t & st & pt & p & Hst & Hpt & Hp & _ & Heq). simplify_eq.
      pose proof (layout_col_bounds _
                    (point_col_in _ (point_offset_in a t lay st pt p Hlay Hst Hpt Hp)))
        as Hb.
      lia.
  - unfold row4_list in H4. apply elem_of_app in H4 as [Hh | Hk].
    + unfold row4_headers in Hh.
      repeat (apply elem_of_cons in Hh as [Hh | Hh]; [simplify_eq; left; lia |]).
      by apply elem_of_nil in Hh.
    + apply row_cells_key_col in Hk as [-> Hk%layout_col_bounds]; [|done]. lia.
  - unfold row5_list in H5. apply elem_of_cons in H5 as [Heq | Hk].
    + simplify_eq. left. lia.
    + apply row_cells_key_col in Hk as [-> Hk%layout_col_bounds]; [|done]. lia.
  - unfold row6_list in H6. apply elem_of_cons in H6 as [Heq | Hk].
    + simplify_eq. left. lia.
    + apply row_cells_key_col in Hk as [-> Hk%layout_col_bounds]; [|done]. lia.
  - unfold student_list in Hs.
    apply list_elem_of_bind in Hs
      as ([i s] & Hin & (j & -> & Hj%lookup_lt_Some)%elem_of_enumerate).
    assert (Hk : (r, c) ∈ (student_cells gcl lays (0 + Z.of_nat j, s)).*1)
      by (apply list_elem_of_fmap; by exists ((r, c), v)).
    rewrite student_cells_keys in Hk by done.
    apply list_elem_of_fmap in Hk as (c' & Heq & Hk). cbn [fst] in Heq.
    simplify_eq.
    apply elem_of_app in Hk as [Hk | Hk%summary_col_in%layout_col_bounds]; [|lia].
    left. elem_cases Hk.
Qed.

(** X16. The extent of a folder sheet built from a configuration of the
    editor's shape: every cell that holds a value lies in rows 1 to
    [6 + n] ([n] students) and in columns 1 to [5 + w], where [w] is the
    number of tasks, subtasks and points together; the corner cells of
    that rectangle in row [6 + n], column 1 and in row 5, column [5 + w]
    do hold a value. *)
Theorem folder_sheet_extent (sheet_name : string) :
  ∃ sheet,
    build_mappe_sheet gcl sheet_name aufgaben students mappe_nr semester
      exam_date = Ok sheet
    ∧ (∀ (r c : Z) (v : cell_value),
         cells sheet !! (r, c) = Some v →
         1 ≤ r ≤ 6 + len students ∧ 1 ≤ c ≤ 5 + width)
    ∧ is_Some (cells sheet !! (6 + len students, 1))
    ∧ cells sheet !! (5, 5 + width) = Some (VInt 1).
Proof.
  eexists. split; [by apply build_mappe_sheet_eq |]. cbn [cells].
  split; [| split].
  - intros r c v Hv%ws_write_all_Some_in.
    apply mappe_list_key in Hv as [Hb _]. unfold first_col in Hb. lia.
  - destruct (decide (students = [])) as [-> | Hne].
    + exists (VStr "Durchschnittliche Punkte").
      change (6 + len []) with 6.
      rewrite (sheet_cells_row6 gcl aufgaben Hwf [] semester
                 (row2_list exam_date mappe_nr lays) (row3_list lays)
                 (row2_list_rows aufgaben Hwf mappe_nr exam_date)
                 (row3_list_rows aufgaben Hwf)).
      apply ws_write_all_nodup; [apply (row6_list_nodup gcl aufgaben Hwf) |].
      left.
    + destruct (lookup_lt_is_Some_2 students (length students - 1)) as [s Hs].
      { destruct students; [done | simpl; lia]. }
      exists (VInt (Z.of_nat (length students - 1))).
      replace (6 + len students) with (7 + Z.of_nat (length students - 1))
        by (unfold len; destruct students; [done | simpl length; lia]).
      apply (sheet_student_cell gcl aufgaben Hwf students semester
               (row2_list exam_date mappe_nr lays) (row3_list lays)
               (row2_list_rows aufgaben Hwf mappe_nr exam_date)
               (row3_list_rows aufgaben Hwf) _ s); [done |].
      unfold student_cells. apply elem_of_app. left. left.
  - apply (sheet_row5_point gcl aufgaben Hwf students semester
             (row2_list exam_date mappe_nr lays) (row3_list lays)
             (row2_list_rows aufgaben Hwf mappe_nr exam_date)
             (row3_list_rows aufgaben Hwf)).
    destruct (wf_columns_seq aufgaben Hwf) as (_ & -> & Hb & Hp).
    rewrite elem_of_seqZ. unfold phase2_start, first_col.
    rewrite block_width_sum in *.
    change (sumZ (points_width <$> aufgaben)) with (total_points aufgaben) in *.
    assert (1 ≤ total_points aufgaben); [|lia].
    destruct Hwf as [Hne Hall]. destruct aufgaben as [|af rest]; [done |].
    apply Forall_cons in Hall as [[Hta Hpts] Hrest].
    destruct (teilaufgaben af) as [|ta tas] eqn:Htas; [done |].
    apply Forall_cons in Hpts as [Hta1 Htas'].
    unfold total_points. csimpl. rewrite Htas. csimpl.
    assert (0 ≤ sumZ (punkte <$> tas)).
    { apply sumZ_nonneg. apply Forall_fmap. eapply Forall_impl; [exact Htas' |].
      unfold wf_teilaufgabe. simpl. intros; lia. }
    assert (0 ≤ sumZ ((λ a, sumZ (punkte <$> teilaufgaben a)) <$> rest)).
    { apply sumZ_nonneg. apply Forall_fmap. eapply Forall_impl; [exact Hrest |].
      intros a' [_ Hp']. simpl. apply sumZ_nonneg. apply Forall_fmap.
      eapply Forall_impl; [exact Hp' |]. unfold wf_teilaufgabe. simpl.
      intros; lia. }
    unfold wf_teilaufgabe in Hta1. lia.
Qed.

End Extent.

Lemma folder_sheet_extent_witness :
  wf_config config_2_3
  ∧ ∃ sheet,
      build_mappe_sheet column_name "Mappe 1" config_2_3 (roster 2) 1
        "WiSe 25/26" (VStr "2026-02-01") = Ok sheet
      ∧ cells sheet !! (5, 24) = Some (VInt 1)
      ∧ cells sheet !! (9, 1) = None
      ∧ cells sheet !! (5, 25) = None.
Proof.
  split; [exact wf_config_2_3 |].
  destruct (folder_sheet_extent column_name config_2_3 wf_config_2_3 (roster 2) 1
              "WiSe 25/26" (VStr "2026-02-01") "Mappe 1")
    as (sheet & Hb & Hext & _ & Hlast).
  exists sheet. split; [exact Hb |]. split; [exact Hlast |]. split.
  - destruct (cells sheet !! (9, 1)) as [v|] eqn:Hv; [|reflexivity].
    apply Hext in Hv. destruct Hv as [[_ Hr] _]. revert Hr.
    change (9 ≤ 8 → Some v = None). lia.
  - destruct (cells sheet !! (5, 25)) as [v|] eqn:Hv; [|reflexivity].
    apply Hext in Hv. destruct Hv as [_ [_ Hc]]. revert Hc.
    change (25 ≤ 24 → Some v = None). lia.
Defined.

(** ** Merged cells *)

Lemma mappe_merges_eq (lays : list Layout) :
  Forall lay_ok lays → mappe_merges lays = Ok (merge_list lays).
Proof.
  intros Hok. unfold mappe_merges, label_merges, merge_list, label_merge_ranges.
  rewrite (mapR_ok _ (λ lay, enumerate 0 (teil_punkte lay) ≫= label_merge_list lay)).
  { cbn. by rewrite list_bind_concat. }
  intros lay Hlay.
  rewrite (mapR_ok _ (label_merge_list lay)).
  { cbn. by rewrite list_bind_concat. }
  intros [t_idx pts] (t & -> & Ht)%elem_of_enumerate.
  rewrite Forall_forall in Hok.
  destruct (Hok lay Hlay) as (_ & _ & Hlen & _).
  destruct (lookup_lt_is_Some_2 (teil_point_starts lay) t) as [st Hst].
  { rewrite Hlen. by eapply lookup_lt_Some. }
  unfold label_merge, label_merge_list. cbn [fst snd].
  rewrite Z.add_0_l, (py_getitem_lookup _ _ _ Hst). cbn.
  by rewrite Nat2Z.id, Hst.
Qed.

Lemma label_merge_ranges_inv (lays : list Layout) (rg : cell_range) :
  rg ∈ label_merge_ranges lays →
  ∃ (a t : nat) (lay : Layout) (st pt : Z),
    lays !! a = Some lay
    ∧ teil_point_starts lay !! t = Some st
    ∧ teil_punkte lay !! t = Some pt
    ∧ 1 < pt
    ∧ rg = mkRange 2 2 st (st + pt - 1).
Proof.
  unfold label_merge_ranges.
  intros (lay & Hrg & (a & Hlay)%list_elem_of_lookup)%list_elem_of_bind.
  apply list_elem_of_bind in Hrg as ([t_idx pt] & Hrg & (t & -> & Hpt)%elem_of_enumerate).
  unfold label_merge_list in Hrg. cbn [fst snd] in Hrg.
  rewrite Z.add_0_l, Nat2Z.id in Hrg.
  destruct (teil_point_starts lay !! t) as [st|] eqn:Hst;
    [|by apply elem_of_nil in Hrg].
  case_bool_decide as Hgt; [|by apply elem_of_nil in Hrg].
  apply list_elem_of_singleton in Hrg.
  exists a, t, lay, st, pt. repeat split; try done. lia.
Qed.

Lemma label_merge_ranges_elem (lays : list Layout) (a t : nat) (lay : Layout)
    (st pt : Z) :
  lays !! a = Some lay →
  teil_point_starts lay !! t = Some st →
  teil_punkte lay !! t = Some pt →
  1 < pt →
  mkRange 2 2 st (st + pt - 1) ∈ label_merge_ranges lays.
Proof.
  intros Hlay Hst Hpt Hgt. unfold label_merge_ranges. apply list_elem_of_bind.
  exists lay. split; [|by eapply list_elem_of_lookup_2].
  apply list_elem_of_bind. exists (Z.of_nat t, pt).
  split; [|by apply lookup_enumerate].
  unfold label_merge_list. cbn [fst snd]. rewrite Nat2Z.id, Hst.
  rewrite bool_decide_eq_true_2 by lia. left.
Qed.

Section Merges.

Variable get_column_letter : Z → string.
Variable aufgaben : list Aufgabe.
Hypothesis Hwf : wf_config aufgaben.
Variables (students : list Student) (mappe_nr : Z) (semester : string)
  (exam_date : cell_value).

Local Abbreviation lays := (aufgabe_layouts aufgaben).
Local Abbreviation gcl := get_column_letter.

Lemma start_has_points (a t : nat) (lay : Layout) (st : Z) :
  lays !! a = Some lay → teil_point_starts lay !! t = Some st →
  ∃ pt, teil_punkte lay !! t = Some pt ∧ 1 ≤ pt.
Proof.
  intros Hlay Hst.
  destruct (lay_at aufgaben a lay Hlay) as (af & Ha & Hpts & _ & _ & _ & _ & _ & Hrs).
  destruct (Hrs t st Hst) as [_ Ht].
  destruct (lookup_lt_is_Some_2 (teilaufgaben af) t Ht) as [ta Hta].
  pose proof (wf_punkte_pos aufgaben Hwf a af Ha) as Hpos.
  rewrite Forall_lookup in Hpos.
  exists (punkte ta). split; [by rewrite Hpts, list_lookup_fmap, Hta |].
  apply (Hpos t). by rewrite list_lookup_fmap, Hta.
Qed.

(** The kinds of merged ranges of a folder sheet, with the place of their
    columns. *)
Lemma merge_list_inv (rg : cell_range) :
  rg ∈ merge_list lays →
  rg ∈ [mkRange 1 1 1 5; mkRange 2 2 1 2; mkRange 5 5 1 5; mkRange 6 6 1 5]
  ∨ (∃ (a : nat) (lay : Layout),
       lays !! a = Some lay
       ∧ first_col ≤ ss_col lay
       ∧ ss_col lay + n_teil lay < phase2_start aufgaben
       ∧ rg = mkRange 1 2 (ss_col lay) (ss_col lay + n_teil lay))
  ∨ (∃ (a t : nat) (lay : Layout) (st pt : Z),
       lays !! a = Some lay
       ∧ teil_point_starts lay !! t = Some st
       ∧ teil_punkte lay !! t = Some pt
       ∧ 1 < pt
       ∧ phase2_start aufgaben ≤ st
       ∧ rg = mkRange 2 2 st (st + pt - 1)).
Proof.
  unfold merge_list.
  intros [-> | [Hb | [-> | [Hl | Hf]%elem_of_app]%elem_of_cons]%elem_of_app]%elem_of_cons.
  - left. left.
  - right. left.
    apply list_elem_of_fmap in Hb as (lay & -> & (a & Hlay)%list_elem_of_lookup).
    destruct (lay_at aufgaben a lay Hlay) as (af & _ & _ & _ & _ & _ & _ & He & _).
    pose proof (n_teil_pos aufgaben Hwf a lay Hlay).
    pose proof (summary_col_bounds aufgaben a lay 0 Hlay ltac:(lia)).
    pose proof (summary_col_bounds aufgaben a lay (n_teil lay) Hlay ltac:(lia)).
    exists a, lay. rewrite He. repeat split; try done; lia.
  - left. right; left.
  - right. right.
    apply label_merge_ranges_inv in Hl
      as (a & t & lay & st & pt & Hlay & Hst & Hpt & Hgt & ->).
    pose proof (point_col_ge aufgaben Hwf a lay t st 0 Hlay Hst ltac:(lia)).
    exists a, t, lay, st, pt. repeat split; try done; lia.
  - left. do 2 right. done.
Qed.

Lemma merge_list_disjoint (rg1 rg2 : cell_range) (k : Z * Z) :
  rg1 ∈ merge_list lays → rg2 ∈ merge_list lays →
  in_range rg1 k → in_range rg2 k → rg1 = rg2.
Proof.
  pose proof (phase2_start_ge aufgaben) as Hp2. unfold first_col in Hp2.
  intros H1%merge_list_inv H2%merge_list_inv [Hr1 Hc1] [Hr2 Hc2].
  destruct H1 as [H1 | [(a1 & lay1 & Hl1 & Hge1 & Hlt1 & ->)
                       | (a1 & t1 & lay1 & st1 & pt1 & Hl1 & Hst1 & Hpt1 & Hgt1 & Hge1 & ->)]];
    destruct H2 as [H2 | [(a2 & lay2 & Hl2 & Hge2 & Hlt2 & ->)
                         | (a2 & t2 & lay2 & st2 & pt2 & Hl2 & Hst2 & Hpt2 & Hgt2 & Hge2 & ->)]];
    unfold first_col in *; cbn in *.
  - elem_cases H1; elem_cases H2; cbn in *; done || lia.
  - elem_cases H1; cbn in *; lia.
  - elem_cases H1; cbn in *; lia.
  - elem_cases H2; cbn in *; lia.
  - destruct (summary_column_inj aufgaben a1 a2 lay1 lay2
                (k.2 - ss_col lay1) (k.2 - ss_col lay2)) as [-> _];
      try done; try lia.
    by simplify_eq.
  - lia.
  - elem_cases H2; cbn in *; lia.
  - lia.
  - destruct (point_column_inj aufgaben Hwf a1 a2 lay1 lay2 t1 t2 st1 st2
                pt1 pt2 (k.2 - st1) (k.2 - st2)) as (-> & -> & _);
      try done; try lia.
    by simplify_eq.
Qed.

Lemma merge_list_anchor (rg : cell_range) (k : Z * Z) (v : cell_value) :
  rg ∈ merge_list lays →
  in_range rg k →
  ws_write_all ∅
    (mappe_list gcl aufgaben students mappe_nr semester exam_date) !! k = Some v →
  k = anchor rg.
Proof.
  pose proof (phase2_start_ge aufgaben) as Hp2. unfold first_col in Hp2.
  destruct k as [r c].
  intros Hrg%merge_list_inv [Hr Hc] Hv%ws_write_all_Some_in.
  apply (mappe_list_key gcl aufgaben Hwf) in Hv as (_ & Hk1 & Hk2 & Hk5).
  unfold anchor.
  destruct Hrg as [Hrg | [(a & lay & Hl & Hge & Hlt & ->)
                         | (a & t & lay & st & pt & Hl & Hst & Hpt & Hgt & Hge & ->)]];
    unfold first_col in *; cbn in *.
  - elem_cases Hrg; cbn in *.
    + assert (r = 1) as -> by lia.
      destruct (Hk1 eq_refl) as [-> | (a' & lay' & Hl' & ->)]; [done |].
      pose proof (n_teil_pos aufgaben Hwf a' lay' Hl').
      pose proof (summary_col_bounds aufgaben a' lay' 0 Hl' ltac:(lia)).
      unfold first_col in *. lia.
    + assert (r = 2) as -> by lia.
      destruct (Hk2 eq_refl) as [-> | [? | (a' & t' & lay' & Hl' & Hst')]];
        [done | lia |].
      pose proof (point_col_ge aufgaben Hwf a' lay' t' c 0 Hl' Hst' ltac:(lia)). lia.
    + assert (r = 5) as -> by lia.
      destruct (Hk5 ltac:(by left)) as [-> | ?]; [done | lia].
    + assert (r = 6) as -> by lia.
      destruct (Hk5 ltac:(by right)) as [-> | ?]; [done | lia].
  - destruct (decide (r = 1)) as [-> | Hne].
    + destruct (Hk1 eq_refl) as [-> | (a' & lay' & Hl' & ->)]; [lia |].
      pose proof (n_teil_pos aufgaben Hwf a' lay' Hl').
      pose proof (n_teil_pos aufgaben Hwf a lay Hl).
      destruct (summary_column_inj aufgaben a a' lay lay'
                  (ss_col lay' - ss_col lay) 0) as [-> Hi];
        try done; try lia.
      simplify_eq. done.
    + assert (r = 2) as -> by lia.
      destruct (Hk2 eq_refl) as [-> | [? | (a' & t' & lay' & Hl' & Hst')]];
        [lia | lia |].
      pose proof (point_col_ge aufgaben Hwf a' lay' t' c 0 Hl' Hst' ltac:(lia)). lia.
  - assert (r = 2) as -> by lia.
    destruct (Hk2 eq_refl) as [-> | [? | (a' & t' & lay' & Hl' & Hst')]];
      [lia | lia |].
    destruct (start_has_points a' t' lay' c Hl' Hst') as (pt' & Hpt' & Hpos').
    destruct (point_column_inj aufgaben Hwf a a' lay lay' t t' st c
                pt pt' (c - st) 0) as (_ & _ & Hp);
      try done; try lia.
    f_equal. lia.
Qed.

(** X17. The merged ranges of a folder sheet built from a configuration
    of the editor's shape: no cell lies in two different merged ranges,
    and a cell of a merged range that is given a value is the top-left
    cell of the range, the one that shows the value.  Every task's
    summary block is merged over rows 1 and 2, and the point columns of a
    subtask are merged in row 2 exactly when there is more than one. *)
Theorem folder_sheet_merges (sheet_name : string) :
  ∃ merges sheet,
    mappe_merges lays = Ok merges
    ∧ build_mappe_sheet gcl sheet_name aufgaben students mappe_nr semester
        exam_date = Ok sheet
    ∧ (∀ (rg1 rg2 : cell_range) (k : Z * Z),
         rg1 ∈ merges → rg2 ∈ merges →
         in_range rg1 k → in_range rg2 k → rg1 = rg2)
    ∧ (∀ (rg : cell_range) (k : Z * Z) (v : cell_value),
         rg ∈ merges → in_range rg k →
         cells sheet !! k = Some v → k = anchor rg)
    ∧ ∀ (a : nat) (lay : Layout),
        lays !! a = Some lay →
        mkRange 1 2 (ss_col lay) (ss_col lay + n_teil lay) ∈ merges
        ∧ ∀ (t : nat) (st pt : Z),
            teil_point_starts lay !! t = Some st →
            teil_punkte lay !! t = Some pt →
            (mkRange 2 2 st (st + pt - 1) ∈ merges ↔ 1 < pt).
Proof.
  exists (merge_list lays). eexists.
  split; [apply mappe_merges_eq, (wf_lays_ok aufgaben Hwf) |].
  split; [by apply build_mappe_sheet_eq |]. cbn [cells].
  split; [apply merge_list_disjoint |].
  split; [apply merge_list_anchor |].
  intros a lay Hlay. split.
  - destruct (lay_at aufgaben a lay Hlay) as (af & _ & _ & _ & _ & _ & _ & He & _).
    unfold merge_list. right. apply elem_of_app. left.
    apply list_elem_of_fmap. exists lay. rewrite He.
    split; [done | by eapply list_elem_of_lookup_2].
  - intros t st pt Hst Hpt. split.
    + pose proof (phase2_start_ge aufgaben) as Hp2.
      pose proof (point_col_ge aufgaben Hwf a lay t st 0 Hlay Hst ltac:(lia)) as Hge.
      intros [Hf | [(a' & lay' & _ & _ & _ & Heq)
                   | (a' & t' & lay' & st' & pt' & _ & _ & _ & Hgt & _ & Heq)]]%merge_list_inv;
        unfold first_col in *.
      * elem_cases Hf.
      * simplify_eq.
      * simplify_eq. lia.
    + intros Hgt. unfold merge_list. right. apply elem_of_app. right. right.
      apply elem_of_app. left.
      by apply (label_merge_ranges_elem lays a t lay st pt).
Qed.

End Merges.

Lemma folder_sheet_merges_witness :
  wf_config config_2_3
  ∧ ∃ merges sheet,
      mappe_merges (aufgabe_layouts config_2_3) = Ok merges
      ∧ build_mappe_sheet column_name "Mappe 1" config_2_3 (roster 2) 1
          "WiSe 25/26" (VStr "2026-02-01") = Ok sheet
      ∧ mkRange 1 2 6 8 ∈ merges
      ∧ mkRange 2 2 13 14 ∈ merges
      ∧ (mkRange 2 2 18 18 ∉ merges)
      ∧ cells sheet !! (1, 7) = None.
Proof.
  split; [exact wf_config_2_3 |].
  destruct (folder_sheet_merges column_name config_2_3 wf_config_2_3 (roster 2) 1
              "WiSe 25/26" (VStr "2026-02-01") "Mappe 1")
    as (merges & sheet & Hm & Hb & _ & Hanchor & Hin).
  exists merges, sheet. split; [exact Hm |]. split; [exact Hb |].
  destruct (Hin 0%nat _ eq_refl) as [Hblock Hrun].
  destruct (Hin 1%nat _ eq_refl) as [_ Hrun'].
  split; [exact Hblock |].
  split; [apply (Hrun 0%nat 13 2 eq_refl eq_refl); lia |].
  split.
  - intros Hone. apply (Hrun' 0%nat 18 1 eq_refl eq_refl) in Hone. lia.
  - destruct (cells sheet !! (1, 7)) as [v|] eqn:Hv; [|reflexivity].
    apply (Hanchor (mkRange 1 2 6 8)) in Hv; [discriminate | exact Hblock |].
    unfold in_range. simpl. lia.
Defined.

Lemma workbook_locates_student_witness :
  wf_config config_2_3
  ∧ ∃ studenten mappen mappe,
      generate_excel column_name (roster 12) config_2_3 5
        "WiSe 25/26" (VStr "2026-02-01") = Ok (studenten :: mappen)
      ∧ cells studenten !! (9, 1) = Some (VInt 2)
      ∧ cells studenten !! (9, 2) = Some (VInt 2)
      ∧ mappen !! 1%nat = Some mappe
      ∧ title mappe = "Mappe 2"%string
      ∧ cells mappe !! (9, 1) = Some (VInt 2)
      ∧ cells mappe !! (9, 2) = Some (VStr "100007").
Proof.
  split; [exact wf_config_2_3 |].
  destruct (workbook_locates_student column_name (roster 12) config_2_3 5
              "WiSe 25/26" (VStr "2026-02-01") 7%nat _
              wf_config_2_3 ltac:(split; [lia | reflexivity])
              ltac:(reflexivity) eq_refl)
    as (studenten & mappen & mappe & Hg & H1 & H2 & Hm & Ht & _ & H3 & H4 & _).
  exists studenten, mappen, mappe.
  split; [exact Hg |]. split; [exact H1 |]. split; [exact H2 |].
  split; [exact Hm |]. split; [exact Ht |]. split; [exact H3 | exact H4].
Defined.

(** ** Borders *)

Lemma foldl_fmap_pair {S A B} (g : S → A → B → S) (s : S) (a : A) (lb : list B) :
  foldl (λ s b, g s a b) s lb
  = foldl (λ s (ab : A * B), g s ab.1 ab.2) s ((λ b, (a, b)) <$> lb).
Proof. revert s. induction lb as [|b lb IH]; intros s; csimpl; [done | apply IH]. Qed.

Lemma foldl_nested {S A B} (g : S → A → B → S) (s : S) (la : list A)
    (lb : list B) :
  foldl (λ s a, foldl (λ s b, g s a b) s lb) s la
  = foldl (λ s (ab : A * B), g s ab.1 ab.2) s (la ≫= λ a, (λ b, (a, b)) <$> lb).
Proof.
  revert s. induction la as [|a la IH]; intros s; csimpl; [done |].
  by rewrite foldl_app, <- foldl_fmap_pair, IH.
Qed.

Lemma foldl_bind {S A B} (g : S → B → S) (h : A → list B) (s : S) (l : list A) :
  foldl g s (l ≫= h) = foldl (λ s x, foldl g s (h x)) s l.
Proof.
  revert s. induction l as [|x l IH]; intros s; csimpl; [done |].
  by rewrite foldl_app, IH.
Qed.

Lemma foldl_ext_all {S A} (f g : S → A → S) (s : S) (l : list A) :
  (∀ s x, f s x = g s x) → foldl f s l = foldl g s l.
Proof.
  intros Hfg. revert s. induction l as [|x l IH]; intros s; simpl; [done |].
  by rewrite Hfg, IH.
Qed.

(** Writing a value that depends on the key alone, key by key. *)
Lemma foldl_insert_keys {V} (f : Z * Z → V) (m : gmap (Z * Z) V)
    (ks : list (Z * Z)) (k : Z * Z) :
  foldl (λ m k, <[k := f k]> m) m ks !! k
  = if bool_decide (k ∈ ks) then Some (f k) else m !! k.
Proof.
  revert m. induction ks as [|k0 ks IH]; intros m; cbn [foldl].
  - by rewrite bool_decide_eq_false_2 by apply not_elem_of_nil.
  - rewrite IH. destruct (decide (k ∈ ks)) as [Hin | Hnin].
    + rewrite !bool_decide_eq_true_2; [done | by right | done].
    + rewrite (bool_decide_eq_false_2 (k ∈ ks)) by done.
      destruct (decide (k = k0)) as [-> | Hne].
      * rewrite lookup_insert_eq. by rewrite bool_decide_eq_true_2 by left.
      * rewrite lookup_insert_ne by done.
        rewrite bool_decide_eq_false_2; [done |].
        intros [? | ?]%elem_of_cons; done.
Qed.

Lemma elem_of_range_from (a b i : Z) : i ∈ range_from a b ↔ a ≤ i < b.
Proof. unfold range_from. rewrite elem_of_seqZ. lia. Qed.

Lemma elem_of_range_cells (rg : cell_range) (k : Z * Z) :
  k ∈ range_cells rg ↔ in_range rg k.
Proof.
  unfold range_cells, in_range. rewrite list_elem_of_bind. split.
  - intros (r & (c & -> & Hc%elem_of_range_from)%list_elem_of_fmap
              & Hr%elem_of_range_from).
    simpl. lia.
  - intros [Hr Hc]. exists k.1. split.
    + apply list_elem_of_fmap. exists k.2. split; [by destruct k |].
      apply elem_of_range_from. lia.
    + apply elem_of_range_from. lia.
Qed.

Lemma set_outline_keys (ws : border_map) (rg : cell_range) :
  set_outline ws rg
  = foldl (λ m k, <[k := outline_border rg k]> m) ws (range_cells rg).
Proof.
  unfold set_outline, _set_medium_outline, range_cells.
  etransitivity;
    [exact (foldl_nested (λ ws r c, <[(r, c) := outline_border rg (r, c)]> ws)
              ws _ _) |].
  apply foldl_ext_all. by intros m [r c].
Qed.

(** What one outline does to the border of a cell. *)
Lemma set_outline_lookup (ws : border_map) (rg : cell_range) (k : Z * Z) :
  set_outline ws rg !! k
  = if bool_decide (in_range rg k) then Some (outline_border rg k) else ws !! k.
Proof.
  rewrite set_outline_keys, foldl_insert_keys.
  by rewrite (bool_decide_ext _ _ (elem_of_range_cells rg k)).
Qed.

Lemma outlines_lookup_out (ws : border_map) (rects : list cell_range) (k : Z * Z) :
  Forall (λ rg, ¬ in_range rg k) rects →
  foldl set_outline ws rects !! k = ws !! k.
Proof.
  revert ws. induction rects as [|rg rects IH]; intros ws Hout; [done |].
  apply Forall_cons in Hout as [Hrg Hout]. simpl. rewrite IH by done.
  rewrite set_outline_lookup. by rewrite bool_decide_eq_false_2.
Qed.

Lemma outlines_lookup_in (ws : border_map) (rects : list cell_range)
    (rg : cell_range) (k : Z * Z) :
  rg ∈ rects → in_range rg k →
  (∀ rg', rg' ∈ rects → in_range rg' k → rg' = rg) →
  foldl set_outline ws rects !! k = Some (outline_border rg k).
Proof.
  revert ws. induction rects as [|rg0 rects IH]; intros ws Hin Hk Hone.
  - by apply elem_of_nil in Hin.
  - simpl. destruct (decide (rg ∈ rects)) as [Hrest | Hrest].
    + apply IH; [done | done |]. intros rg' Hrg'. apply Hone. by right.
    + apply elem_of_cons in Hin as [-> | Hin]; [|done].
      rewrite outlines_lookup_out.
      * rewrite set_outline_lookup. by rewrite bool_decide_eq_true_2.
      * apply Forall_forall. intros rg' Hrg' Hk'.
        apply Hrest. rewrite <- (Hone rg'); [done | by right | done].
Qed.

Lemma foldR_ok {S A} (f : S → A → result S) (g : S → A → S) (s : S) (l : list A) :
  (∀ s x, x ∈ l → f s x = Ok (g s x)) → foldR f s l = Ok (foldl g s l).
Proof.
  revert s. induction l as [|x l IH]; intros s Hf; simpl; [done |].
  rewrite Hf by left. apply IH. intros s' y Hy. apply Hf. by right.
Qed.

Lemma mappe_borders_eq (lays : list Layout) (n_students : Z) :
  Forall lay_ok lays →
  mappe_borders lays n_students
  = Ok (foldl set_outline ∅ (outline_list lays n_students)).
Proof.
  intros Hok. unfold mappe_borders, outline_list. cbn zeta. simpl foldl.
  rewrite foldl_bind.
  change (_set_medium_outline ∅ 4 (6 + n_students) 1 5)
    with (set_outline ∅ (mkRange 4 (6 + n_students) 1 5)).
  apply foldR_ok. intros ws lay Hlay.
  unfold lay_outlines. simpl foldl. rewrite foldl_bind.
  change (_set_medium_outline ws 3 (6 + n_students) (ss_col lay) (sum_block_end lay))
    with (set_outline ws (mkRange 3 (6 + n_students) (ss_col lay) (sum_block_end lay))).
  apply foldR_ok. intros ws' t Ht%elem_of_range.
  rewrite Forall_forall in Hok. pose proof (Hok lay Hlay) as Hlok.
  destruct (lay_ok_lengths lay Hlok) as (_ & Hst & Hpt).
  destruct (py_getitem_in_range (teil_point_starts lay) t) as (st & -> & Hs);
    [lia |].
  destruct (py_getitem_in_range (teil_punkte lay) t) as (pt & -> & Hp);
    [lia |].
  cbn. unfold run_outline. by rewrite Hs, Hp.
Qed.

Lemma outline_list_elem_block (lays : list Layout) (n_students : Z) (a : nat)
    (lay : Layout) :
  lays !! a = Some lay →
  mkRange 3 (6 + n_students) (ss_col lay) (sum_block_end lay)
    ∈ outline_list lays n_students.
Proof.
  intros Hlay. unfold outline_list. right. apply list_elem_of_bind.
  exists lay. split; [left | by eapply list_elem_of_lookup_2].
Qed.

Lemma outline_list_elem_run (lays : list Layout) (n_students : Z) (a t : nat)
    (lay : Layout) (st pt : Z) :
  lay_ok lay →
  lays !! a = Some lay →
  teil_point_starts lay !! t = Some st →
  teil_punkte lay !! t = Some pt →
  mkRange 3 (6 + n_students) st (st + pt - 1) ∈ outline_list lays n_students.
Proof.
  intros Hok Hlay Hst Hpt. unfold outline_list. right. apply list_elem_of_bind.
  exists lay. split; [|by eapply list_elem_of_lookup_2].
  unfold lay_outlines. right. apply list_elem_of_bind. exists (Z.of_nat t).
  split.
  - unfold run_outline. rewrite Nat2Z.id, Hst, Hpt. left.
  - apply elem_of_range. destruct (lay_ok_lengths lay Hok) as (_ & _ & Hl).
    apply lookup_lt_Some in Hpt. unfold len in Hl. lia.
Qed.

Section Borders.

Variable aufgaben : list Aufgabe.
Hypothesis Hwf : wf_config aufgaben.
Variable students : list Student.

Local Abbreviation lays := (aufgabe_layouts aufgaben).
Local Abbreviation last_row := (6 + len students).
Local Abbreviation width :=
  (len aufgaben + total_subtasks aufgaben + total_points aufgaben).

(** The kinds of outlined rectangles, with the place of their columns. *)
Lemma outline_list_inv (rg : cell_range) :
  rg ∈ outline_list lays (len students) →
  rg = mkRange 4 last_row 1 5
  ∨ (∃ (a : nat) (lay : Layout),
       lays !! a = Some lay
       ∧ first_col ≤ ss_col lay
       ∧ ss_col lay + n_teil lay < phase2_start aufgaben
       ∧ rg = mkRange 3 last_row (ss_col lay) (ss_col lay + n_teil lay))
  ∨ (∃ (a t : nat) (lay : Layout) (st pt : Z),
       lays !! a = Some lay
       ∧ teil_point_starts lay !! t = Some st
       ∧ teil_punkte lay !! t = Some pt
       ∧ 1 ≤ pt
       ∧ phase2_start aufgaben ≤ st
       ∧ rg = mkRange 3 last_row st (st + pt - 1)).
Proof.
  unfold outline_list. intros [-> | Hin]%elem_of_cons; [by left |]. right.
  apply list_elem_of_bind in Hin as (lay & Hrg & (a & Hlay)%list_elem_of_lookup).
  unfold lay_outlines in Hrg. apply elem_of_cons in Hrg as [-> | Hrg].
  - left.
    destruct (lay_at aufgaben a lay Hlay) as (af & _ & _ & _ & _ & _ & _ & He & _).
    pose proof (n_teil_pos aufgaben Hwf a lay Hlay).
    pose proof (summary_col_bounds aufgaben a lay 0 Hlay ltac:(lia)).
    pose proof (summary_col_bounds aufgaben a lay (n_teil lay) Hlay ltac:(lia)).
    exists a, lay. rewrite He. repeat split; try done; lia.
  - right. apply list_elem_of_bind in Hrg as (t & Hrg & Ht%elem_of_range).
    unfold run_outline in Hrg.
    destruct (teil_point_starts lay !! Z.to_nat t) as [st|] eqn:Hst;
      [|by apply elem_of_nil in Hrg].
    destruct (teil_punkte lay !! Z.to_nat t) as [pt|] eqn:Hpt;
      [|by apply elem_of_nil in Hrg].
    apply list_elem_of_singleton in Hrg as ->.
    destruct (start_has_points aufgaben Hwf a (Z.to_nat t) lay st Hlay Hst)
      as (pt' & Hpt' & Hpos).
    assert (pt' = pt) as -> by congruence.
    pose proof (point_col_ge aufgaben Hwf a lay (Z.to_nat t) st 0 Hlay Hst ltac:(lia)).
    exists a, (Z.to_nat t), lay, st, pt. repeat split; try done; lia.
Qed.

Lemma outline_list_disjoint (rg1 rg2 : cell_range) (k : Z * Z) :
  rg1 ∈ outline_list lays (len students) →
  rg2 ∈ outline_list lays (len students) →
  in_range rg1 k → in_range rg2 k → rg1 = rg2.
Proof.
  pose proof (phase2_start_ge aufgaben) as Hp2. unfold first_col in Hp2.
  intros H1%outline_list_inv H2%outline_list_inv [Hr1 Hc1] [Hr2 Hc2].
  destruct H1 as [-> | [(a1 & lay1 & Hl1 & Hge1 & Hlt1 & ->)
                       | (a1 & t1 & lay1 & st1 & pt1 & Hl1 & Hst1 & Hpt1 & Hgt1 & Hge1 & ->)]];
    destruct H2 as [-> | [(a2 & lay2 & Hl2 & Hge2 & Hlt2 & ->)
                         | (a2 & t2 & lay2 & st2 & pt2 & Hl2 & Hst2 & Hpt2 & Hgt2 & Hge2 & ->)]];
    unfold first_col in *; cbn in *; try done; try lia.
  - destruct (summary_column_inj aufgaben a1 a2 lay1 lay2
                (k.2 - ss_col lay1) (k.2 - ss_col lay2)) as [-> _];
      try done; try lia.
    by simplify_eq.
  - destruct (point_column_inj aufgaben Hwf a1 a2 lay1 lay2 t1 t2 st1 st2
                pt1 pt2 (k.2 - st1) (k.2 - st2)) as (-> & -> & _);
      try done; try lia.
    by simplify_eq.
Qed.

Lemma borders_lookup (rg : cell_range) (k : Z * Z) :
  rg ∈ outline_list lays (len students) → in_range rg k →
  foldl set_outline ∅ (outline_list lays (len students)) !! k
  = Some (outline_border rg k).
Proof.
  intros Hrg Hk. apply outlines_lookup_in; [done | done |].
  intros rg' Hrg' Hk'. by apply (outline_list_disjoint rg' rg k).
Qed.

(** X18. Borders.  One call of [_set_medium_outline] gives every cell of
    its rectangle a border that is medium on the sides lying on the
    rectangle's edge and thin elsewhere, and leaves all other cells as
    they were.  On a folder sheet built from a configuration of the
    editor's shape the outlined rectangles do not overlap, so every one
    keeps its frame: the leading columns 1 to 5 from row 4, every task's
    summary block and every subtask's point columns from row 3, each down
    to row [6 + n]; no other cell gets a border. *)
Theorem folder_sheet_borders :
  (∀ (ws : border_map) (rg : cell_range) (k : Z * Z),
     _set_medium_outline ws (min_row rg) (max_row rg) (min_col rg) (max_col rg)
       !! k
     = if bool_decide (in_range rg k) then Some (outline_border rg k)
       else ws !! k)
  ∧ ∃ bs,
      mappe_borders lays (len students) = Ok bs
      ∧ (∀ k, in_range (mkRange 4 last_row 1 5) k →
           bs !! k = Some (outline_border (mkRange 4 last_row 1 5) k))
      ∧ (∀ (a : nat) (lay : Layout),
           lays !! a = Some lay →
           (∀ k, in_range (mkRange 3 last_row (ss_col lay) (ss_col lay + n_teil lay)) k →
              bs !! k
              = Some (outline_border
                        (mkRange 3 last_row (ss_col lay) (ss_col lay + n_teil lay)) k))
           ∧ ∀ (t : nat) (st pt : Z),
               teil_point_starts lay !! t = Some st →
               teil_punkte lay !! t = Some pt →
               ∀ k, in_range (mkRange 3 last_row st (st + pt - 1)) k →
                 bs !! k
                 = Some (outline_border (mkRange 3 last_row st (st + pt - 1)) k))
      ∧ ∀ (r c : Z) (b : Border),
          bs !! (r, c) = Some b →
          3 ≤ r ≤ last_row ∧ 1 ≤ c ≤ 5 + width ∧ (r = 3 → 6 ≤ c).
Proof.
  split; [intros ws rg k; apply (set_outline_lookup ws rg k) |].
  pose proof (wf_lays_ok aufgaben Hwf) as Hok.
  eexists. split; [by apply mappe_borders_eq |].
  split; [intros k Hk; apply borders_lookup; [left | done] |].
  split.
  - intros a lay Hlay.
    destruct (lay_at aufgaben a lay Hlay) as (af & _ & _ & _ & _ & _ & _ & He & _).
    split.
    + intros k Hk. apply borders_lookup; [|done]. rewrite <- He.
      by apply (outline_list_elem_block lays (len students) a).
    + intros t st pt Hst Hpt k Hk. apply borders_lookup; [|done].
      rewrite Forall_lookup in Hok.
      by apply (outline_list_elem_run lays (len students) a t lay st pt
                  (Hok a lay Hlay)).
  - intros r c b Hb.
    destruct (decide (Exists (λ rg, in_range rg (r, c))
                        (outline_list lays (len students)))) as [Hex | Hno].
    + apply Exists_exists in Hex as (rg & Hrg & [Hr Hc]).
      pose proof (phase2_start_ge aufgaben) as Hp2.
      pose proof (len_nonneg aufgaben) as Hna.
      destruct (wf_all_columns aufgaben Hwf) as (_ & Hbw & Hpw).
      rewrite block_width_sum in Hbw.
      change (sumZ (points_width <$> aufgaben)) with (total_points aufgaben) in Hpw.
      apply outline_list_inv in Hrg
        as [-> | [(a & lay & Hl & Hge & Hlt & ->)
                 | (a & t & lay & st & pt & Hl & Hst & Hpt & Hpos & Hge & ->)]];
        unfold first_col in *; cbn in *.
      * lia.
      * unfold phase2_start, first_col in *. rewrite block_width_sum in *. lia.
      * pose proof (layout_col_bounds aufgaben Hwf _
                      (point_col_in aufgaben Hwf _
                         (point_offset_in aufgaben Hwf a t lay st pt (c - st)
                            Hl Hst Hpt ltac:(lia)))) as Hcb.
        unfold first_col in *. lia.
    + apply not_Exists_Forall in Hno; [|intros rg; apply _].
      rewrite outlines_lookup_out in Hb by done.
      by rewrite lookup_empty in Hb.
Qed.

End Borders.

Lemma folder_sheet_borders_witness :
  wf_config config_2_3
  ∧ ∃ bs,
      mappe_borders (aufgabe_layouts config_2_3) (len (roster 2)) = Ok bs
      ∧ bs !! (3, 6) = Some (mkBorder MEDIUM THIN MEDIUM THIN)
      ∧ bs !! (8, 18) = Some (mkBorder MEDIUM MEDIUM THIN MEDIUM)
      ∧ bs !! (3, 1) = None.
Proof.
  split; [exact wf_config_2_3 |].
  destruct (proj2 (folder_sheet_borders config_2_3 wf_config_2_3 (roster 2)))
    as (bs & Hb & _ & Hl & Hext).
  exists bs. split; [exact Hb |].
  destruct (Hl 0%nat _ eq_refl) as [Hblock _].
  destruct (Hl 1%nat _ eq_refl) as [_ Hrun].
  split; [| split].
  - apply (Hblock (3, 6)). change ((3 ≤ 3 ≤ 8) ∧ (6 ≤ 6 ≤ 8)). lia.
  - apply (Hrun 0%nat 18 1 eq_refl eq_refl (8, 18)).
    change ((3 ≤ 8 ≤ 8) ∧ (18 ≤ 18 ≤ 18)). lia.
  - destruct (bs !! (3, 1)) as [b|] eqn:Hv; [|reflexivity].
    apply Hext in Hv. lia.
Defined.

(** ** The name of the downloaded file *)

Lemma str_chars_app (s1 s2 : string) :
  str_chars (s1 +:+ s2) = str_chars s1 ++ str_chars s2.
Proof.
  unfold str_chars. induction s1 as [|c s1 IH]; simpl; [done | by rewrite IH].
Qed.

Lemma str_replace_char_chars (old : Ascii.ascii) (new s : string) (c : Ascii.ascii) :
  c ∈ str_chars (str_replace_char old new s) →
  (c ∈ str_chars s ∧ c ≠ old) ∨ c ∈ str_chars new.
Proof.
  induction s as [|x s IH]; simpl; [by intros ?%elem_of_nil |].
  case_bool_decide as Hx.
  - rewrite str_chars_app, elem_of_app. intros [Hnew | Hrest]; [by right |].
    destruct (IH Hrest) as [[Hin Hne] | Hnew]; [left | by right].
    split; [by right | done].
  - intros [-> | Hrest]%elem_of_cons.
    + left. split; [left | done].
    + destruct (IH Hrest) as [[Hin Hne] | Hnew]; [left | by right].
      split; [by right | done].
Qed.

Lemma str_replace_char_absent (old : Ascii.ascii) (new s : string) :
  old ∉ str_chars s → str_replace_char old new s = s.
Proof.
  induction s as [|x s IH]; simpl; [done |].
  intros Hnin. rewrite bool_decide_eq_false_2.
  - f_equal. apply IH. intros Hin. apply Hnin. by right.
  - intros ->. apply Hnin. left.
Qed.

Lemma string_length_app (s1 s2 : string) :
  String.length (s1 +:+ s2) = (String.length s1 + String.length s2)%nat.
Proof. induction s1 as [|c s1 IH]; simpl; [done | by rewrite IH]. Qed.

Lemma str_replace_delete_length (old : Ascii.ascii) (s : string) :
  (String.length (str_replace_char old EmptyString s) + str_count old s
   = String.length s)%nat.
Proof.
  unfold str_count, str_chars.
  induction s as [|x s IH]; simpl; [done |].
  rewrite filter_cons. case_bool_decide as Hx.
  - rewrite decide_True by done. rewrite string_length_app. simpl. lia.
  - rewrite decide_False by done. simpl. lia.
Qed.

Lemma str_replace_one_length (old new : Ascii.ascii) (s : string) :
  String.length (str_replace_char old (String new EmptyString) s)
  = String.length s.
Proof.
  induction s as [|x s IH]; simpl; [done |].
  case_bool_decide; rewrite ?string_length_app; simpl; by rewrite IH.
Qed.

Lemma str_replace_one_count (old new c : Ascii.ascii) (s : string) :
  c ≠ old → c ≠ new →
  str_count c (str_replace_char old (String new EmptyString) s) = str_count c s.
Proof.
  intros Ho Hn. unfold str_count.
  induction s as [|x s IH]; simpl; [done |].
  case_bool_decide as Hx.
  - subst x. rewrite str_chars_app. unfold str_chars at 1 3. simpl.
    rewrite !filter_cons, !decide_False by done. apply IH.
  - unfold str_chars. simpl. rewrite !filter_cons.
    destruct (decide (x = c)); simpl; unfold str_chars in IH; by rewrite IH.
Qed.

(** X19. The name of the downloaded workbook: it holds neither a blank
    nor a slash, whatever the semester text is; it is 18 characters longer
    than the semester text less one for every slash in it; and for a
    semester text without blank and slash it is that text between
    Punktezettel_ and .xlsx. *)
Theorem download_file_name_safe (semester : string) :
  (" "%char ∉ str_chars (download_file_name semester))
  ∧ ("/"%char ∉ str_chars (download_file_name semester))
  ∧ (String.length (download_file_name semester) + str_count "/"%char semester
     = 18 + String.length semester)%nat
  ∧ ((" "%char ∉ str_chars semester) → ("/"%char ∉ str_chars semester) →
     download_file_name semester = "Punktezettel_" +:+ semester +:+ ".xlsx").
Proof.
  assert (Hmid : ∀ c, c = " "%char ∨ c = "/"%char →
            c ∉ str_chars
                  (str_replace_char "/"%char EmptyString
                     (str_replace_char " "%char "_" semester))).
  { intros c Hc Hin.
    apply str_replace_char_chars in Hin as [[Hin Hne] | Hin];
      [|by apply elem_of_nil in Hin].
    apply str_replace_char_chars in Hin as [[Hin Hne'] | Hin].
    - by destruct Hc.
    - apply list_elem_of_singleton in Hin. by destruct Hc; simplify_eq. }
  assert (Hall : ∀ c, c = " "%char ∨ c = "/"%char →
            c ∉ str_chars (download_file_name semester)).
  { intros c Hc. unfold download_file_name.
    rewrite !str_chars_app, !elem_of_app. intros [Hin | [Hin | Hin]].
    - unfold str_chars in Hin. simpl in Hin.
      destruct Hc as [-> | ->]; elem_cases Hin.
    - by apply (Hmid c).
    - unfold str_chars in Hin. simpl in Hin.
      destruct Hc as [-> | ->]; elem_cases Hin. }
  split; [apply Hall; by left |]. split; [apply Hall; by right |]. split.
  - unfold download_file_name. rewrite !string_length_app. simpl String.length.
    pose proof (str_replace_delete_length "/"%char (str_replace_char " "%char "_" semester))
      as Hd.
    rewrite (str_replace_one_count " "%char "_"%char "/"%char semester) in Hd by done.
    rewrite (str_replace_one_length " "%char "_"%char semester) in Hd. lia.
  - intros Hsp Hsl. unfold download_file_name.
    rewrite (str_replace_char_absent " "%char "_" semester Hsp).
    by rewrite (str_replace_char_absent "/"%char EmptyString semester Hsl).
Qed.

Lemma download_file_name_safe_witness :
  download_file_name "WiSe 25/26" = "Punktezettel_WiSe_2526.xlsx"%string
  ∧ (String.length (download_file_name "WiSe 25/26") + str_count "/"%char "WiSe 25/26"
     = 18 + String.length "WiSe 25/26")%nat
  ∧ download_file_name "SoSe2026" = "Punktezettel_SoSe2026.xlsx"%string.
Proof.
  split; [reflexivity |].
  destruct (download_file_name_safe "WiSe 25/26") as (_ & _ & Hlen & _).
  split; [exact Hlen |].
  destruct (download_file_name_safe "SoSe2026") as (_ & _ & _ & Hplain).
  apply Hplain; unfold str_chars; simpl; intros Hin; elem_cases Hin.
Defined.

(** * The claims that rest on whole sheets *)

(** ** The leading columns *)

(** C3 as stated fails: the first task-summary column is column 6. *)
Lemma C3_counterexample :
  ss_col <$> aufgabe_layouts config_1x44 !! 0%nat = Some 6
  ∧ ss_col <$> aufgabe_layouts config_1x44 !! 0%nat ≠ Some 7.
Proof. split; [reflexivity | discriminate]. Qed.

(** C3, amended. On a folder sheet five leading columns lie before the
    layout: the first task-summary column is column 6, where the cursor
    starts, and no layout column is below 6.  Columns 1 to 4 hold the
    position in the folder, the matriculation id, the last name and the
    first name, under the headers Nr, Matr-Nr, Nachname and Vorname.
    Column 5 holds the folder number in row 2 and the header Richtige
    Klausur? in row 3 and no value in any other row.  The six identity fields
    (folder id, slot, code, matriculation id, last name, first name) are
    the columns 1 to 6 of the overview sheet, under the headers Mappe,
    Stelle in Mappe, KlausurCode, Matrikelnummer, Nachname and Vorname,
    and that sheet holds no value outside these six columns. *)
Theorem C3_leading_columns (get_column_letter : Z → string)
    (sheet_name : string) (aufgaben : list Aufgabe)
    (students_in_mappe : list Student) (mappe_nr : Z) (semester : string)
    (exam_date : cell_value) (students : list Student) (studis_pro_mappe : Z) :
  wf_config aufgaben →
  studis_pro_mappe ≠ 0 →
  ∃ mappe studenten lay0,
    build_mappe_sheet get_column_letter sheet_name aufgaben students_in_mappe
      mappe_nr semester exam_date = Ok mappe
    ∧ build_studenten_sheet students studis_pro_mappe = Ok studenten
    ∧ aufgabe_layouts aufgaben !! 0%nat = Some lay0
    ∧ ss_col lay0 = 6
    ∧ (∀ c, c ∈ all_columns (aufgabe_layouts aufgaben) → 6 ≤ c)
    ∧ cells mappe !! (4, 1) = Some (VStr "Nr")
    ∧ cells mappe !! (4, 2) = Some (VStr "Matr-Nr")
    ∧ cells mappe !! (4, 3) = Some (VStr "Nachname")
    ∧ cells mappe !! (4, 4) = Some (VStr "Vorname")
    ∧ (∀ (s_idx : nat) (student : Student),
         students_in_mappe !! s_idx = Some student →
         let r := 7 + Z.of_nat s_idx in
         cells mappe !! (r, 1) = Some (VInt (Z.of_nat s_idx))
         ∧ cells mappe !! (r, 2) = Some (VStr (matr_nr student))
         ∧ cells mappe !! (r, 3) = Some (VStr (nachname student))
         ∧ cells mappe !! (r, 4) = Some (VStr (vorname student)))
    ∧ cells mappe !! (2, 5) = Some (VInt mappe_nr)
    ∧ cells mappe !! (3, 5) = Some (VStr "Richtige Klausur?")
    ∧ (∀ r, r ≠ 2 → r ≠ 3 → cells mappe !! (r, 5) = None)
    ∧ cells studenten !! (1, 1) = Some (VStr "Mappe")
    ∧ cells studenten !! (1, 2) = Some (VStr "Stelle in Mappe")
    ∧ cells studenten !! (1, 3) = Some (VStr "KlausurCode")
    ∧ cells studenten !! (1, 4) = Some (VStr "Matrikelnummer")
    ∧ cells studenten !! (1, 5) = Some (VStr "Nachname")
    ∧ cells studenten !! (1, 6) = Some (VStr "Vorname")
    ∧ (∀ (idx : nat) (student : Student),
         students !! idx = Some student →
         let r := Z.of_nat idx + 2 in
         let mappe_id := Z.of_nat idx `div` studis_pro_mappe + 1 in
         let stelle := Z.of_nat idx `mod` studis_pro_mappe in
         cells studenten !! (r, 1) = Some (VInt mappe_id)
         ∧ cells studenten !! (r, 2) = Some (VInt stelle)
         ∧ cells studenten !! (r, 3)
           = Some (VStr (pretty mappe_id +:+ "_" +:+ pretty stelle))
         ∧ cells studenten !! (r, 4) = Some (VStr (matr_nr student))
         ∧ cells studenten !! (r, 5) = Some (VStr (nachname student))
         ∧ cells studenten !! (r, 6) = Some (VStr (vorname student)))
    ∧ ∀ (r c : Z) (v : cell_value),
        cells studenten !! (r, c) = Some v → 1 ≤ c ≤ 6.
Proof.
  intros Hwf Hcap.
  destruct aufgaben as [|aufgabe rest] eqn:Haufg; [by destruct Hwf |].
  rewrite <- Haufg in *.
  assert (H0 : aufgaben !! 0%nat = Some aufgabe) by by rewrite Haufg.
  pose proof (row2_list_rows aufgaben Hwf mappe_nr exam_date) as Hw2.
  pose proof (row3_list_rows aufgaben Hwf) as Hw3.
  eexists _, _, _.
  split; [by apply build_mappe_sheet_eq |].
  split; [by apply build_studenten_sheet_eq |].
  split; [by apply aufgabe_layouts_lookup |].
  split.
  { cbn [ss_col]. unfold block_start. rewrite take_0. csimpl. unfold first_col. lia. }
  split.
  { intros c Hc. apply (wf_columns_ge aufgaben Hwf).
    by rewrite row_columns_perm by by apply wf_lays_ok. }
  cbn [cells].
  do 4 (split; [apply (sheet_row4_header get_column_letter aufgaben Hwf
                         students_in_mappe semester _ _ Hw2 Hw3);
                unfold row4_headers; set_solver- |]).
  split.
  { intros s_idx student Hs.
    repeat split;
      apply (sheet_student_cell get_column_letter aufgaben Hwf students_in_mappe
               semester _ _ Hw2 Hw3 s_idx student); try done;
      unfold student_cells; cbn zeta; apply elem_of_app; left; set_solver-. }
  split.
  { apply (folder_row2_fixed get_column_letter aufgaben Hwf students_in_mappe
             mappe_nr semester exam_date 5 (VInt mappe_nr)).
    unfold row2_fixed. do 3 right; left. }
  split; [by apply folder_row3_check |].
  split.
  { intros r Hr2 Hr3.
    destruct (ws_write_all _ _ !! (r, 5)) as [v|] eqn:Hv; [|done].
    apply ws_write_all_Some_in in Hv.
    apply (mappe_list_leading get_column_letter aufgaben Hwf students_in_mappe
             mappe_nr semester exam_date) in Hv; [|unfold first_col; lia].
    destruct Hv as [Hc | (_ & [[-> _] | [-> _]])]; [lia | done | done]. }
  split; [exact (studenten_list_header studis_pro_mappe students 0 _ eq_refl) |].
  split; [exact (studenten_list_header studis_pro_mappe students 1 _ eq_refl) |].
  split; [exact (studenten_list_header studis_pro_mappe students 2 _ eq_refl) |].
  split; [exact (studenten_list_header studis_pro_mappe students 3 _ eq_refl) |].
  split; [exact (studenten_list_header studis_pro_mappe students 4 _ eq_refl) |].
  split; [exact (studenten_list_header studis_pro_mappe students 5 _ eq_refl) |].
  split.
  - intros idx student Hidx.
    repeat split;
      (apply (studenten_list_cell _ _ idx student); [done |]);
      unfold studenten_cells; cbn [fst snd].
    + left.
    + right; left.
    + do 2 right; left.
    + do 3 right; left.
    + do 4 right; left.
    + do 5 right; left.
  - intros r c v Hv%ws_write_all_Some_in.
    unfold studenten_list in Hv. apply elem_of_app in Hv as [Hv | Hv].
    + apply studenten_header_inv in Hv as (j & h & Hj%lookup_lt_Some & Heq).
      simplify_eq. unfold studenten_headers in Hj. simpl in Hj. lia.
    + apply studenten_rows_inv in Hv as (idx & student & _ & Hv).
      apply studenten_cells_rows in Hv. cbn [fst snd] in Hv. lia.
Qed.

Lemma C3_witness :
  wf_config config_1x44
  ∧ ∃ mappe studenten,
      build_mappe_sheet column_name "Mappe 1" config_1x44 (roster 2) 1
        "WiSe 25/26" (VStr "2026-02-01") = Ok mappe
      ∧ build_studenten_sheet (roster 12) 5 = Ok studenten
      ∧ cells mappe !! (4, 1) = Some (VStr "Nr")
      ∧ cells mappe !! (7, 4) = Some (VStr "V0")
      ∧ cells mappe !! (4, 5) = None
      ∧ cells mappe !! (8, 5) = None
      ∧ cells studenten !! (1, 3) = Some (VStr "KlausurCode")
      ∧ cells studenten !! (9, 3) = Some (VStr "2_2").
Proof.
  split; [exact wf_config_1x44 |].
  destruct (C3_leading_columns column_name "Mappe 1" config_1x44 (roster 2) 1
              "WiSe 25/26" (VStr "2026-02-01") (roster 12) 5 wf_config_1x44
              ltac:(lia))
    as (mappe & studenten & lay0 & Hm & Hs & _ & _ & _ & H41 & _ & _ & _ & Hst
        & _ & _ & H5 & _ & _ & H13 & _ & _ & _ & Hrow & _).
  exists mappe, studenten. split; [exact Hm |]. split; [exact Hs |].
  split; [exact H41 |].
  split; [exact (proj2 (proj2 (proj2 (Hst 0%nat _ eq_refl)))) |].
  split; [apply H5; lia |]. split; [apply H5; lia |].
  split; [exact H13 |].
  exact (proj1 (proj2 (proj2 (Hrow 7%nat _ eq_refl)))).
Defined.

(** ** The average cell as the spreadsheet reads it *)











(** ** The folders of the workbook *)




(** ** From the page to the workbook *)

Lemma mappe_title_inj : Inj (=) (=) (λ m : Z, "Mappe " +:+ pretty (m + 1)).
Proof.
  intros m1 m2 Heq. simpl in Heq. simplify_eq. lia.
Qed.

(** X15. Every configuration the page can reach whose folder sheet ends
    at or before column 18278, the last one openpyxl names, gives a
    workbook, for any roster of fewer than [2 ^ 53] students and any
    capacity from 1 to below [2 ^ 53]: the sheet Studenten followed by
    the sheets Mappe 1 to Mappe k for the k = ceil(n / capacity) folders,
    all titles different, and no cell of any sheet beyond column 18278. *)
Theorem ui_reachable_workbook (get_column_letter : Z → string)
    (students : list Student) (aufgaben : list Aufgabe) (studis_pro_mappe : Z)
    (semester : string) (exam_date : cell_value) :
  ui_reachable aufgaben →
  5 + (len aufgaben + total_subtasks aufgaben + total_points aufgaben)
    ≤ max_column →
  1 ≤ studis_pro_mappe < 2 ^ 53 →
  len students < 2 ^ 53 →
  ∃ n_mappen sheets,
    (n_mappen - 1) * studis_pro_mappe < len students ≤ n_mappen * studis_pro_mappe
    ∧ generate_excel get_column_letter students aufgaben studis_pro_mappe
        semester exam_date = Ok sheets
    ∧ title <$> sheets
      = "Studenten"%string
          :: ((λ m, "Mappe " +:+ pretty (m + 1)) <$> range n_mappen)
    ∧ len sheets = 1 + n_mappen
    ∧ NoDup (title <$> sheets)
    ∧ ∀ (sheet : Sheet) (r c : Z) (v : cell_value),
        sheet ∈ sheets → cells sheet !! (r, c) = Some v → 1 ≤ c ≤ max_column.
Proof.
  intros Hwf%ui_reachable_wf Hwidth [Hcap Hc53] Hn53.
  destruct (ceil_div_spec studis_pro_mappe Hcap (len students))
    as (k & Hk & Hb); [split; [apply len_nonneg | done] | done |].
  pose proof (len_nonneg students) as Hn.
  assert (Hk0 : 0 ≤ k) by nia.
  exists k. eexists. split; [done |].
  split; [apply (generate_excel_eq _ _ _ _ _ _ k); [done | lia | done] |].
  assert (Ht : title <$> (studenten_sheet students studis_pro_mappe
                 :: (mappe_sheet get_column_letter students aufgaben
                       studis_pro_mappe semester exam_date <$> range k))
               = "Studenten"%string
                   :: ((λ m, "Mappe " +:+ pretty (m + 1)) <$> range k)).
  { csimpl. f_equal. rewrite <- list_fmap_compose. by apply list_fmap_ext. }
  split; [exact Ht |]. split.
  { unfold len, range. cbn [length]. rewrite length_fmap, length_seqZ. lia. }
  split.
  { rewrite Ht. apply NoDup_cons. split.
    + intros (m & Hm & _)%list_elem_of_fmap. simpl in Hm. discriminate.
    + apply (@NoDup_fmap_2 _ _ _ mappe_title_inj). apply NoDup_seqZ. }
  intros sheet r c v [-> | (m & -> & _)%list_elem_of_fmap]%elem_of_cons Hv.
  - unfold studenten_sheet in Hv. cbn [cells] in Hv.
    apply ws_write_all_Some_in in Hv.
    unfold studenten_list in Hv. apply elem_of_app in Hv as [Hv | Hv].
    + apply studenten_header_inv in Hv as (j & h & Hj%lookup_lt_Some & Heq).
      simplify_eq. unfold studenten_headers in Hj. simpl in Hj.
      unfold max_column. lia.
    + apply studenten_rows_inv in Hv as (idx & student & _ & Hv).
      apply studenten_cells_rows in Hv. cbn [fst snd] in Hv.
      unfold max_column. lia.
  - unfold mappe_sheet in Hv. cbn [cells] in Hv.
    apply ws_write_all_Some_in in Hv.
    apply (mappe_list_key get_column_letter aufgaben Hwf) in Hv as [[_ Hc] _].
    unfold first_col in Hc. lia.
Qed.

Lemma ui_reachable_workbook_witness :
  ui_reachable config_edited
  ∧ ∃ sheets,
      generate_excel column_name (roster 12) config_edited 5
        "WiSe 25/26" (VStr "2026-02-01") = Ok sheets
      ∧ title <$> sheets = ["Studenten"; "Mappe 1"; "Mappe 2"; "Mappe 3"]%string
      ∧ len sheets = 4.
Proof.
  split; [exact ui_reachable_config_edited |].
  destruct (ui_reachable_workbook column_name (roster 12) config_edited 5
              "WiSe 25/26" (VStr "2026-02-01") ui_reachable_config_edited
              ltac:(by vm_compute) ltac:(split; [lia | reflexivity])
              ltac:(reflexivity))
    as (k & sheets & Hb & Hg & Ht & Hlen & _).
  assert (k = 3) as -> by (change (len (roster 12)) with 12 in Hb; lia).
  exists sheets. split; [exact Hg |]. split; [exact Ht | exact Hlen].
Defined.
